(** * Pre-release guard: stage gating and tag integrity

    A shallow embedding of [scripts/ci/prerelease_guard.py] and the
    properties its specification states about it.

    Modelling conventions.
    - A Python [str] is a [string]; its characters are the code points
      below 256.  On that range the regular-expression class [\d] is
      exactly [0-9], and [str.isspace] / [str.splitlines] are the tables
      written out in [PyStr].
    - [dict]s with string keys are [gmap string _].
    - The [git] subprocess is an explicit transition function on an
      abstract repository state; every invocation is logged with its
      result.
    - A raised exception is a value of [exn]; [main] runs in a small
      state-and-exception monad.
    - [int] is applied by the script to non-empty runs of decimal digits
      only; on these it returns the decimal value, or raises
      [ValueError] when the run is longer than
      [sys.get_int_max_str_digits()], which is 4300 unless the
      interpreter is configured otherwise. *)

From Stdlib Require Import ZArith NArith Ascii String Lia.
From stdpp Require Import base option list strings gmap pretty.

(** ** Exceptions and results *)

Inductive exn :=
| RuntimeError (msg : string)
| ValueError (msg : string)
| IndexError (msg : string).

Inductive result (A : Type) :=
| Ret (a : A)
| Raise (e : exn).
Arguments Ret {A} a.
Arguments Raise {A} e.

(** ** Python string operations used by the script *)

Module PyStr.

(** [str.isspace] for one character (code points below 256). *)
Definition isspace (c : ascii) : bool :=
  let n := nat_of_ascii c in
  (((9 <=? n) && (n <=? 13)) || ((28 <=? n) && (n <=? 32))
   || (n =? 133) || (n =? 160))%nat.

(** The line boundaries of [str.splitlines], apart from the pair CR LF. *)
Definition islinebreak (c : ascii) : bool :=
  let n := nat_of_ascii c in
  (((10 <=? n) && (n <=? 13)) || ((28 <=? n) && (n <=? 30)) || (n =? 133))%nat.

Definition DQUOTE : ascii := ascii_of_nat 34.
Definition CR : ascii := ascii_of_nat 13.
Definition LF : ascii := ascii_of_nat 10.

Fixpoint lstrip (s : string) : string :=
  match s with
  | String c s' => if isspace c then lstrip s' else s
  | EmptyString => EmptyString
  end.

Fixpoint rstrip (s : string) : string :=
  match s with
  | String c s' =>
      match rstrip s' with
      | EmptyString => if isspace c then EmptyString else String c EmptyString
      | r => String c r
      end
  | EmptyString => EmptyString
  end.

(** [s.strip()] *)
Definition strip (s : string) : string := rstrip (lstrip s).

(** [s.startswith(p)] *)
Definition startswith (s p : string) : bool := String.prefix p s.

(** [s.splitlines()]: [cur] is the line being read, reversed.  A line
    boundary closes the current line even when it is empty; text after
    the last boundary is a line only when it is not empty. *)
Fixpoint splitlines_from (cur : list ascii) (s : string) : list string :=
  match s with
  | EmptyString =>
      match cur with
      | [] => []
      | _ => [string_of_list_ascii (rev cur)]
      end
  | String c s' =>
      if islinebreak c then
        string_of_list_ascii (rev cur) ::
          (match s' with
           | String d s'' =>
               if Ascii.eqb c CR && Ascii.eqb d LF
               then splitlines_from [] s''
               else splitlines_from [] s'
           | EmptyString => splitlines_from [] s'
           end)
      else splitlines_from (c :: cur) s'
  end.

Definition splitlines (s : string) : list string := splitlines_from [] s.

(** [s.split(sep, maxsplit)] for a one-character separator. *)
Fixpoint split_from (sep : ascii) (maxsplit : nat) (cur : list ascii)
    (s : string) : list string :=
  match s with
  | EmptyString => [string_of_list_ascii (rev cur)]
  | String c s' =>
      match maxsplit with
      | O => [string_of_list_ascii (rev cur) +:+ s]
      | S m =>
          if Ascii.eqb c sep
          then string_of_list_ascii (rev cur) :: split_from sep m [] s'
          else split_from sep maxsplit (c :: cur) s'
      end
  end.

Definition split (s : string) (sep : ascii) (maxsplit : nat) : list string :=
  split_from sep maxsplit [] s.

(** [sep.join(parts)] *)
Definition join (sep : string) (parts : list string) : string :=
  String.concat sep parts.

(** [int(s)] on a non-empty string of decimal digits. *)
Definition digit_value (c : ascii) : N := (N_of_ascii c - 48)%N.

Fixpoint int_from (acc : N) (s : string) : N :=
  match s with
  | EmptyString => acc
  | String c s' => int_from (10 * acc + digit_value c)%N s'
  end.

(** [sys.get_int_max_str_digits()], at its default. *)
Definition int_max_str_digits : N := 4300%N.

(** [str(exc)] of the [ValueError] that [int] raises on [digits] digits. *)
Definition int_limit_message (digits : N) : string :=
  "Exceeds the limit (" +:+ pretty int_max_str_digits
  +:+ " digits) for integer string conversion: value has " +:+ pretty digits
  +:+ " digits; use sys.set_int_max_str_digits() to increase the limit".

Definition int (s : string) : result N :=
  let digits := N.of_nat (String.length s) in
  if (int_max_str_digits <? digits)%N
  then Raise (ValueError (int_limit_message digits))
  else Ret (int_from 0%N s).

End PyStr.

(** ** The fragment of Python's [re] that the two tag patterns use *)

Module Re.

Inductive atom :=
| Chr (c : ascii)     (* a literal character *)
| Digit.              (* \d *)

Inductive regex :=
| Eps                              (* the empty pattern *)
| Bol                              (* ^ *)
| Eol                              (* $ *)
| One (a : atom)
| Many1 (a : atom)                 (* a+ , greedy *)
| Cat (r1 r2 : regex)
| Alt (r1 r2 : regex)              (* r1|r2 , r1 tried first *)
| Group (name : string) (r : regex). (* (?P<name>r) *)

Definition is_digit (c : ascii) : bool :=
  let n := nat_of_ascii c in ((48 <=? n) && (n <=? 57))%nat.

Definition atom_ok (a : atom) (c : ascii) : bool :=
  match a with
  | Chr d => Ascii.eqb c d
  | Digit => is_digit c
  end.

(** A literal word, character by character. *)
Fixpoint Lit (s : string) : regex :=
  match s with
  | EmptyString => Eps
  | String c s' => Cat (One (Chr c)) (Lit s')
  end.

Section Matcher.
Context {A : Type}.

(** Greedy repetition with backtracking: the longest run of [a] is
    tried first, then shorter ones. *)
Fixpoint many (a : atom) (pos : nat) (s : string)
    (k : nat -> string -> option A) : option A :=
  match s with
  | String c s' =>
      if atom_ok a c then
        match many a (S pos) s' k with
        | Some x => Some x
        | None => k pos s
        end
      else k pos s
  | EmptyString => k pos s
  end.

(** The backtracking matcher: [subj] is the whole subject, [pos] the
    current offset, [s] the text from [pos] on, [g] the groups
    captured so far and [k] what remains to be matched. *)
Fixpoint run (subj : string) (r : regex) (pos : nat) (s : string)
    (g : gmap string string)
    (k : nat -> string -> gmap string string -> option A) : option A :=
  match r with
  | Eps => k pos s g
  | Bol => if (pos =? 0)%nat then k pos s g else None
  | Eol =>
      match s with
      | EmptyString => k pos s g
      | String c EmptyString => if Ascii.eqb c PyStr.LF then k pos s g else None
      | _ => None
      end
  | One a =>
      match s with
      | String c s' => if atom_ok a c then k (S pos) s' g else None
      | EmptyString => None
      end
  | Many1 a =>
      match s with
      | String c s' =>
          if atom_ok a c then many a (S pos) s' (fun p t => k p t g) else None
      | EmptyString => None
      end
  | Cat r1 r2 => run subj r1 pos s g (fun p t g' => run subj r2 p t g' k)
  | Alt r1 r2 =>
      match run subj r1 pos s g k with
      | Some x => Some x
      | None => run subj r2 pos s g k
      end
  | Group name r1 =>
      run subj r1 pos s g
        (fun p t g' => k p t (<[name := String.substring pos (p - pos) subj]> g'))
  end.
End Matcher.

(** [pattern.fullmatch(subj)]: the groups of a match that ends at the
    end of the subject. *)
Definition fullmatch (r : regex) (subj : string) : option (gmap string string) :=
  run subj r 0 subj ∅
    (fun _ t g => match t with EmptyString => Some g | _ => None end).

(** [m.group(name)] *)
Definition group (m : gmap string string) (name : string) : string :=
  default "" (m !! name).

(** The words a pattern can consume, anchors taken as empty. *)
Fixpoint lang (r : regex) (w : string) : Prop :=
  match r with
  | Eps | Bol | Eol => w = ""
  | One a => exists c, w = String c "" /\ atom_ok a c = true
  | Many1 a =>
      w <> "" /\ forall c, In c (list_ascii_of_string w) -> atom_ok a c = true
  | Cat r1 r2 => exists w1 w2, w = w1 +:+ w2 /\ lang r1 w1 /\ lang r2 w2
  | Alt r1 r2 => lang r1 w \/ lang r2 w
  | Group _ r1 => lang r1 w
  end.

(** The characters that can occur in a word of the pattern. *)
Fixpoint alphabet (r : regex) (c : ascii) : bool :=
  match r with
  | Eps | Bol | Eol => false
  | One a | Many1 a => atom_ok a c
  | Cat r1 r2 | Alt r1 r2 => alphabet r1 c || alphabet r2 c
  | Group _ r1 => alphabet r1 c
  end.

End Re.

(** ** The tag grammar (lines 14-49) *)

Import Re.

Declare Scope re_scope.
Delimit Scope re_scope with re.
Infix "·" := Cat (at level 40, left associativity) : re_scope.

Definition digits : regex := Many1 Digit.
Definition dot : regex := One (Chr ".").

(** [\d+\.\d+\.\d+] *)
Definition version_re : regex := (digits · dot · digits · dot · digits)%re.

(** [^v(?P<version>\d+\.\d+\.\d+)$] *)
Definition STABLE_TAG_RE : regex :=
  (Bol · One (Chr "v") · Group "version" version_re · Eol)%re.

(** [^v(?P<version>\d+\.\d+\.\d+)-(?P<stage>alpha|beta|rc)\.(?P<number>\d+)$] *)
Definition PRERELEASE_TAG_RE : regex :=
  (Bol · One (Chr "v") · Group "version" version_re · One (Chr "-")
   · Group "stage" (Alt (Alt (Lit "alpha") (Lit "beta")) (Lit "rc"))
   · dot · Group "number" digits · Eol)%re.

Definition STAGE_RANK : gmap string Z :=
  {[ "alpha" := 1%Z; "beta" := 2%Z; "rc" := 3%Z; "stable" := 4%Z ]}.

(** [STAGE_RANK.get(s, 0)] *)
Definition stage_rank (s : string) : Z := default 0%Z (STAGE_RANK !! s).

Definition malformed_tag_message (tag : string) : string :=
  "Tag `" +:+ tag +:+
  "` must be `vX.Y.Z` or `vX.Y.Z-(alpha|beta|rc).N` (for example `v0.2.0-rc.1`).".

Definition parse_tag (tag : string) : result (string * string * option N) :=
  match fullmatch STABLE_TAG_RE tag with
  | Some stable_match => Ret (group stable_match "version", "stable", None)
  | None =>
      match fullmatch PRERELEASE_TAG_RE tag with
      | Some pre_match =>
          match PyStr.int (group pre_match "number") with
          | Ret number =>
              Ret (group pre_match "version", group pre_match "stage", Some number)
          | Raise e => Raise e
          end
      | None => Raise (ValueError (malformed_tag_message tag))
      end
  end.

(** ** Processes, arguments, policy and report *)

(** What [subprocess.run(..., capture_output=True, check=False)] returns. *)
Record CompletedProcess := {
  returncode : Z;
  stdout : string;
  stderr : string
}.

(** [--mode], restricted by argparse to its two choices. *)
Inductive Mode := DryRun | Publish.

Definition mode_name (m : Mode) : string :=
  match m with DryRun => "dry-run" | Publish => "publish" end.

(** [m == "publish"] *)
Definition is_publish (m : Mode) : bool :=
  match m with Publish => true | DryRun => false end.

(** The parsed command line (lines 88-96), without the paths. *)
Record Args := {
  tag : string;
  mode : Mode;
  fail_on_violation : bool
}.

(** The decoded stage policy document (lines 102-104); a key absent from
    the document is an empty table. *)
Record Policy := {
  schema_version : option string;
  required_previous_stage : gmap string string;
  required_checks : gmap string (list string)
}.

(** The report dictionary (lines 184-199), without [generated_at]. *)
Record Report := {
  report_policy_schema_version : option string;
  report_tag : string;
  report_tag_sha : option string;
  report_version : string;
  report_stage : string;
  report_stage_number : option N;
  report_mode : Mode;
  ready_to_publish : bool;
  report_required_checks : list string;
  report_sibling_tags : list string;
  report_warnings : list string;
  report_violations : list string
}.

(** ** The messages *)

Definition msg_git_failed (args : list string) (p : CompletedProcess) : string :=
  "git " +:+ PyStr.join " " args +:+ " failed (" +:+ pretty (returncode p)
  +:+ "): " +:+ PyStr.strip (stderr p).

Definition msg_refresh (exc : string) : string :=
  "Failed to refresh origin refs/tags before validation: " +:+ exc.

Definition msg_unresolved (tag exc : string) : string :=
  "Unable to resolve tag `" +:+ tag +:+ "`: " +:+ exc.

Definition msg_not_reachable (tag tag_sha : string) : string :=
  "Tag `" +:+ tag +:+ "` (" +:+ tag_sha
  +:+ ") is not reachable from `origin/main`; prerelease tags must originate from main.".

Definition msg_prerequisite (stage prerequisite_stage version tag : string) : string :=
  "Stage `" +:+ stage +:+ "` requires at least one `" +:+ prerequisite_stage
  +:+ "` tag for version `" +:+ version +:+ "` before publishing `" +:+ tag +:+ "`.".

Definition msg_regression (version stage : string) : string :=
  "Higher stage tags already exist for `" +:+ version
  +:+ "`. Refusing stage regression to `" +:+ stage +:+ "`.".

Definition msg_inspect (tag exc : string) : string :=
  "Failed to inspect Cargo.toml at `" +:+ tag +:+ "`: " +:+ exc.

Definition msg_mismatch (tag version cargo_version : string) : string :=
  "Tag `" +:+ tag +:+ "` version `" +:+ version
  +:+ "` does not match Cargo.toml version `" +:+ cargo_version
  +:+ "` at the same ref.".

(** ** Pure parts of [main] *)

(** Line 140: the stripped, non-empty lines other than the candidate. *)
Definition sibling_tags_of (tags_text tag : string) : list string :=
  PyStr.strip <$>
    filter (fun line => PyStr.strip line <> "" /\ PyStr.strip line <> tag)
           (PyStr.splitlines tags_text).

(** Lines 142-148: the stages of the sibling tags that parse. *)
Fixpoint sibling_stages_of (sibling_tags : list string) : list string :=
  match sibling_tags with
  | [] => []
  | candidate :: rest =>
      match parse_tag candidate with
      | Ret (_, sibling_stage, _) => sibling_stage :: sibling_stages_of rest
      | Raise _ => sibling_stages_of rest
      end
  end.

(** [max(xs)] of a non-empty sequence, given as head and tail. *)
Definition py_max (x : Z) (xs : list Z) : Z := fold_left Z.max xs x.

(** Lines 169-173: the first stripped line that starts with
    [version = ] gives the text between its first two double quotes;
    without a double quote the index [1] is out of range. *)
Fixpoint scan_cargo_version (lines : list string) : result string :=
  match lines with
  | [] => Ret ""
  | l :: rest =>
      let line := PyStr.strip l in
      if PyStr.startswith line "version = " then
        match PyStr.split line PyStr.DQUOTE 2 !! 1%nat with
        | Some v => Ret v
        | None => Raise (IndexError "list index out of range")
        end
      else scan_cargo_version rest
  end.

(** Lines 150-155: the prerequisite stage named by the policy must be
    the stage of some sibling. *)
Definition check_prerequisite (required_prev : gmap string string)
    (tag version stage : string) (sibling_stages violations : list string)
    : list string :=
  match required_prev !! stage with
  | Some prerequisite_stage =>
      if bool_decide (prerequisite_stage <> "")
         && bool_decide (prerequisite_stage ∉ sibling_stages)
      then violations ++ [msg_prerequisite stage prerequisite_stage version tag]
      else violations
  | None => violations
  end.

(** Lines 157-163: no sibling may rank above the candidate. *)
Definition check_regression (version stage : string)
    (sibling_stages violations : list string) : list string :=
  match sibling_stages with
  | s :: rest =>
      let highest_sibling_rank := py_max (stage_rank s) (stage_rank <$> rest) in
      let current_rank := stage_rank stage in
      if (highest_sibling_rank >? current_rank)%Z
      then violations ++ [msg_regression version stage]
      else violations
  | [] => violations
  end.

(** Lines 177-180: a version found in the manifest must be the tag's. *)
Definition check_manifest (tag version cargo_version : string)
    (violations : list string) : list string :=
  if bool_decide (cargo_version <> "") && bool_decide (cargo_version <> version)
  then violations ++ [msg_mismatch tag version cargo_version]
  else violations.

(** ** The state-and-exception monad of the script *)

Section Engine.
Context {World : Type}.

(** What the script can observe and change: the world behind the
    subprocesses, the command lines run so far with what each returned,
    the lines printed on standard error and the report written to the
    two output files. *)
Record System := {
  world : World;
  calls : list (list string * CompletedProcess);
  printed : list string;
  written : option Report
}.

Definition M (A : Type) : Type := System -> result A * System.

#[local] Instance M_ret : MRet M := fun A a σ => (Ret a, σ).
#[local] Instance M_bind : MBind M := fun A B f m σ =>
  match m σ with
  | (Ret a, σ') => f a σ'
  | (Raise e, σ') => (Raise e, σ')
  end.

Definition raise {A : Type} (e : exn) : M A := fun σ => (Raise e, σ).

(** [try: body / except RuntimeError as exc: handler exc] *)
Definition try_except {A : Type} (body : M A) (handler : string -> M A) : M A :=
  fun σ =>
    match body σ with
    | (Raise (RuntimeError exc), σ') => handler exc σ'
    | other => other
    end.

Definition print_stderr (line : string) : M unit := fun σ =>
  (Ret tt, {| world := world σ; calls := calls σ;
              printed := printed σ ++ [line]; written := written σ |}).

(** Lines 201-204: both output files are rendered from [report]. *)
Definition write_report (report : Report) : M unit := fun σ =>
  (Ret tt, {| world := world σ; calls := calls σ;
              printed := printed σ; written := Some report |}).

(** The operating system running a command line to completion. *)
Variable subprocess : list string -> World -> CompletedProcess * World.

Definition subprocess_run (argv : list string) : M CompletedProcess := fun σ =>
  let '(proc, w) := subprocess argv (world σ) in
  (Ret proc, {| world := w; calls := calls σ ++ [(argv, proc)];
                printed := printed σ; written := written σ |}).

(** Lines 21-31. *)
Definition run_git (args : list string) : M string :=
  proc ← subprocess_run ("git" :: args);
  if bool_decide (returncode proc <> 0%Z)
  then raise (RuntimeError (msg_git_failed args proc))
  else mret (PyStr.strip (stdout proc)).

Fixpoint print_items (items : list string) : M unit :=
  match items with
  | [] => mret tt
  | item :: rest => print_stderr ("- " +:+ item);; print_items rest
  end.

(** Lines 106-211.  [args] and [policy] are what lines 88-104 make of
    the command line and of the policy file, before any tag is looked at. *)
Definition main (args : Args) (policy : Policy) : M Z :=
  let required_prev := required_previous_stage policy in
  let violations : list string := [] in
  let warnings : list string := [] in
  match parse_tag (tag args) with
  | Raise (ValueError exc) => print_stderr exc;; mret 2%Z
  | Raise e => raise e
  | Ret (version, stage, stage_number) =>
    warnings ←
      try_except
        (run_git ["fetch"; "--quiet"; "origin"; "main"; "--tags"];; mret warnings)
        (fun exc => mret (warnings ++ [msg_refresh exc]));
    '(tag_sha, violations) ←
      try_except
        (tag_sha ← run_git ["rev-parse"; tag args +:+ "^{commit}"];
         mret (tag_sha, violations))
        (fun exc => mret ("", violations ++ [msg_unresolved (tag args) exc]));
    violations ←
      (if bool_decide (tag_sha <> "") then
         proc ← subprocess_run
                  ["git"; "merge-base"; "--is-ancestor"; tag_sha; "origin/main"];
         if bool_decide (returncode proc <> 0%Z)
         then mret (violations ++ [msg_not_reachable (tag args) tag_sha])
         else mret violations
       else mret violations);
    tags_text ← run_git ["tag"; "--list"; "v" +:+ version +:+ "*"];
    let sibling_tags := sibling_tags_of tags_text (tag args) in
    let sibling_stages := sibling_stages_of sibling_tags in
    let violations :=
      check_prerequisite required_prev (tag args) version stage
                         sibling_stages violations in
    let violations := check_regression version stage sibling_stages violations in
    '(cargo_version, violations) ←
      (if bool_decide (tag_sha <> "") then
         try_except
           (cargo_toml ← run_git ["show"; tag args +:+ ":Cargo.toml"];
            match scan_cargo_version (PyStr.splitlines cargo_toml) with
            | Ret cargo_version => mret (cargo_version, violations)
            | Raise e => raise e
            end)
           (fun exc => mret ("", violations ++ [msg_inspect (tag args) exc]))
       else mret ("", violations));
    let violations := check_manifest (tag args) version cargo_version violations in
    let ready := is_publish (mode args) && bool_decide (violations = []) in
    let report := {|
      report_policy_schema_version := schema_version policy;
      report_tag := tag args;
      report_tag_sha := if bool_decide (tag_sha <> "") then Some tag_sha else None;
      report_version := version;
      report_stage := stage;
      report_stage_number := stage_number;
      report_mode := mode args;
      ready_to_publish := ready;
      report_required_checks := default [] (required_checks policy !! stage);
      report_sibling_tags := sibling_tags;
      report_warnings := warnings;
      report_violations := violations
    |} in
    write_report report;;
    if fail_on_violation args && bool_decide (violations <> [])
    then print_stderr "prerelease guard violations found:";;
         print_items violations;;
         mret 3%Z
    else mret 0%Z
  end.

End Engine.

Arguments System : clear implicits.
Arguments M : clear implicits.

(** The log entry of a command that may or may not have been run. *)
Definition entries (argv : list string) (p : option CompletedProcess)
  : list (list string * CompletedProcess) :=
  match p with
  | Some proc => [(argv, proc)]
  | None => []
  end.

(** The two messages that the manifest cross-check (lines 165-180) can
    record for [tag] and [version]. *)
Definition is_manifest_violation (tag version m : string) : Prop :=
  (exists exc, m = msg_inspect tag exc)
  \/ (exists cargo_version, m = msg_mismatch tag version cargo_version).

(** The exit status of the process: [raise SystemExit(main())], and 1
    when [main] ends in an exception that nothing catches. *)
Definition exit_status (r : result Z) : Z :=
  match r with
  | Ret code => code
  | Raise _ => 1%Z
  end.

(** ** A deterministic repository behind [git]

    A small stand-in for the version-control side, used to run [main] on
    concrete repositories.  It answers the five command lines of the script
    the way [git] does: exit status 0 with the answer on standard output,
    1 for a negative ancestry answer, 128 for a command that could not be
    carried out. *)

Module FakeGit.

Record Repo := {
  is_work_tree : bool;                  (* the directory is a repository *)
  remote_ok : bool;                     (* origin can be fetched *)
  has_origin_main : bool;               (* the ref origin/main exists *)
  tags : list (string * string);        (* tag name, commit id *)
  on_main : list string;                (* commits reachable from origin/main *)
  cargo_toml : list (string * string)   (* tag name, Cargo.toml at that tag *)
}.

Definition ok (out : string) : CompletedProcess :=
  {| returncode := 0; stdout := out; stderr := "" |}.

Definition failed (code : Z) (err : string) : CompletedProcess :=
  {| returncode := code; stdout := ""; stderr := err |}.

Definition NL : string := String PyStr.LF "".

(** Shell-style pattern matching with [*] as the only wildcard. *)
Fixpoint glob (pattern : string) : string -> bool :=
  match pattern with
  | EmptyString => fun s => match s with EmptyString => true | _ => false end
  | String c pattern' =>
      if Ascii.eqb c "*" then
        fix star (s : string) : bool :=
          glob pattern' s
          || match s with
             | EmptyString => false
             | String _ s' => star s'
             end
      else
        fun s =>
          match s with
          | String d s' => Ascii.eqb c d && glob pattern' s'
          | EmptyString => false
          end
  end.

(** The first entry whose key, followed by [suffix], is [spec]. *)
Fixpoint find_spec (suffix spec : string) (table : list (string * string))
    : option (string * string) :=
  match table with
  | [] => None
  | (name, value) :: rest =>
      if String.eqb (name +:+ suffix) spec then Some (name, value)
      else find_spec suffix spec rest
  end.

Definition not_a_repository : CompletedProcess :=
  failed 128 "fatal: not a git repository (or any of the parent directories): .git".

Definition answer (repo : Repo) (argv : list string) : CompletedProcess :=
  if negb (is_work_tree repo) then not_a_repository else
  match argv with
  | ["git"; "fetch"; "--quiet"; "origin"; "main"; "--tags"] =>
      if remote_ok repo then ok ""
      else failed 128 "fatal: unable to access origin"
  | ["git"; "rev-parse"; spec] =>
      match find_spec "^{commit}" spec (tags repo) with
      | Some (_, sha) => ok (sha +:+ NL)
      | None => failed 128 "fatal: ambiguous argument: unknown revision or path not in the working tree."
      end
  | ["git"; "merge-base"; "--is-ancestor"; sha; "origin/main"] =>
      if negb (has_origin_main repo)
      then failed 128 "fatal: Not a valid object name origin/main"
      else if bool_decide (sha ∈ on_main repo) then ok "" else failed 1 ""
  | ["git"; "tag"; "--list"; pattern] =>
      ok (String.concat "" ((fun t => t.1 +:+ NL) <$> filter (fun t => glob pattern t.1 = true) (tags repo)))
  | ["git"; "show"; spec] =>
      match find_spec ":Cargo.toml" spec (cargo_toml repo) with
      | Some (_, content) => ok content
      | None => failed 128 "fatal: path 'Cargo.toml' does not exist"
      end
  | _ => failed 1 "usage"
  end.

(** None of the five commands changes what the later ones see, apart
    from [fetch], whose effect is already part of [repo]. *)
Definition subprocess (argv : list string) (repo : Repo) : CompletedProcess * Repo :=
  (answer repo argv, repo).

Definition start (repo : Repo) : System Repo :=
  {| world := repo; calls := []; printed := []; written := None |}.

Definition no_policy : Policy :=
  {| schema_version := Some "zeroclaw.prerelease-stage-gates.v1";
     required_previous_stage := ∅;
     required_checks := ∅ |}.

Definition staged_policy : Policy :=
  {| schema_version := Some "zeroclaw.prerelease-stage-gates.v1";
     required_previous_stage := {[ "beta" := "alpha"; "rc" := "beta"; "stable" := "rc" ]};
     required_checks := ∅ |}.

End FakeGit.

(** ** Concrete repositories and runs *)

Module Examples.
Import FakeGit.

(** [s] between double quotes. *)
Definition quoted (s : string) : string :=
  String PyStr.DQUOTE (s +:+ String PyStr.DQUOTE EmptyString).

(** A [Cargo.toml] that declares [version]. *)
Definition manifest (version : string) : string :=
  "[package]" +:+ NL +:+ "name = " +:+ quoted "zeroclaw" +:+ NL
  +:+ "version = " +:+ quoted version +:+ NL
  +:+ "edition = " +:+ quoted "2021" +:+ NL.

(** A workspace manifest: it declares no version. *)
Definition workspace_manifest : string :=
  "[workspace]" +:+ NL +:+ "members = [" +:+ quoted "crates/core" +:+ "]" +:+ NL.

Definition guard (candidate : string) (m : Mode) (strict : bool) : Args :=
  {| tag := candidate; mode := m; fail_on_violation := strict |}.

(** [v1.0.0-rc.1] exists when [v1.0.0-alpha.1] is proposed. *)
Definition repo_rc_exists : Repo :=
  {| is_work_tree := true; remote_ok := true; has_origin_main := true;
     tags := [("v1.0.0-alpha.1", "a1"); ("v1.0.0-rc.1", "c1")];
     on_main := ["a1"; "c1"];
     cargo_toml := [("v1.0.0-alpha.1", manifest "1.0.0");
                    ("v1.0.0-rc.1", manifest "1.0.0")] |}.

Definition run_alpha_after_rc (m : Mode) (strict : bool) : result Z * System Repo :=
  main subprocess (guard "v1.0.0-alpha.1" m strict) no_policy (start repo_rc_exists).

(** The remote cannot be reached and no [origin/main] is known
    locally, so the ancestry question cannot be asked. *)
Definition repo_without_trunk : Repo :=
  {| is_work_tree := true; remote_ok := false; has_origin_main := false;
     tags := [("v1.0.0-alpha.1", "a1")];
     on_main := [];
     cargo_toml := [("v1.0.0-alpha.1", manifest "1.0.0")] |}.

Definition run_without_trunk : result Z * System Repo :=
  main subprocess (guard "v1.0.0-alpha.1" Publish false) no_policy
       (start repo_without_trunk).

(** The tagged commit is on the trunk and has no [Cargo.toml]. *)
Definition repo_without_manifest : Repo :=
  {| is_work_tree := true; remote_ok := true; has_origin_main := true;
     tags := [("v1.0.0-alpha.1", "a1")];
     on_main := ["a1"];
     cargo_toml := [] |}.

Definition run_without_manifest : result Z * System Repo :=
  main subprocess (guard "v1.0.0-alpha.1" Publish false) no_policy
       (start repo_without_manifest).

(** The tagged commit has a [Cargo.toml] without a version line. *)
Definition repo_workspace_manifest : Repo :=
  {| is_work_tree := true; remote_ok := true; has_origin_main := true;
     tags := [("v1.0.0-alpha.1", "a1")];
     on_main := ["a1"];
     cargo_toml := [("v1.0.0-alpha.1", workspace_manifest)] |}.

Definition run_workspace_manifest : result Z * System Repo :=
  main subprocess (guard "v1.0.0-alpha.1" Publish false) no_policy
       (start repo_workspace_manifest).

(** Version 1.2.30 is released when the first alpha of 1.2.3 is proposed. *)
Definition repo_longer_patch : Repo :=
  {| is_work_tree := true; remote_ok := true; has_origin_main := true;
     tags := [("v1.2.3-alpha.1", "a1"); ("v1.2.30", "b1")];
     on_main := ["a1"; "b1"];
     cargo_toml := [("v1.2.3-alpha.1", manifest "1.2.3");
                    ("v1.2.30", manifest "1.2.30")] |}.

Definition run_longer_patch : result Z * System Repo :=
  main subprocess (guard "v1.2.3-alpha.1" Publish false) no_policy
       (start repo_longer_patch).

(** Version 1.2.30 has a beta; version 1.2.3 has none when its first
    release candidate is proposed. *)
Definition repo_foreign_beta : Repo :=
  {| is_work_tree := true; remote_ok := true; has_origin_main := true;
     tags := [("v1.2.3-rc.1", "r1"); ("v1.2.30-beta.1", "b1")];
     on_main := ["r1"; "b1"];
     cargo_toml := [("v1.2.3-rc.1", manifest "1.2.3");
                    ("v1.2.30-beta.1", manifest "1.2.30")] |}.

Definition run_foreign_beta : result Z * System Repo :=
  main subprocess (guard "v1.2.3-rc.1" Publish false) staged_policy
       (start repo_foreign_beta).

(** [--repo-root] is not a repository. *)
Definition not_a_work_tree : Repo :=
  {| is_work_tree := false; remote_ok := true; has_origin_main := true;
     tags := []; on_main := []; cargo_toml := [] |}.

Definition run_not_a_work_tree : result Z * System Repo :=
  main subprocess (guard "v1.0.0" Publish true) no_policy (start not_a_work_tree).

(** A candidate without the leading [v]. *)
Definition run_malformed : result Z * System Repo :=
  main subprocess (guard "1.2.3" Publish true) no_policy (start repo_rc_exists).

End Examples.

(** ** The groups a match captures *)

(** The words a pattern can consume at offset [pos] of [subj], with the
    groups they capture: [g] before, [g'] after. *)
Fixpoint captures (subj : string) (r : regex) (pos : nat) (w : string)
    (g g' : gmap string string) : Prop :=
  match r with
  | Eps | Eol => w = "" /\ g' = g
  | Bol => w = "" /\ g' = g /\ pos = 0%nat
  | One a => (exists c, w = String c "" /\ atom_ok a c = true) /\ g' = g
  | Many1 a =>
      w <> "" /\ (forall c, In c (list_ascii_of_string w) -> atom_ok a c = true)
      /\ g' = g
  | Cat r1 r2 =>
      exists w1 w2 g1,
        w = w1 +:+ w2 /\ captures subj r1 pos w1 g g1
        /\ captures subj r2 (pos + String.length w1) w2 g1 g'
  | Alt r1 r2 => captures subj r1 pos w g g' \/ captures subj r2 pos w g g'
  | Group name r1 =>
      exists g1,
        captures subj r1 pos w g g1
        /\ g' = <[name := String.substring pos (String.length w) subj]> g1
  end.

(** [t] does not start with a character of [a]. *)
Definition stops (a : atom) (t : string) : Prop :=
  match t with
  | EmptyString => True
  | String c _ => atom_ok a c = false
  end.

(** ** The human-readable report (lines 52-84) *)

(** [str(b)] of a Python [bool]. *)
Definition py_bool (b : bool) : string := if b then "True" else "False".

(** The value of [lines] on line 84.  [generated_at] is the
    [report['generated_at']] entry, which [Report] leaves out. *)
Definition markdown_lines (generated_at : string) (report : Report) : list string :=
  let lines : list string := [] in
  let lines := lines ++ ["# Pre-release Guard Report"] in
  let lines := lines ++ [""] in
  let lines := lines ++ ["- Generated at: `" +:+ generated_at +:+ "`"] in
  let lines := lines ++ ["- Tag: `" +:+ report_tag report +:+ "`"] in
  let lines := lines ++ ["- Stage: `" +:+ report_stage report +:+ "`"] in
  let lines := lines ++ ["- Mode: `" +:+ mode_name (report_mode report) +:+ "`"] in
  let lines :=
    lines ++ ["- Ready to publish: `" +:+ py_bool (ready_to_publish report) +:+ "`"] in
  let lines := lines ++ [""] in
  let lines := lines ++ ["## Required Checks"] in
  let required_checks := report_required_checks report in
  let lines :=
    match required_checks with
    | [] => lines ++ ["- none configured"]
    | _ => lines ++ ((fun check_name => "- `" +:+ check_name +:+ "`") <$> required_checks)
    end in
  let lines := lines ++ [""] in
  let lines :=
    match report_violations report with
    | [] => lines
    | items => (lines ++ ["## Violations"]) ++ (String.append "- " <$> items) ++ [""]
    end in
  let lines :=
    match report_warnings report with
    | [] => lines
    | items => (lines ++ ["## Warnings"]) ++ (String.append "- " <$> items) ++ [""]
    end in
  lines.

Definition build_markdown (generated_at : string) (report : Report) : string :=
  PyStr.rstrip (PyStr.join (String PyStr.LF "") (markdown_lines generated_at report))
  +:+ String PyStr.LF "".

(** ** More concrete repositories and runs *)

Module MoreExamples.
Import FakeGit Examples.

(** The remote cannot be fetched; everything else is in order. *)
Definition repo_offline : Repo :=
  {| is_work_tree := true; remote_ok := false; has_origin_main := true;
     tags := [("v1.0.0-alpha.1", "a1")];
     on_main := ["a1"];
     cargo_toml := [("v1.0.0-alpha.1", manifest "1.0.0")] |}.

Definition run_offline : result Z * System Repo :=
  main subprocess (guard "v1.0.0-alpha.1" Publish true) no_policy (start repo_offline).

(** A manifest whose version is inherited from the workspace: the line
    starts with [version = ] and has no double quote. *)
Definition inherited_manifest : string :=
  "[package]" +:+ NL +:+ "name = " +:+ quoted "zeroclaw" +:+ NL
  +:+ "version = { workspace = true }" +:+ NL.

Definition repo_inherited_version : Repo :=
  {| is_work_tree := true; remote_ok := true; has_origin_main := true;
     tags := [("v1.0.0-alpha.1", "a1")];
     on_main := ["a1"];
     cargo_toml := [("v1.0.0-alpha.1", inherited_manifest)] |}.

Definition run_inherited_version : result Z * System Repo :=
  main subprocess (guard "v1.0.0-alpha.1" Publish false) no_policy
       (start repo_inherited_version).

(** Only an alpha exists when the release candidate is proposed. *)
Definition repo_alpha_only : Repo :=
  {| is_work_tree := true; remote_ok := true; has_origin_main := true;
     tags := [("v1.0.0-alpha.1", "a1"); ("v1.0.0-rc.1", "c1")];
     on_main := ["a1"; "c1"];
     cargo_toml := [("v1.0.0-alpha.1", manifest "1.0.0");
                    ("v1.0.0-rc.1", manifest "1.0.0")] |}.

Definition run_rc_without_beta : result Z * System Repo :=
  main subprocess (guard "v1.0.0-rc.1" Publish true) staged_policy
       (start repo_alpha_only).

(** The proposed tag does not exist in the repository. *)
Definition run_unknown_tag : result Z * System Repo :=
  main subprocess (guard "v1.0.0-beta.1" Publish false) no_policy
       (start repo_rc_exists).

(** A release candidate whose number has 4301 digits. *)
Definition long_number : string := string_of_list_ascii (replicate 4301 "7"%char).

Definition run_long_number : result Z * System Repo :=
  main subprocess (guard ("v1.0.0-rc." +:+ long_number) Publish true) no_policy
       (start repo_rc_exists).

End MoreExamples.

(** ** The string operations and the parser on small inputs *)

Lemma pystr_examples :
  PyStr.strip "  v1.0.0 " = "v1.0.0"
  /\ PyStr.splitlines ("a" +:+ FakeGit.NL +:+ FakeGit.NL +:+ "b" +:+ FakeGit.NL)
     = ["a"; ""; "b"]
  /\ PyStr.splitlines "" = []
  /\ PyStr.split "a=b=c=d" "=" 2 = ["a"; "b"; "c=d"]
  /\ PyStr.split "abc" "=" 2 !! 1%nat = None
  /\ PyStr.int "007" = Ret 7%N.
Proof. repeat split; vm_compute; reflexivity. Qed.

Lemma parse_tag_examples :
  parse_tag "v10.20.30-beta.007" = Ret ("10.20.30", "beta", Some 7%N)
  /\ parse_tag "v01.2.3" = Ret ("01.2.3", "stable", None)
  /\ parse_tag ("v1.2.3" +:+ FakeGit.NL)
     = Raise (ValueError (malformed_tag_message ("v1.2.3" +:+ FakeGit.NL)))
  /\ parse_tag "V1.2.3" = Raise (ValueError (malformed_tag_message "V1.2.3"))
  /\ parse_tag "v1.2" = Raise (ValueError (malformed_tag_message "v1.2"))
  /\ parse_tag "v1.2.3-gamma.1"
     = Raise (ValueError (malformed_tag_message "v1.2.3-gamma.1"))
  /\ parse_tag "v1.2.3-rc.1.2"
     = Raise (ValueError (malformed_tag_message "v1.2.3-rc.1.2")).
Proof. repeat split; vm_compute; reflexivity. Qed.

(** ** Elementary facts about string concatenation *)

Lemma str_app_nil_r (s : string) : s +:+ "" = s.
Proof. induction s as [|c s IH]; [reflexivity|]. change (String c (s +:+ "") = String c s). now rewrite IH. Qed.

Lemma str_app_assoc (s1 s2 s3 : string) : (s1 +:+ s2) +:+ s3 = s1 +:+ (s2 +:+ s3).
Proof.
  induction s1 as [|c s1 IH]; [reflexivity|].
  change (String c ((s1 +:+ s2) +:+ s3) = String c (s1 +:+ (s2 +:+ s3))).
  now rewrite IH.
Qed.

Lemma str_length_app (s1 s2 : string) :
  String.length (s1 +:+ s2) = (String.length s1 + String.length s2)%nat.
Proof.
  induction s1 as [|c s1 IH]; [reflexivity|].
  change (S (String.length (s1 +:+ s2)) = S (String.length s1 + String.length s2)).
  now rewrite IH.
Qed.

(** ** Soundness of the matcher with respect to [lang] *)

Section MatcherFacts.
Context {A : Type}.

Lemma many_sound (a : atom) (s : string) :
  forall (pos : nat) (k : nat -> string -> option A) (x : A),
    many a pos s k = Some x ->
    exists w t,
      s = w +:+ t
      /\ (forall c, In c (list_ascii_of_string w) -> atom_ok a c = true)
      /\ k (pos + String.length w)%nat t = Some x.
Proof.
  induction s as [|c s' IH]; intros pos k x H; simpl in H.
  - exists "", "". rewrite Nat.add_0_r. repeat split; auto; intros ? [].
  - destruct (atom_ok a c) eqn:Hc.
    + destruct (many a (S pos) s' k) as [y|] eqn:Hm.
      * inversion H; subst y. apply IH in Hm as (w & t & -> & Hw & Hk).
        exists (String c w), t. simpl. repeat split.
        -- intros d [<-|Hd]; auto.
        -- rewrite <- Nat.add_succ_comm. exact Hk.
      * exists "", (String c s'). rewrite Nat.add_0_r.
        repeat split; auto; intros ? [].
    + exists "", (String c s'). rewrite Nat.add_0_r.
      repeat split; auto; intros ? [].
Qed.

Lemma run_sound (subj : string) (r : regex) :
  forall (pos : nat) (s : string) (g : gmap string string)
         (k : nat -> string -> gmap string string -> option A) (x : A),
    run subj r pos s g k = Some x ->
    exists w t g',
      s = w +:+ t /\ lang r w /\ k (pos + String.length w)%nat t g' = Some x.
Proof.
  induction r as [| | |a|a|r1 IH1 r2 IH2|r1 IH1 r2 IH2|name r1 IH1];
    intros pos s g k x H; simpl in H.
  - exists "", s, g. rewrite Nat.add_0_r. simpl. auto.
  - destruct (pos =? 0)%nat; [|discriminate].
    exists "", s, g. rewrite Nat.add_0_r. simpl. auto.
  - exists "", s, g. rewrite Nat.add_0_r. simpl.
    destruct s as [|c [|d s']]; try discriminate; auto.
    destruct (Ascii.eqb c PyStr.LF); [auto|discriminate].
  - destruct s as [|c s']; [discriminate|].
    destruct (atom_ok a c) eqn:Hc; [|discriminate].
    exists (String c ""), s', g. simpl. rewrite Nat.add_1_r. eauto.
  - destruct s as [|c s']; [discriminate|].
    destruct (atom_ok a c) eqn:Hc; [|discriminate].
    apply many_sound in H as (w & t & -> & Hw & Hk).
    exists (String c w), t, g. simpl. repeat split.
    + discriminate.
    + intros d [<-|Hd]; auto.
    + rewrite <- Nat.add_succ_comm. exact Hk.
  - apply IH1 in H as (w1 & t1 & g1 & -> & L1 & H).
    apply IH2 in H as (w2 & t2 & g2 & -> & L2 & H).
    exists (w1 +:+ w2), t2, g2. repeat split.
    + symmetry. apply str_app_assoc.
    + simpl. eauto.
    + rewrite str_length_app, Nat.add_assoc. exact H.
  - destruct (run subj r1 pos s g k) as [y|] eqn:H1.
    + inversion H; subst y. apply IH1 in H1 as (w & t & g' & ? & ? & ?).
      exists w, t, g'. simpl. auto.
    + apply IH2 in H as (w & t & g' & ? & ? & ?).
      exists w, t, g'. simpl. auto.
  - apply IH1 in H as (w & t & g' & ? & ? & ?).
    exists w, t, (<[name := String.substring pos (pos + String.length w - pos) subj]> g').
    simpl. auto.
Qed.
End MatcherFacts.

Lemma fullmatch_lang (r : regex) (subj : string) (m : gmap string string) :
  fullmatch r subj = Some m -> lang r subj.
Proof.
  unfold fullmatch. intros H.
  apply run_sound in H as (w & t & g' & -> & L & H).
  destruct t; [|discriminate]. now rewrite str_app_nil_r.
Qed.

Lemma In_append (c : ascii) (w1 w2 : string) :
  In c (list_ascii_of_string (w1 +:+ w2)) <->
  In c (list_ascii_of_string w1) \/ In c (list_ascii_of_string w2).
Proof.
  induction w1 as [|d w1 IH].
  - simpl. tauto.
  - change (d = c \/ In c (list_ascii_of_string (w1 +:+ w2)) <->
            (d = c \/ In c (list_ascii_of_string w1)) \/ In c (list_ascii_of_string w2)).
    rewrite IH. tauto.
Qed.

Lemma lang_alphabet (r : regex) :
  forall w c, lang r w -> In c (list_ascii_of_string w) -> alphabet r c = true.
Proof.
  induction r as [| | |a|a|r1 IH1 r2 IH2|r1 IH1 r2 IH2|name r1 IH1];
    simpl; intros w c L Hin.
  - subst w. destruct Hin.
  - subst w. destruct Hin.
  - subst w. destruct Hin.
  - destruct L as (d & -> & Hd). destruct Hin as [<-|[]]. exact Hd.
  - destruct L as [_ L]. auto.
  - destruct L as (w1 & w2 & -> & L1 & L2).
    apply In_append in Hin as [Hin|Hin]; apply orb_true_iff; eauto.
  - apply orb_true_iff. destruct L; eauto.
  - eauto.
Qed.

(** A word of the stable grammar has no hyphen; a word of the
    pre-release grammar has one. *)
Lemma stable_no_hyphen (S : string) (m : gmap string string) :
  fullmatch STABLE_TAG_RE S = Some m -> ~ In "-"%char (list_ascii_of_string S).
Proof.
  intros H Hin. apply fullmatch_lang in H.
  pose proof (lang_alphabet _ _ _ H Hin) as Ha.
  vm_compute in Ha. discriminate.
Qed.

Lemma prerelease_hyphen (S : string) (m : gmap string string) :
  fullmatch PRERELEASE_TAG_RE S = Some m -> In "-"%char (list_ascii_of_string S).
Proof.
  intros H. apply fullmatch_lang in H.
  unfold PRERELEASE_TAG_RE in H. simpl in H.
  destruct H as (w1 & w2 & -> & H & _).
  destruct H as (w3 & w4 & -> & H & _).
  destruct H as (w5 & w6 & -> & H & _).
  destruct H as (w7 & w8 & -> & H & _).
  destruct H as (w9 & w10 & -> & _ & (c & -> & Hc)).
  apply Ascii.eqb_eq in Hc. subst c.
  do 4 (apply In_append; left). apply In_append. right. simpl. auto.
Qed.

Lemma grammars_exclusive (S : string) :
  ~ (is_Some (fullmatch STABLE_TAG_RE S) /\ is_Some (fullmatch PRERELEASE_TAG_RE S)).
Proof.
  intros [[m1 H1] [m2 H2]].
  exact (stable_no_hyphen _ _ H1 (prerelease_hyphen _ _ H2)).
Qed.

(** ** The checks only append *)

Lemma check_prerequisite_inv (rp : gmap string string)
    (tag version stage m : string) (ss v : list string) :
  m ∈ check_prerequisite rp tag version stage ss v ->
  m ∈ v \/ exists p, m = msg_prerequisite stage p version tag.
Proof.
  unfold check_prerequisite. destruct (rp !! stage) as [p|]; [|auto].
  destruct (_ && _); [|auto].
  intros [H|H]%elem_of_app; [auto|]. apply list_elem_of_singleton in H. eauto.
Qed.

Lemma check_prerequisite_incl (rp : gmap string string)
    (tag version stage m : string) (ss v : list string) :
  m ∈ v -> m ∈ check_prerequisite rp tag version stage ss v.
Proof.
  unfold check_prerequisite. destruct (rp !! stage) as [p|]; [|auto].
  destruct (_ && _); [|auto]. intros H. apply elem_of_app. auto.
Qed.

Lemma check_regression_inv (version stage m : string) (ss v : list string) :
  m ∈ check_regression version stage ss v ->
  m ∈ v \/ m = msg_regression version stage.
Proof.
  unfold check_regression. destruct ss as [|s rest]; [auto|].
  cbv zeta. destruct (_ >? _)%Z; [|auto].
  intros [H|H]%elem_of_app; [auto|]. apply list_elem_of_singleton in H. auto.
Qed.

Lemma check_regression_incl (version stage m : string) (ss v : list string) :
  m ∈ v -> m ∈ check_regression version stage ss v.
Proof.
  unfold check_regression. destruct ss as [|s rest]; [auto|].
  cbv zeta. destruct (_ >? _)%Z; [|auto]. intros H. apply elem_of_app. auto.
Qed.

Lemma check_manifest_inv (tag version cv m : string) (v : list string) :
  m ∈ check_manifest tag version cv v ->
  m ∈ v \/ (m = msg_mismatch tag version cv /\ cv <> "" /\ cv <> version).
Proof.
  unfold check_manifest.
  destruct (bool_decide (cv <> "")) eqn:E1; [|auto].
  destruct (bool_decide (cv <> version)) eqn:E2; [|auto].
  apply bool_decide_eq_true in E1, E2. cbn [andb].
  intros [H|H]%elem_of_app; [auto|]. apply list_elem_of_singleton in H. auto.
Qed.

Lemma check_manifest_incl (tag version cv m : string) (v : list string) :
  m ∈ v -> m ∈ check_manifest tag version cv v.
Proof.
  unfold check_manifest. destruct (_ && _); [|auto].
  intros H. apply elem_of_app. auto.
Qed.

Lemma check_manifest_mismatch (tag version cv : string) (v : list string) :
  cv <> "" -> cv <> version ->
  msg_mismatch tag version cv ∈ check_manifest tag version cv v.
Proof.
  intros H1 H2. unfold check_manifest.
  rewrite !bool_decide_eq_true_2 by assumption. cbn [andb].
  apply elem_of_app. right. apply list_elem_of_singleton. reflexivity.
Qed.

Lemma py_max_le_acc (xs : list Z) : forall x : Z, (x <= py_max x xs)%Z.
Proof.
  unfold py_max. induction xs as [|y ys IH]; intros x; cbn [fold_left]; [lia|].
  specialize (IH (Z.max x y)). lia.
Qed.

Lemma py_max_ge (xs : list Z) :
  forall x y : Z, y ∈ x :: xs -> (y <= py_max x xs)%Z.
Proof.
  induction xs as [|z zs IH]; intros x y Hy.
  - apply list_elem_of_singleton in Hy. subst. apply py_max_le_acc.
  - apply elem_of_cons in Hy as [->|Hy]; [apply py_max_le_acc|].
    change (py_max x (z :: zs)) with (py_max (Z.max x z) zs).
    apply elem_of_cons in Hy as [->|Hy].
    + pose proof (py_max_le_acc zs (Z.max x z)). lia.
    + apply IH. apply elem_of_cons. auto.
Qed.

Lemma check_regression_records (version stage st : string) (ss v : list string) :
  st ∈ ss -> (stage_rank st > stage_rank stage)%Z ->
  msg_regression version stage ∈ check_regression version stage ss v.
Proof.
  intros Hin Hrank. unfold check_regression.
  destruct ss as [|s rest]; [by apply elem_of_nil in Hin|].
  cbv zeta.
  assert (stage_rank st <= py_max (stage_rank s) (stage_rank <$> rest))%Z as Hle.
  { apply py_max_ge. change (stage_rank st ∈ stage_rank <$> (s :: rest)).
    apply list_elem_of_fmap. eauto. }
  destruct (_ >? _)%Z eqn:E.
  - apply elem_of_app. right. apply list_elem_of_singleton. reflexivity.
  - rewrite Z.gtb_ltb in E. apply Z.ltb_ge in E. lia.
Qed.

Lemma sibling_stages_of_elem (tags : list string) (t v st : string) (n : option N) :
  t ∈ tags -> parse_tag t = Ret (v, st, n) -> st ∈ sibling_stages_of tags.
Proof.
  intros Hin Hp. induction tags as [|c rest IH]; [by apply elem_of_nil in Hin|].
  cbn [sibling_stages_of]. apply elem_of_cons in Hin as [<-|Hin].
  - rewrite Hp. apply elem_of_cons. auto.
  - destruct (parse_tag c) as [[[? ?] ?]|]; [apply elem_of_cons; right|]; auto.
Qed.

Lemma elem_nonempty {A : Type} (x : A) (l : list A) : x ∈ l -> l <> [].
Proof. intros H ->. by apply elem_of_nil in H. Qed.

(** ** The messages of different checks differ *)

Lemma not_manifest_unresolved (tag version exc : string) :
  ~ is_manifest_violation tag version (msg_unresolved tag exc).
Proof. intros [[? H]|[? H]]; discriminate H. Qed.

Lemma not_manifest_prerequisite (tag version stage p : string) :
  ~ is_manifest_violation tag version (msg_prerequisite stage p version tag).
Proof. intros [[? H]|[? H]]; discriminate H. Qed.

Lemma not_manifest_regression (tag version stage : string) :
  ~ is_manifest_violation tag version (msg_regression version stage).
Proof. intros [[? H]|[? H]]; discriminate H. Qed.

Lemma not_reachable_not_mismatch (tag sha version cv : string) :
  msg_not_reachable tag sha <> msg_mismatch tag version cv.
Proof.
  unfold msg_not_reachable, msg_mismatch. intros H.
  injection H as H. apply (inj (String.append tag)) in H. discriminate H.
Qed.

Lemma not_manifest_not_reachable (tag version sha : string) :
  ~ is_manifest_violation tag version (msg_not_reachable tag sha).
Proof.
  intros [[? H]|[? H]]; [discriminate H|].
  exact (not_reachable_not_mismatch _ _ _ _ H).
Qed.

Lemma scan_cargo_version_raise (lines : list string) (e : exn) :
  scan_cargo_version lines = Raise e -> e = IndexError "list index out of range".
Proof.
  induction lines as [|l rest IH]; cbn [scan_cargo_version]; [discriminate|].
  destruct (PyStr.startswith (PyStr.strip l) "version = "); [|exact IH].
  destruct (PyStr.split (PyStr.strip l) PyStr.DQUOTE 2 !! 1%nat); [discriminate|].
  now intros [= <-].
Qed.

Lemma int_ret (s : string) (n : N) :
  PyStr.int s = Ret n <->
  (N.of_nat (String.length s) <= PyStr.int_max_str_digits)%N
  /\ n = PyStr.int_from 0%N s.
Proof.
  unfold PyStr.int. cbv zeta.
  destruct (N.ltb_spec PyStr.int_max_str_digits (N.of_nat (String.length s))).
  - split; [discriminate|]. intros [? _]. lia.
  - split; [intros [= <-]; auto|]. now intros [_ ->].
Qed.

Lemma int_raise (s : string) (e : exn) :
  PyStr.int s = Raise e <->
  (PyStr.int_max_str_digits < N.of_nat (String.length s))%N
  /\ e = ValueError (PyStr.int_limit_message (N.of_nat (String.length s))).
Proof.
  unfold PyStr.int. cbv zeta.
  destruct (N.ltb_spec PyStr.int_max_str_digits (N.of_nat (String.length s))).
  - split; [intros [= <-]; auto|]. now intros [_ ->].
  - split; [discriminate|]. intros [? _]. lia.
Qed.

Lemma parse_tag_raise (t : string) (e : exn) :
  parse_tag t = Raise e <->
  fullmatch STABLE_TAG_RE t = None
  /\ match fullmatch PRERELEASE_TAG_RE t with
     | Some pre_match => PyStr.int (group pre_match "number") = Raise e
     | None => e = ValueError (malformed_tag_message t)
     end.
Proof.
  unfold parse_tag.
  destruct (fullmatch STABLE_TAG_RE t); [split; [discriminate|intros [? _]; discriminate]|].
  destruct (fullmatch PRERELEASE_TAG_RE t) as [pre_match|].
  - destruct (PyStr.int (group pre_match "number")).
    + split; [discriminate|intros [_ ?]; discriminate].
    + split; [intros [= <-]; auto|intros [_ [= <-]]; reflexivity].
  - split; [intros [= <-]; auto|intros [_ ->]; reflexivity].
Qed.

Lemma parse_tag_raise_value (t : string) (e : exn) :
  parse_tag t = Raise e -> exists msg, e = ValueError msg.
Proof.
  intros [_ H]%parse_tag_raise.
  destruct (fullmatch PRERELEASE_TAG_RE t); [|eauto].
  apply int_raise in H as [_ ->]. eauto.
Qed.

Lemma scan_no_version_line (lines : list string) :
  (forall line, line ∈ lines ->
     PyStr.startswith (PyStr.strip line) "version = " = false) ->
  scan_cargo_version lines = Ret "".
Proof.
  induction lines as [|l rest IH]; intros H; [reflexivity|].
  cbn [scan_cargo_version]. rewrite (H l) by (apply elem_of_cons; auto).
  apply IH. intros line Hin. apply H, elem_of_cons. auto.
Qed.

Lemma before_manifest_not_manifest (rp : gmap string string)
    (tag version stage m : string) (ss v1 : list string) :
  (forall m', m' ∈ v1 -> ~ is_manifest_violation tag version m') ->
  m ∈ check_regression version stage ss
        (check_prerequisite rp tag version stage ss v1) ->
  ~ is_manifest_violation tag version m.
Proof.
  intros Hv1 Hm.
  apply check_regression_inv in Hm as [Hm| ->]; [|apply not_manifest_regression].
  apply check_prerequisite_inv in Hm as [Hm|[p ->]];
    [auto|apply not_manifest_prerequisite].
Qed.

Lemma resolved_violations_not_manifest (tag version sha exc m : string)
    (failed : bool) (ancestry : option bool) :
  m ∈ match ancestry with
      | Some true =>
          (if failed then [msg_unresolved tag exc] else [])
          ++ [msg_not_reachable tag sha]
      | _ => if failed then [msg_unresolved tag exc] else []
      end ->
  ~ is_manifest_violation tag version m.
Proof.
  intros Hm.
  assert (m = msg_unresolved tag exc \/ m = msg_not_reachable tag sha) as [-> | ->].
  { destruct ancestry as [[]|], failed; cbn [app] in Hm;
      repeat (apply elem_of_cons in Hm as [Hm|Hm]; [auto|]);
      by apply elem_of_nil in Hm. }
  - apply not_manifest_unresolved.
  - apply not_manifest_not_reachable.
Qed.

(** ** The groups of a match *)

Section CaptureFacts.
Context {A : Type}.

Lemma run_captures (subj : string) (r : regex) :
  forall (pos : nat) (s : string) (g : gmap string string)
         (k : nat -> string -> gmap string string -> option A) (x : A),
    run subj r pos s g k = Some x ->
    exists w t g',
      s = w +:+ t /\ captures subj r pos w g g'
      /\ k (pos + String.length w)%nat t g' = Some x.
Proof.
  induction r as [| | |a|a|r1 IH1 r2 IH2|r1 IH1 r2 IH2|name r1 IH1];
    intros pos s g k x H; simpl in H.
  - exists "", s, g. rewrite Nat.add_0_r. simpl. auto.
  - destruct (pos =? 0)%nat eqn:E; [|discriminate]. apply Nat.eqb_eq in E.
    exists "", s, g. rewrite Nat.add_0_r. simpl. auto.
  - exists "", s, g. rewrite Nat.add_0_r. simpl.
    destruct s as [|c [|d s']]; try discriminate; auto.
    destruct (Ascii.eqb c PyStr.LF); [auto|discriminate].
  - destruct s as [|c s']; [discriminate|].
    destruct (atom_ok a c) eqn:Hc; [|discriminate].
    exists (String c ""), s', g. simpl. rewrite Nat.add_1_r. eauto 10.
  - destruct s as [|c s']; [discriminate|].
    destruct (atom_ok a c) eqn:Hc; [|discriminate].
    apply many_sound in H as (w & t & -> & Hw & Hk).
    exists (String c w), t, g. simpl. repeat split.
    + discriminate.
    + intros d [<-|Hd]; auto.
    + rewrite <- Nat.add_succ_comm. exact Hk.
  - apply IH1 in H as (w1 & t1 & g1 & -> & L1 & H).
    apply IH2 in H as (w2 & t2 & g2 & -> & L2 & H).
    exists (w1 +:+ w2), t2, g2. repeat split.
    + symmetry. apply str_app_assoc.
    + simpl. eauto 10.
    + rewrite str_length_app, Nat.add_assoc. exact H.
  - destruct (run subj r1 pos s g k) as [y|] eqn:H1.
    + inversion H; subst y. apply IH1 in H1 as (w & t & g' & ? & ? & ?).
      exists w, t, g'. simpl. auto.
    + apply IH2 in H as (w & t & g' & ? & ? & ?).
      exists w, t, g'. simpl. auto.
  - apply IH1 in H as (w & t & g' & -> & L & H).
    exists w, t, (<[name := String.substring pos (String.length w) subj]> g').
    split; [reflexivity|]. split; [simpl; eauto|].
    replace (pos + String.length w - pos)%nat with (String.length w) in H by lia.
    exact H.
Qed.
End CaptureFacts.

Lemma fullmatch_captures (r : regex) (subj : string) (m : gmap string string) :
  fullmatch r subj = Some m -> captures subj r 0 subj ∅ m.
Proof.
  unfold fullmatch. intros H.
  apply run_captures in H as (w & t & g' & -> & L & H).
  destruct t; [|discriminate]. injection H as <-.
  rewrite str_app_nil_r. rewrite str_app_nil_r in L. exact L.
Qed.

Lemma captures_lang (subj : string) (r : regex) :
  forall pos w g g', captures subj r pos w g g' -> lang r w.
Proof.
  induction r as [| | |a|a|r1 IH1 r2 IH2|r1 IH1 r2 IH2|name r1 IH1];
    simpl; intros pos w g g' H.
  - tauto.
  - tauto.
  - tauto.
  - tauto.
  - tauto.
  - destruct H as (w1 & w2 & g1 & -> & H1 & H2). eauto 10.
  - destruct H as [H|H]; eauto.
  - destruct H as (g1 & H & _). eauto.
Qed.

Lemma substring_0_app (w t : string) :
  String.substring 0 (String.length w) (w +:+ t) = w.
Proof.
  induction w as [|c w IH].
  - destruct t; reflexivity.
  - change (String c (String.substring 0 (String.length w) (w +:+ t)) = String c w).
    now rewrite IH.
Qed.

Lemma substring_mid (p w t : string) :
  String.substring (String.length p) (String.length w) (p +:+ w +:+ t) = w.
Proof.
  induction p as [|c p IH].
  - exact (substring_0_app w t).
  - change (String.substring (String.length p) (String.length w) (p +:+ w +:+ t) = w).
    exact IH.
Qed.

Lemma substring_end (p w : string) :
  String.substring (String.length p) (String.length w) (p +:+ w) = w.
Proof. rewrite <- (str_app_nil_r w) at 2. apply substring_mid. Qed.

Ltac break_captures :=
  repeat match goal with
         | H : exists _, _ |- _ => destruct H as [? H]
         | H : _ /\ _ |- _ => destruct H as [? ?]
         end.

Lemma captures_version_re (subj w : string) (pos : nat) (g g' : gmap string string) :
  captures subj version_re pos w g g' -> g' = g /\ lang version_re w.
Proof.
  intros H. split; [|exact (captures_lang _ _ _ _ _ _ H)].
  unfold version_re, digits, dot in H. simpl in H. break_captures. congruence.
Qed.

Lemma group_insert (name v : string) (g : gmap string string) :
  group (<[name := v]> g) name = v.
Proof. unfold group. now rewrite lookup_insert_eq. Qed.

Lemma group_insert_ne (name name' v : string) (g : gmap string string) :
  name <> name' -> group (<[name := v]> g) name' = group g name'.
Proof. intros H. unfold group. now rewrite lookup_insert_ne. Qed.

#[local] Opaque version_re.

Lemma stable_shape (S : string) (m : gmap string string) :
  fullmatch STABLE_TAG_RE S = Some m ->
  S = "v" +:+ group m "version" /\ lang version_re (group m "version").
Proof.
  intros H. apply fullmatch_captures in H.
  unfold STABLE_TAG_RE in H. simpl in H.
  destruct H as (w1 & w2 & g1 & HS & (w3 & w4 & g2 & -> & Hv & Hg) & -> & ->).
  destruct Hv as (w5 & w6 & g3 & -> & (-> & -> & _) & (c & -> & Hc) & ->).
  destruct Hg as (g3 & [-> Hl]%captures_version_re & ->).
  apply Ascii.eqb_eq in Hc. subst c. rewrite group_insert.
  rewrite str_app_nil_r in HS. subst S.
  assert (String.substring (String.length ("" +:+ "v")) (String.length w4)
            (("" +:+ "v") +:+ w4) = w4) as -> by exact (substring_end "v" w4).
  auto.
Qed.

Lemma captures_stage (subj w : string) (pos : nat) (g g' : gmap string string) :
  captures subj (Alt (Alt (Lit "alpha") (Lit "beta")) (Lit "rc")) pos w g g' ->
  g' = g /\ w ∈ ["alpha"; "beta"; "rc"].
Proof.
  simpl. intros [[H|H]|H]; break_captures; subst;
    repeat match goal with
           | H : Ascii.eqb _ _ = true |- _ => apply Ascii.eqb_eq in H; subst
           end;
    (split; [reflexivity|]); set_solver.
Qed.

Lemma captures_digits (subj w : string) (pos : nat) (g g' : gmap string string) :
  captures subj digits pos w g g' -> g' = g /\ lang digits w.
Proof. simpl. tauto. Qed.

#[local] Opaque digits.

Lemma prerelease_shape (S : string) (m : gmap string string) :
  fullmatch PRERELEASE_TAG_RE S = Some m ->
  S = "v" +:+ group m "version" +:+ "-" +:+ group m "stage" +:+ "."
      +:+ group m "number"
  /\ lang version_re (group m "version")
  /\ group m "stage" ∈ ["alpha"; "beta"; "rc"]
  /\ lang digits (group m "number").
Proof.
  intros H. apply fullmatch_captures in H.
  unfold PRERELEASE_TAG_RE, dot in H.
  cbn [captures] in H.
  destruct H as (w1 & w2 & g1 & HS & H & -> & ->).
  destruct H as (w3 & wn & g2 & -> & H & gn & [-> Hn]%captures_digits & ->).
  destruct H as (w4 & wd & g3 & -> & H & (c & -> & Hc) & ->).
  apply Ascii.eqb_eq in Hc; subst c.
  destruct H as (w5 & ws & g4 & -> & H & gs & [-> Hs]%captures_stage & ->).
  destruct H as (w6 & wh & g5 & -> & H & (c & -> & Hc) & ->).
  apply Ascii.eqb_eq in Hc; subst c.
  destruct H as (w7 & wv & g6 & -> & H & gv & [-> Hv]%captures_version_re & ->).
  destruct H as (w8 & w9 & g7 & -> & (-> & -> & _) & (c & -> & Hc) & ->).
  apply Ascii.eqb_eq in Hc; subst c.
  rewrite str_app_nil_r in HS.
  assert (String.substring (0 + String.length ("" +:+ "v")) (String.length wv) S = wv)
    as ->.
  { subst S. rewrite !str_app_assoc. exact (substring_mid "v" wv _). }
  assert (String.substring (0 + String.length ((("" +:+ "v") +:+ wv) +:+ "-"))
            (String.length ws) S = ws) as ->.
  { subst S. rewrite (str_app_assoc _ "." wn), (str_app_assoc _ ws).
    exact (substring_mid _ ws _). }
  assert (String.substring
            (0 + String.length ((((("" +:+ "v") +:+ wv) +:+ "-") +:+ ws) +:+ "."))
            (String.length wn) S = wn) as ->.
  { subst S. exact (substring_end _ wn). }
  rewrite group_insert.
  rewrite (group_insert_ne "number" "stage"), group_insert by discriminate.
  rewrite !(group_insert_ne _ "version"), group_insert by discriminate.
  split; [|auto]. subst S. rewrite !str_app_assoc. reflexivity.
Qed.

#[local] Transparent version_re digits.

(** ** The matcher finds the match of a well-formed tag *)

Section Forward.
Context {A : Type}.

Lemma many_greedy (a : atom) (d t : string) :
  (forall c, In c (list_ascii_of_string d) -> atom_ok a c = true) ->
  stops a t ->
  forall (pos : nat) (k : nat -> string -> option A) (x : A),
    k (pos + String.length d)%nat t = Some x ->
    many a pos (d +:+ t) k = Some x.
Proof.
  intros Hd Ht. induction d as [|c d IH]; intros pos k x Hk.
  - change ("" +:+ t) with t. simpl in Hk. rewrite Nat.add_0_r in Hk.
    destruct t as [|c t]; [exact Hk|].
    simpl in Ht. simpl. now rewrite Ht.
  - change (String c d +:+ t) with (String c (d +:+ t)). simpl.
    rewrite (Hd c) by (simpl; auto).
    rewrite (IH (fun c' Hc' => Hd c' (or_intror Hc')) (S pos) k x); [reflexivity|].
    simpl in Hk. now rewrite <- Nat.add_succ_comm in Hk.
Qed.

Lemma run_many1 (subj : string) (a : atom) (d t : string) (pos : nat)
    (g : gmap string string)
    (k : nat -> string -> gmap string string -> option A) (x : A) :
  lang (Many1 a) d -> stops a t ->
  k (pos + String.length d)%nat t g = Some x ->
  run subj (Many1 a) pos (d +:+ t) g k = Some x.
Proof.
  intros [Hne Hd] Ht Hk. destruct d as [|c d]; [congruence|].
  change (String c d +:+ t) with (String c (d +:+ t)). simpl.
  rewrite (Hd c) by (simpl; auto).
  apply (many_greedy a d t (fun c' Hc' => Hd c' (or_intror Hc')) Ht).
  simpl in Hk. now rewrite <- Nat.add_succ_comm in Hk.
Qed.

Lemma run_chr (subj : string) (c : ascii) (t : string) (pos : nat)
    (g : gmap string string)
    (k : nat -> string -> gmap string string -> option A) :
  run subj (One (Chr c)) pos (String c t) g k = k (S pos) t g.
Proof. simpl. now rewrite Ascii.eqb_refl. Qed.

Lemma run_cat (subj : string) (r1 r2 : regex) (s : string) (pos : nat)
    (g : gmap string string)
    (k : nat -> string -> gmap string string -> option A) :
  run subj (Cat r1 r2) pos s g k
  = run subj r1 pos s g (fun p t g' => run subj r2 p t g' k).
Proof. reflexivity. Qed.

Lemma run_group (subj name : string) (r : regex) (s : string) (pos : nat)
    (g : gmap string string)
    (k : nat -> string -> gmap string string -> option A) :
  run subj (Group name r) pos s g k
  = run subj r pos s g
      (fun p t g' => k p t (<[name := String.substring pos (p - pos) subj]> g')).
Proof. reflexivity. Qed.

Lemma run_version (subj d1 d2 d3 t : string) (pos : nat)
    (g : gmap string string)
    (k : nat -> string -> gmap string string -> option A) (x : A) :
  lang digits d1 -> lang digits d2 -> lang digits d3 -> stops Digit t ->
  k (pos + String.length (d1 +:+ "." +:+ d2 +:+ "." +:+ d3))%nat t g = Some x ->
  run subj version_re pos ((d1 +:+ "." +:+ d2 +:+ "." +:+ d3) +:+ t) g k = Some x.
Proof.
  intros H1 H2 H3 Ht Hk.
  rewrite !str_app_assoc. unfold version_re, dot. rewrite !run_cat.
  apply run_many1; [exact H1|reflexivity|]. cbn beta.
  change ("." +:+ d2 +:+ "." +:+ d3 +:+ t) with (String "." (d2 +:+ "." +:+ d3 +:+ t)).
  rewrite run_chr.
  apply run_many1; [exact H2|reflexivity|]. cbn beta.
  change ("." +:+ d3 +:+ t) with (String "." (d3 +:+ t)).
  rewrite run_chr.
  apply run_many1; [exact H3|exact Ht|].
  rewrite <- Hk. f_equal.
  rewrite !str_length_app. simpl. lia.
Qed.
End Forward.

Section ForwardGroups.
Context {A : Type}.

Lemma run_version_group (subj p d1 d2 d3 t : string) (pos : nat)
    (g : gmap string string)
    (k : nat -> string -> gmap string string -> option A) (x : A) :
  let ver := d1 +:+ "." +:+ d2 +:+ "." +:+ d3 in
  lang digits d1 -> lang digits d2 -> lang digits d3 -> stops Digit t ->
  pos = String.length p ->
  subj = p +:+ ver +:+ t ->
  k (pos + String.length ver)%nat t (<["version" := ver]> g) = Some x ->
  run subj (Group "version" version_re) pos (ver +:+ t) g k = Some x.
Proof.
  intros ver H1 H2 H3 Ht -> -> Hk. rewrite run_group.
  apply run_version; try assumption. cbn beta.
  replace (String.length p + String.length (d1 +:+ "." +:+ d2 +:+ "." +:+ d3)
           - String.length p)%nat
    with (String.length ver) by (subst ver; lia).
  rewrite substring_mid. exact Hk.
Qed.

Lemma run_digits_group (subj name p d t : string) (pos : nat)
    (g : gmap string string)
    (k : nat -> string -> gmap string string -> option A) (x : A) :
  lang digits d -> stops Digit t ->
  pos = String.length p ->
  subj = p +:+ d +:+ t ->
  k (pos + String.length d)%nat t (<[name := d]> g) = Some x ->
  run subj (Group name digits) pos (d +:+ t) g k = Some x.
Proof.
  intros Hd Ht -> -> Hk. rewrite run_group.
  apply run_many1; try assumption. cbn beta.
  replace (String.length p + String.length d - String.length p)%nat
    with (String.length d) by lia.
  rewrite substring_mid. exact Hk.
Qed.

Lemma run_stage_group (subj p st t : string) (pos : nat)
    (g : gmap string string)
    (k : nat -> string -> gmap string string -> option A) (x : A) :
  st ∈ ["alpha"; "beta"; "rc"] ->
  pos = String.length p ->
  subj = p +:+ st +:+ t ->
  k (pos + String.length st)%nat t (<["stage" := st]> g) = Some x ->
  run subj (Group "stage" (Alt (Alt (Lit "alpha") (Lit "beta")) (Lit "rc")))
      pos (st +:+ t) g k = Some x.
Proof.
  intros Hst -> Es Hk. rewrite run_group.
  repeat (apply elem_of_cons in Hst as [->|Hst]); [| | |by apply elem_of_nil in Hst].
  - change ("alpha" +:+ t)
      with (String "a" (String "l" (String "p" (String "h" (String "a" t))))).
    cbn [run Lit atom_ok Ascii.eqb Bool.eqb].
    replace (S (S (S (S (S (String.length p))))) - String.length p)%nat
      with (String.length "alpha") by (simpl; lia).
    rewrite Es, substring_mid.
    replace (S (S (S (S (S (String.length p))))))
      with (String.length p + String.length "alpha")%nat by (simpl; lia).
    now rewrite Hk.
  - change ("beta" +:+ t)
      with (String "b" (String "e" (String "t" (String "a" t)))).
    cbn [run Lit atom_ok Ascii.eqb Bool.eqb].
    replace (S (S (S (S (String.length p)))) - String.length p)%nat
      with (String.length "beta") by (simpl; lia).
    rewrite Es, substring_mid.
    replace (S (S (S (S (String.length p)))))
      with (String.length p + String.length "beta")%nat by (simpl; lia).
    now rewrite Hk.
  - change ("rc" +:+ t) with (String "r" (String "c" t)).
    cbn [run Lit atom_ok Ascii.eqb Bool.eqb].
    replace (S (S (String.length p)) - String.length p)%nat
      with (String.length "rc") by (simpl; lia).
    rewrite Es, substring_mid.
    replace (S (S (String.length p)))
      with (String.length p + String.length "rc")%nat by (simpl; lia).
    now rewrite Hk.
Qed.
End ForwardGroups.

Lemma fullmatch_stable (d1 d2 d3 : string) :
  lang digits d1 -> lang digits d2 -> lang digits d3 ->
  fullmatch STABLE_TAG_RE ("v" +:+ d1 +:+ "." +:+ d2 +:+ "." +:+ d3)
  = Some (<["version" := d1 +:+ "." +:+ d2 +:+ "." +:+ d3]> ∅).
Proof.
  intros H1 H2 H3. set (ver := d1 +:+ "." +:+ d2 +:+ "." +:+ d3).
  rewrite <- (str_app_nil_r ver) at 1.
  unfold fullmatch, STABLE_TAG_RE. rewrite !run_cat.
  change (run ?s Bol 0 ?t ?g ?k) with (k 0%nat t g). cbn beta.
  change ("v" +:+ ver +:+ "") with (String "v" (ver +:+ "")).
  rewrite run_chr.
  apply (run_version_group _ "v" d1 d2 d3 ""); try assumption; try reflexivity.
Qed.

Lemma fullmatch_prerelease (d1 d2 d3 st d : string) :
  lang digits d1 -> lang digits d2 -> lang digits d3 ->
  st ∈ ["alpha"; "beta"; "rc"] -> lang digits d ->
  fullmatch PRERELEASE_TAG_RE
    ("v" +:+ (d1 +:+ "." +:+ d2 +:+ "." +:+ d3) +:+ "-" +:+ st +:+ "." +:+ d)
  = Some (<["number" := d]>
            (<["stage" := st]>
               (<["version" := d1 +:+ "." +:+ d2 +:+ "." +:+ d3]> ∅))).
Proof.
  intros H1 H2 H3 Hst Hd. set (ver := d1 +:+ "." +:+ d2 +:+ "." +:+ d3).
  rewrite <- (str_app_nil_r d) at 1.
  unfold fullmatch, PRERELEASE_TAG_RE, dot. rewrite !run_cat.
  change (run ?s Bol 0 ?t ?g ?k) with (k 0%nat t g). cbn beta.
  change ("v" +:+ ver +:+ "-" +:+ st +:+ "." +:+ d +:+ "")
    with (String "v" (ver +:+ "-" +:+ st +:+ "." +:+ d +:+ "")) at 2.
  rewrite run_chr.
  apply (run_version_group _ "v" d1 d2 d3); try assumption; try reflexivity.
  change ("-" +:+ st +:+ "." +:+ d +:+ "")
    with (String "-" (st +:+ "." +:+ d +:+ "")).
  rewrite run_chr.
  apply (run_stage_group _ ("v" +:+ ver +:+ "-")); try assumption.
  { subst ver. rewrite !str_length_app. simpl. lia. }
  { rewrite !str_app_assoc. reflexivity. }
  change ("." +:+ d +:+ "") with (String "." (d +:+ "")).
  rewrite run_chr.
  apply (run_digits_group _ _ ("v" +:+ ver +:+ "-" +:+ st +:+ ".")); try assumption;
    try reflexivity.
  { subst ver. rewrite !str_length_app. simpl. lia. }
  { rewrite !str_app_assoc. reflexivity. }
Qed.

(** ** More about the checks *)

Lemma str_app_inv_tail (t s1 s2 : string) : s1 +:+ t = s2 +:+ t -> s1 = s2.
Proof.
  revert s2. induction s1 as [|c s1 IH]; intros s2 H.
  - destruct s2 as [|d s2]; [reflexivity|]. exfalso.
    apply (f_equal String.length) in H. change ("" +:+ t) with t in H.
    rewrite str_length_app in H. simpl in H. lia.
  - destruct s2 as [|d s2].
    + exfalso. apply (f_equal String.length) in H. change ("" +:+ t) with t in H.
      rewrite str_length_app in H. simpl in H. lia.
    + change (String c (s1 +:+ t) = String d (s2 +:+ t)) in H.
      injection H as -> H. f_equal. auto.
Qed.

Lemma msg_prerequisite_inj (stage p p0 version tag : string) :
  msg_prerequisite stage p version tag = msg_prerequisite stage p0 version tag ->
  p = p0.
Proof.
  unfold msg_prerequisite. intros H.
  injection H as H. apply (inj (String.append stage)) in H.
  injection H as H.
  exact (str_app_inv_tail _ p p0 H).
Qed.

Lemma py_max_in (xs : list Z) : forall x : Z, py_max x xs ∈ x :: xs.
Proof.
  unfold py_max. induction xs as [|y ys IH]; intros x; cbn [fold_left].
  - apply list_elem_of_singleton. reflexivity.
  - specialize (IH (Z.max x y)). apply elem_of_cons in IH as [IH|IH].
    + rewrite IH. destruct (Z.max_spec x y) as [[_ ->]|[_ ->]].
      * apply elem_of_cons. right. apply elem_of_cons. auto.
      * apply elem_of_cons. auto.
    + apply elem_of_cons. right. apply elem_of_cons. auto.
Qed.

Lemma sibling_stages_of_inv (tags : list string) (st : string) :
  st ∈ sibling_stages_of tags ->
  exists t v n, t ∈ tags /\ parse_tag t = Ret (v, st, n).
Proof.
  induction tags as [|c rest IH]; cbn [sibling_stages_of]; intros H.
  - by apply elem_of_nil in H.
  - destruct (parse_tag c) as [[[v st'] n]|e] eqn:Hp.
    + apply elem_of_cons in H as [->|H].
      * exists c, v, n. split; [apply elem_of_cons; auto|exact Hp].
      * destruct (IH H) as (t & v' & n' & Ht & Hpt).
        exists t, v', n'. split; [apply elem_of_cons; auto|exact Hpt].
    + destruct (IH H) as (t & v' & n' & Ht & Hpt).
      exists t, v', n'. split; [apply elem_of_cons; auto|exact Hpt].
Qed.

Lemma check_regression_only_if (version stage : string) (ss v : list string) :
  msg_regression version stage ∈ check_regression version stage ss v ->
  msg_regression version stage ∈ v
  \/ exists st, st ∈ ss /\ (stage_rank st > stage_rank stage)%Z.
Proof.
  unfold check_regression. destruct ss as [|s rest]; [auto|]. cbv zeta.
  destruct (_ >? _)%Z eqn:E; [|auto]. intros _. right.
  pose proof (py_max_in (stage_rank <$> rest) (stage_rank s)) as Hin.
  change (py_max (stage_rank s) (stage_rank <$> rest) ∈ stage_rank <$> (s :: rest)) in Hin.
  apply list_elem_of_fmap in Hin as (st & Hst & Hin).
  exists st. split; [exact Hin|]. rewrite <- Hst.
  rewrite Z.gtb_ltb in E. apply Z.ltb_lt in E. lia.
Qed.

Lemma stage_rank_le_stable (s : string) : (stage_rank s <= stage_rank "stable")%Z.
Proof.
  change (stage_rank "stable") with 4%Z. unfold stage_rank, STAGE_RANK.
  rewrite !lookup_insert, lookup_singleton. repeat case_decide; simpl; lia.
Qed.

(** ** Which check a violation comes from *)

Lemma frame_manifest (tag version cv m : string) (v : list string) :
  (forall cv', m <> msg_mismatch tag version cv') ->
  m ∈ check_manifest tag version cv v <-> m ∈ v.
Proof.
  intros Hne. split; [|apply check_manifest_incl].
  intros [H|[H _]]%check_manifest_inv; [exact H|]. destruct (Hne _ H).
Qed.

Lemma frame_regression (version stage m : string) (ss v : list string) :
  m <> msg_regression version stage ->
  m ∈ check_regression version stage ss v <-> m ∈ v.
Proof.
  intros Hne. split; [|apply check_regression_incl].
  intros [H|H]%check_regression_inv; [exact H|]. destruct (Hne H).
Qed.

Lemma frame_prerequisite (rp : gmap string string)
    (tag version stage m : string) (ss v : list string) :
  (forall p, m <> msg_prerequisite stage p version tag) ->
  m ∈ check_prerequisite rp tag version stage ss v <-> m ∈ v.
Proof.
  intros Hne. split; [|apply check_prerequisite_incl].
  intros [H|[p H]]%check_prerequisite_inv; [exact H|]. destruct (Hne _ H).
Qed.

Lemma frame_inspect (tag m : string) (v3 v4 : list string) :
  (forall exc, m <> msg_inspect tag exc) ->
  v4 = v3 \/ (exists exc, v4 = v3 ++ [msg_inspect tag exc]) ->
  m ∈ v4 <-> m ∈ v3.
Proof.
  intros Hne [-> | [exc ->]]; [reflexivity|].
  rewrite elem_of_app, list_elem_of_singleton. split; [|auto].
  intros [H|H]; [exact H|]. destruct (Hne _ H).
Qed.

Lemma check_prerequisite_iff (rp : gmap string string)
    (tag version stage p : string) (ss v : list string) :
  msg_prerequisite stage p version tag
    ∈ check_prerequisite rp tag version stage ss v
  <-> msg_prerequisite stage p version tag ∈ v
      \/ (rp !! stage = Some p /\ p <> "" /\ p ∉ ss).
Proof.
  unfold check_prerequisite. destruct (rp !! stage) as [p0|] eqn:E.
  2:{ split; [auto|]. intros [H|(H & _)]; [exact H|discriminate]. }
  destruct (bool_decide (p0 <> "")) eqn:E1; cbn [andb].
  2:{ apply bool_decide_eq_false in E1. split; [auto|].
      intros [H|([= ->] & H & _)]; [exact H|]. destruct (E1 H). }
  destruct (bool_decide (p0 ∉ ss)) eqn:E2.
  2:{ apply bool_decide_eq_false in E2. split; [auto|].
      intros [H|([= ->] & _ & H)]; [exact H|]. destruct (E2 H). }
  apply bool_decide_eq_true in E1, E2.
  rewrite elem_of_app, list_elem_of_singleton. split.
  - intros [H|H]; [auto|]. apply msg_prerequisite_inj in H as ->. auto.
  - intros [H|([= ->] & _)]; auto.
Qed.

Lemma check_regression_iff (version stage : string) (ss v : list string) :
  msg_regression version stage ∈ check_regression version stage ss v
  <-> msg_regression version stage ∈ v
      \/ exists st, st ∈ ss /\ (stage_rank st > stage_rank stage)%Z.
Proof.
  split; [apply check_regression_only_if|].
  intros [H|(st & Hst & Hr)]; [by apply check_regression_incl|].
  by apply (check_regression_records version stage st).
Qed.

Lemma resolve_violation_kinds (tag sha exc m : string) (failed : bool)
    (ancestry : option bool) :
  m ∈ match ancestry with
      | Some true =>
          (if failed then [msg_unresolved tag exc] else [])
          ++ [msg_not_reachable tag sha]
      | _ => if failed then [msg_unresolved tag exc] else []
      end ->
  m = msg_unresolved tag exc \/ m = msg_not_reachable tag sha.
Proof.
  intros Hm.
  destruct ancestry as [[]|], failed; cbn [app] in Hm;
    repeat (apply elem_of_cons in Hm as [Hm|Hm]; [auto|]);
    by apply elem_of_nil in Hm.
Qed.

Lemma check_manifest_nil (tag version cv : string) (v : list string) :
  check_manifest tag version cv v = [] -> v = [] /\ (cv = "" \/ cv = version).
Proof.
  unfold check_manifest.
  destruct (bool_decide (cv <> "")) eqn:E1; cbn [andb].
  2:{ apply bool_decide_eq_false, dec_stable in E1. auto. }
  destruct (bool_decide (cv <> version)) eqn:E2.
  2:{ apply bool_decide_eq_false, dec_stable in E2. auto. }
  intros H. destruct v; discriminate H.
Qed.

Lemma check_regression_nil (version stage : string) (ss v : list string) :
  check_regression version stage ss v = [] ->
  v = [] /\ forall st, st ∈ ss -> (stage_rank st <= stage_rank stage)%Z.
Proof.
  intros H. split.
  - unfold check_regression in H. destruct ss as [|s rest]; [exact H|].
    cbv zeta in H. destruct (_ >? _)%Z; [destruct v; discriminate H|exact H].
  - intros st Hst. destruct (Z.le_gt_cases (stage_rank st) (stage_rank stage)) as [Hle|Hgt];
      [exact Hle|].
    pose proof (check_regression_records version stage st ss v Hst ltac:(lia)) as Hin.
    rewrite H in Hin. by apply elem_of_nil in Hin.
Qed.

Lemma check_prerequisite_nil (rp : gmap string string)
    (tag version stage : string) (ss v : list string) :
  check_prerequisite rp tag version stage ss v = [] ->
  v = [] /\ forall p, rp !! stage = Some p -> p <> "" -> p ∈ ss.
Proof.
  unfold check_prerequisite. destruct (rp !! stage) as [p0|]; [|intros ->; split; [auto|discriminate]].
  destruct (bool_decide (p0 <> "")) eqn:E1; cbn [andb].
  2:{ apply bool_decide_eq_false, dec_stable in E1. intros ->.
      split; [reflexivity|]. intros p [= <-] Hne. congruence. }
  destruct (bool_decide (p0 ∉ ss)) eqn:E2.
  - intros H. destruct v; discriminate H.
  - apply bool_decide_eq_false, dec_stable in E2. intros ->.
    split; [reflexivity|]. intros p [= <-] _. exact E2.
Qed.

(** ** Facts about the string operations *)

Lemma rstrip_idem (s : string) : PyStr.rstrip (PyStr.rstrip s) = PyStr.rstrip s.
Proof.
  induction s as [|c s IH]; [reflexivity|]. cbn [PyStr.rstrip].
  destruct (PyStr.rstrip s) as [|d r] eqn:E.
  - destruct (PyStr.isspace c) eqn:Ec; [reflexivity|].
    cbn [PyStr.rstrip]. now rewrite Ec.
  - change (PyStr.rstrip (String c (String d r)))
      with (match PyStr.rstrip (String d r) with
            | EmptyString =>
                if PyStr.isspace c then EmptyString else String c EmptyString
            | String x y => String c (String x y)
            end).
    now rewrite IH.
Qed.

Lemma rstrip_head (c : ascii) (s : string) :
  PyStr.isspace c = false ->
  exists r, PyStr.rstrip (String c s) = String c r.
Proof.
  intros Hc. cbn [PyStr.rstrip]. destruct (PyStr.rstrip s); [rewrite Hc|]; eauto.
Qed.

Lemma lstrip_head (s : string) :
  match PyStr.lstrip s with
  | EmptyString => True
  | String c _ => PyStr.isspace c = false
  end.
Proof.
  induction s as [|c s IH]; [exact I|]. cbn [PyStr.lstrip].
  destruct (PyStr.isspace c) eqn:Ec; [exact IH|exact Ec].
Qed.

Lemma lstrip_fixed (s : string) :
  match s with
  | EmptyString => True
  | String c _ => PyStr.isspace c = false
  end ->
  PyStr.lstrip s = s.
Proof. destruct s as [|c s]; [reflexivity|]. cbn [PyStr.lstrip]. now intros ->. Qed.

Lemma strip_idem (s : string) : PyStr.strip (PyStr.strip s) = PyStr.strip s.
Proof.
  unfold PyStr.strip.
  assert (PyStr.lstrip (PyStr.rstrip (PyStr.lstrip s)) = PyStr.rstrip (PyStr.lstrip s))
    as ->; [|apply rstrip_idem].
  apply lstrip_fixed. pose proof (lstrip_head s) as H.
  destruct (PyStr.lstrip s) as [|c r]; [exact I|].
  destruct (rstrip_head c r H) as [r' ->]. exact H.
Qed.

Lemma sibling_tags_of_spec (tags_text tag t : string) :
  t ∈ sibling_tags_of tags_text tag
  <-> (exists line, line ∈ PyStr.splitlines tags_text /\ PyStr.strip line = t)
      /\ t <> "" /\ t <> tag.
Proof.
  unfold sibling_tags_of. rewrite list_elem_of_fmap. split.
  - intros (line & -> & [? ?]%list_elem_of_filter). intuition eauto.
  - intros ((line & Hin & <-) & H1 & H2). exists line. split; [reflexivity|].
    apply list_elem_of_filter. auto.
Qed.

Lemma string_of_list_ascii_app (l : list ascii) (s : string) :
  string_of_list_ascii (l ++ list_ascii_of_string s) = string_of_list_ascii l +:+ s.
Proof.
  induction l as [|c l IH]; cbn [app string_of_list_ascii].
  - apply string_of_list_ascii_of_string.
  - change (String c (string_of_list_ascii (l ++ list_ascii_of_string s))
            = String c (string_of_list_ascii l +:+ s)).
    now rewrite IH.
Qed.

Lemma string_of_list_ascii_snoc (l : list ascii) (c : ascii) (s : string) :
  string_of_list_ascii (l ++ [c]) +:+ s = string_of_list_ascii l +:+ String c s.
Proof.
  induction l as [|d l IH]; [reflexivity|].
  change (String d (string_of_list_ascii (l ++ [c]) +:+ s)
          = String d (string_of_list_ascii l +:+ String c s)).
  now rewrite IH.
Qed.

Lemma split_from_sep (sep : ascii) (m : nat) (s1 s2 : string) :
  ~ In sep (list_ascii_of_string s1) ->
  forall cur,
    PyStr.split_from sep (S m) cur (s1 +:+ String sep s2)
    = (string_of_list_ascii (rev cur) +:+ s1) :: PyStr.split_from sep m [] s2.
Proof.
  induction s1 as [|c s1 IH]; intros Hno cur.
  - change ("" +:+ String sep s2) with (String sep s2). cbn [PyStr.split_from].
    rewrite Ascii.eqb_refl. now rewrite str_app_nil_r.
  - change (String c s1 +:+ String sep s2) with (String c (s1 +:+ String sep s2)).
    cbn [PyStr.split_from].
    destruct (Ascii.eqb c sep) eqn:E.
    + apply Ascii.eqb_eq in E. subst c. destruct Hno. simpl. auto.
    + rewrite IH by (intros Hin; apply Hno; simpl; auto).
      f_equal. cbn [rev]. apply string_of_list_ascii_snoc.
Qed.

Lemma split_from_no_sep (sep : ascii) (m : nat) (s : string) :
  ~ In sep (list_ascii_of_string s) ->
  forall cur,
    PyStr.split_from sep (S m) cur s = [string_of_list_ascii (rev cur) +:+ s].
Proof.
  induction s as [|c s IH]; intros Hno cur.
  - cbn [PyStr.split_from]. now rewrite str_app_nil_r.
  - cbn [PyStr.split_from].
    destruct (Ascii.eqb c sep) eqn:E.
    + apply Ascii.eqb_eq in E. subst c. destruct Hno. simpl. auto.
    + rewrite IH by (intros Hin; apply Hno; simpl; auto).
      f_equal. cbn [rev]. apply string_of_list_ascii_snoc.
Qed.

Lemma version_prefix_no_quote :
  ~ In PyStr.DQUOTE (list_ascii_of_string "version = ").
Proof. simpl. intuition discriminate. Qed.

Lemma scan_skips (pre rest : list string) :
  (forall x, x ∈ pre -> PyStr.startswith (PyStr.strip x) "version = " = false) ->
  scan_cargo_version (pre ++ rest) = scan_cargo_version rest.
Proof.
  induction pre as [|l pre IH]; intros H; [reflexivity|].
  cbn [app scan_cargo_version]. rewrite (H l) by (apply elem_of_cons; auto).
  apply IH. intros x Hx. apply H, elem_of_cons. auto.
Qed.

Lemma startswith_app (p s : string) : PyStr.startswith (p +:+ s) p = true.
Proof.
  unfold PyStr.startswith. induction p as [|c p IH]; [by destruct s|].
  change (String c p +:+ s) with (String c (p +:+ s)). cbn [String.prefix].
  destruct (ascii_dec c c); [exact IH|congruence].
Qed.

(** X4.  The manifest scan stops at the first line that, stripped, starts
    with [version = ]; earlier and later lines do not matter.  If the
    rest of that line is a double quote, a value free of double quotes
    and a closing double quote, followed by anything, the value is the
    version found.  If the rest of the line has no double quote at all,
    the scan raises [IndexError]. *)
Theorem scan_cargo_version_first_line (pre post : list string) (l x : string) :
  (forall y, y ∈ pre -> PyStr.startswith (PyStr.strip y) "version = " = false) ->
  PyStr.strip l = "version = " +:+ x ->
  (forall v rest,
     x = String PyStr.DQUOTE (v +:+ String PyStr.DQUOTE rest) ->
     ~ In PyStr.DQUOTE (list_ascii_of_string v) ->
     scan_cargo_version (pre ++ l :: post) = Ret v)
  /\ (~ In PyStr.DQUOTE (list_ascii_of_string x) ->
      scan_cargo_version (pre ++ l :: post)
      = Raise (IndexError "list index out of range")).
Proof.
  intros Hpre Hl. rewrite (scan_skips pre _ Hpre). cbn [scan_cargo_version].
  rewrite Hl.
  rewrite startswith_app.
  unfold PyStr.split. split.
  - intros v rest -> Hv.
    rewrite (split_from_sep PyStr.DQUOTE 1 "version = " _ version_prefix_no_quote).
    rewrite (split_from_sep PyStr.DQUOTE 0 v rest Hv).
    reflexivity.
  - intros Hx.
    rewrite split_from_no_sep; [reflexivity|].
    intros [Hin|Hin]%In_append; [exact (version_prefix_no_quote Hin)|exact (Hx Hin)].
Qed.

(** ** Facts about the human-readable report *)

Lemma rstrip_cons_nonempty (c : ascii) (s : string) :
  PyStr.rstrip s <> "" -> PyStr.rstrip (String c s) = String c (PyStr.rstrip s).
Proof. intros H. cbn [PyStr.rstrip]. destruct (PyStr.rstrip s); congruence. Qed.

Lemma rstrip_cons_nonspace (c : ascii) (s : string) :
  PyStr.isspace c = false -> PyStr.rstrip (String c s) = String c (PyStr.rstrip s).
Proof. intros H. cbn [PyStr.rstrip]. destruct (PyStr.rstrip s); [now rewrite H|reflexivity]. Qed.

Lemma rstrip_app_nonempty (p s : string) :
  PyStr.rstrip s <> "" -> PyStr.rstrip (p +:+ s) = p +:+ PyStr.rstrip s.
Proof.
  intros H. induction p as [|c p IH]; [reflexivity|].
  change (String c p +:+ s) with (String c (p +:+ s)).
  rewrite rstrip_cons_nonempty; rewrite IH; [reflexivity|].
  destruct p; [exact H|discriminate].
Qed.

Lemma concat_cons (sep x : string) (xs : list string) :
  xs <> [] -> String.concat sep (x :: xs) = x +:+ sep +:+ String.concat sep xs.
Proof. destruct xs; [congruence|reflexivity]. Qed.

Lemma rstrip_app_last (q s : string) (c : ascii) :
  PyStr.isspace c = false ->
  PyStr.rstrip ((q +:+ String c "") +:+ s) = (q +:+ String c "") +:+ PyStr.rstrip s.
Proof.
  intros Hc. induction q as [|d q IH].
  - exact (rstrip_cons_nonspace c s Hc).
  - change (PyStr.rstrip (String d ((q +:+ String c "") +:+ s))
            = String d ((q +:+ String c "") +:+ PyStr.rstrip s)).
    rewrite rstrip_cons_nonempty; rewrite IH; [reflexivity|].
    destruct q; discriminate.
Qed.

(** X5.  The rendered report always starts with the title line and ends
    with exactly one line feed: what precedes that line feed has no
    trailing white space, whatever the report holds. *)
Theorem build_markdown_frame (generated_at : string) (report : Report) :
  exists body,
    build_markdown generated_at report
    = "# Pre-release Guard Report" +:+ body +:+ String PyStr.LF ""
    /\ PyStr.rstrip body = body.
Proof.
  unfold build_markdown.
  assert (exists rest, rest <> []
            /\ markdown_lines generated_at report
               = "# Pre-release Guard Report" :: rest) as (rest & Hne & ->).
  { unfold markdown_lines. cbn [app].
    destruct (report_required_checks report), (report_violations report),
      (report_warnings report); cbn [app]; eexists; (split; [|reflexivity]);
      discriminate. }
  unfold PyStr.join. rewrite concat_cons by exact Hne.
  exists (PyStr.rstrip (String PyStr.LF "" +:+ String.concat (String PyStr.LF "") rest)).
  split; [|apply rstrip_idem].
  assert (PyStr.rstrip
            ("# Pre-release Guard Report" +:+ String PyStr.LF ""
             +:+ String.concat (String PyStr.LF "") rest)
          = "# Pre-release Guard Report"
            +:+ PyStr.rstrip
                  (String PyStr.LF "" +:+ String.concat (String PyStr.LF "") rest))
    as -> by exact (rstrip_app_last "# Pre-release Guard Repor" _ "t" eq_refl).
  apply str_app_assoc.
Qed.

(** Membership of a line in the list [markdown_lines] builds. *)
Ltac in_lines :=
  lazymatch goal with
  | |- _ ∈ _ <$> _ => apply list_elem_of_fmap; eexists; split; [reflexivity|eassumption]
  | |- _ ∈ _ ++ _ =>
      apply elem_of_app; first [left; solve [in_lines] | right; solve [in_lines]]
  | |- ?x ∈ ?x :: _ => apply list_elem_of_here
  | |- _ ∈ _ :: _ => apply list_elem_of_further; in_lines
  end.

(** A heading is none of the other lines. *)
Ltac not_in_lines H :=
  lazymatch type of H with
  | _ ∈ [] => apply elem_of_nil in H; destruct H
  | _ ∈ _ <$> _ => apply list_elem_of_fmap in H as (? & H & _); discriminate H
  | _ ∈ _ ++ _ => apply elem_of_app in H as [H|H]; not_in_lines H
  | _ ∈ _ :: _ => apply elem_of_cons in H as [H|H]; [discriminate H|not_in_lines H]
  end.

(** X6.  The rendered report has a [## Violations] section exactly when
    there are violations and a [## Warnings] section exactly when there
    are warnings; every violation and every warning is a bullet of its
    own, every required check a back-quoted bullet, and an empty list of
    required checks is rendered as [- none configured]. *)
Theorem markdown_sections (generated_at : string) (report : Report) :
  let lines := markdown_lines generated_at report in
  ("## Violations" ∈ lines <-> report_violations report <> [])
  /\ ("## Warnings" ∈ lines <-> report_warnings report <> [])
  /\ (forall item, item ∈ report_violations report -> "- " +:+ item ∈ lines)
  /\ (forall item, item ∈ report_warnings report -> "- " +:+ item ∈ lines)
  /\ (forall check_name, check_name ∈ report_required_checks report ->
        "- `" +:+ check_name +:+ "`" ∈ lines)
  /\ (report_required_checks report = [] -> "- none configured" ∈ lines).
Proof.
  cbv zeta. unfold markdown_lines. cbn [app].
  destruct (report_required_checks report) as [|c cs],
    (report_violations report) as [|v vs], (report_warnings report) as [|w ws];
    cbn [app]; split_and!; try congruence.
  all: try (intros ? []%elem_of_nil).
  all: try (intros _; in_lines; fail).
  all: try (intros item Hitem; in_lines; fail).
  all: split; [|intros Hne; first [by destruct Hne | in_lines; fail]].
  all: intros H; first [discriminate | exfalso; not_in_lines H].
Qed.

(** ** [int] reads decimal numerals *)

Lemma int_from_acc (s : string) :
  forall acc : N,
    PyStr.int_from acc s
    = (acc * 10 ^ N.of_nat (String.length s) + PyStr.int_from 0 s)%N.
Proof.
  induction s as [|c s IH]; intros acc.
  - simpl. lia.
  - cbn [PyStr.int_from String.length]. rewrite IH, (IH (10 * 0 + _)%N).
    rewrite Nat2N.inj_succ, N.pow_succ_r'. lia.
Qed.

Lemma digit_value_pretty (x : N) :
  (x < 10)%N ->
  PyStr.digit_value (pretty_N_char x) = x /\ is_digit (pretty_N_char x) = true.
Proof.
  intros H.
  assert (x = 0 \/ x = 1 \/ x = 2 \/ x = 3 \/ x = 4 \/ x = 5 \/ x = 6 \/ x = 7
          \/ x = 8 \/ x = 9)%N as Hx by lia.
  repeat destruct Hx as [->|Hx]; try subst x; split; reflexivity.
Qed.

Lemma pretty_N_go_int (x : N) :
  forall s,
    PyStr.int_from 0 (pretty_N_go x s)
    = (x * 10 ^ N.of_nat (String.length s) + PyStr.int_from 0 s)%N.
Proof.
  induction (N.lt_wf_0 x) as [x _ IH]; intros s.
  assert (x = 0 \/ 0 < x)%N as [->|Hx] by lia.
  - rewrite pretty_N_go_0. lia.
  - rewrite pretty_N_go_step by exact Hx.
    rewrite IH by (apply N.div_lt; lia).
    cbn [PyStr.int_from String.length].
    rewrite (int_from_acc s (10 * 0 + _)%N).
    destruct (digit_value_pretty (x mod 10)) as [-> _]; [apply N.mod_lt; lia|].
    rewrite Nat2N.inj_succ, N.pow_succ_r'.
    pose proof (N.div_mod x 10 ltac:(lia)). nia.
Qed.

Lemma pretty_N_go_digits (x : N) :
  forall s c,
    (forall d, In d (list_ascii_of_string s) -> is_digit d = true) ->
    In c (list_ascii_of_string (pretty_N_go x s)) -> is_digit c = true.
Proof.
  induction (N.lt_wf_0 x) as [x _ IH]; intros s c Hs.
  assert (x = 0 \/ 0 < x)%N as [->|Hx] by lia.
  - rewrite pretty_N_go_0. apply Hs.
  - rewrite pretty_N_go_step by exact Hx.
    apply IH; [apply N.div_lt; lia|].
    intros d [<-|Hd]; [|auto].
    apply digit_value_pretty, N.mod_lt. lia.
Qed.

Lemma pretty_N_go_nonempty (x : N) : (0 < x)%N -> pretty_N_go x "" <> "".
Proof.
  intros Hx E.
  pose proof (pretty_N_go_int x "") as H. rewrite E in H.
  simpl in H. lia.
Qed.

(** The numeral of [x] has at most [k] digits exactly when [x < 10 ^ k]. *)
Lemma pretty_N_go_short (x : N) :
  forall (s : string) (k : nat),
    (x < 10 ^ N.of_nat k)%N ->
    (String.length (pretty_N_go x s) <= String.length s + k)%nat.
Proof.
  induction (N.lt_wf_0 x) as [x _ IH]; intros s k Hk.
  assert (x = 0 \/ 0 < x)%N as [->|Hx] by lia.
  - rewrite pretty_N_go_0. lia.
  - rewrite pretty_N_go_step by exact Hx.
    destruct k as [|k]; [simpl in Hk; lia|].
    rewrite Nat2N.inj_succ, N.pow_succ_r' in Hk.
    etransitivity; [apply (IH (x / 10)%N) with (k := k)|].
    + apply N.div_lt; lia.
    + apply N.Div0.div_lt_upper_bound. exact Hk.
    + cbn [String.length]. lia.
Qed.

Lemma pretty_N_go_long (x : N) :
  forall (s : string) (k : nat),
    (10 ^ N.of_nat k <= x)%N ->
    (String.length s + k < String.length (pretty_N_go x s))%nat.
Proof.
  induction (N.lt_wf_0 x) as [x _ IH]; intros s k Hk.
  assert (0 < x)%N as Hx.
  { assert (10 ^ N.of_nat k <> 0)%N by (apply N.pow_nonzero; discriminate). lia. }
  rewrite pretty_N_go_step by exact Hx.
  destruct k as [|k].
  - assert (forall y : N, y = 0 \/ 1 <= y)%N as Hy by lia.
    destruct (Hy (x / 10)%N) as [->|H0].
    + rewrite pretty_N_go_0. cbn [String.length]. lia.
    + pose proof (IH (x / 10)%N ltac:(apply N.div_lt; lia)
                     (String (pretty_N_char (x mod 10)) s) 0%nat H0) as H.
      cbn [String.length] in H. lia.
  - rewrite Nat2N.inj_succ, N.pow_succ_r' in Hk.
    pose proof (IH (x / 10)%N ltac:(apply N.div_lt; lia)
                   (String (pretty_N_char (x mod 10)) s) k
                   ltac:(apply N.div_le_lower_bound; [lia|exact Hk])) as H.
    cbn [String.length] in H. lia.
Qed.

Lemma pretty_N_length (n : N) (k : nat) :
  (0 < k)%nat ->
  (String.length (pretty n) <= k)%nat <-> (n < 10 ^ N.of_nat k)%N.
Proof.
  intros Hk. unfold pretty, pretty_N. destruct (decide (n = 0%N)) as [->|Hn].
  - cbn [String.length]. split; [intros _|lia].
    assert (10 ^ N.of_nat k <> 0)%N by (apply N.pow_nonzero; discriminate). lia.
  - split.
    + intros H. destruct (N.lt_ge_cases n (10 ^ N.of_nat k)) as [|Hge]; [assumption|].
      pose proof (pretty_N_go_long n "" k Hge) as Hl. cbn [String.length] in Hl. lia.
    + intros H. pose proof (pretty_N_go_short n "" k H) as Hl.
      cbn [String.length] in Hl. lia.
Qed.

Lemma pretty_N_digits (n : N) :
  lang digits (pretty n) /\ PyStr.int_from 0 (pretty n) = n.
Proof.
  unfold pretty, pretty_N. destruct (decide (n = 0%N)) as [->|Hn].
  - split; [|reflexivity]. split; [discriminate|].
    intros c [<-|[]]. reflexivity.
  - split.
    + split; [apply pretty_N_go_nonempty; lia|].
      intros c. apply pretty_N_go_digits. intros d [].
    + rewrite pretty_N_go_int. simpl. lia.
Qed.

(** ** What [parse_tag] accepts and what it returns *)

Lemma parse_tag_prerelease (d1 d2 d3 stage d : string) :
  lang digits d1 -> lang digits d2 -> lang digits d3 ->
  stage ∈ ["alpha"; "beta"; "rc"] -> lang digits d ->
  parse_tag ("v" +:+ (d1 +:+ "." +:+ d2 +:+ "." +:+ d3) +:+ "-" +:+ stage +:+ "." +:+ d)
  = match PyStr.int d with
    | Ret number => Ret (d1 +:+ "." +:+ d2 +:+ "." +:+ d3, stage, Some number)
    | Raise e => Raise e
    end.
Proof.
  intros H1 H2 H3 Hst Hd. unfold parse_tag.
  pose proof (fullmatch_prerelease d1 d2 d3 stage d H1 H2 H3 Hst Hd) as Hp.
  destruct (fullmatch STABLE_TAG_RE _) as [m|] eqn:Es.
  - destruct (grammars_exclusive
                ("v" +:+ (d1 +:+ "." +:+ d2 +:+ "." +:+ d3) +:+ "-" +:+ stage +:+ "." +:+ d)).
    split; [rewrite Es|rewrite Hp]; eauto.
  - rewrite Hp. rewrite group_insert.
    rewrite (group_insert_ne "number" "stage"), group_insert by discriminate.
    rewrite !(group_insert_ne _ "version"), group_insert by discriminate.
    reflexivity.
Qed.

(** X1.  What [parse_tag] returns spells the tag back: a stable result
    comes from [v] followed by the version, a pre-release result from
    [v], the version, [-], one of the three stage names, [.] and a
    non-empty run of digits that [int] reads as the number.  The
    version is three non-empty runs of digits separated by dots. *)
Theorem parse_tag_shape (S version stage : string) (number : option N) :
  parse_tag S = Ret (version, stage, number) ->
  lang version_re version
  /\ match number with
     | None => stage = "stable" /\ S = "v" +:+ version
     | Some n =>
         stage ∈ ["alpha"; "beta"; "rc"]
         /\ exists d, lang digits d /\ PyStr.int d = Ret n
                      /\ S = "v" +:+ version +:+ "-" +:+ stage +:+ "." +:+ d
     end.
Proof.
  unfold parse_tag.
  destruct (fullmatch STABLE_TAG_RE S) as [m|] eqn:Es.
  - intros [= <- <- <-]. destruct (stable_shape S m Es) as [HS Hv]. auto.
  - destruct (fullmatch PRERELEASE_TAG_RE S) as [m|] eqn:Ep; [|discriminate].
    destruct (PyStr.int (group m "number")) as [n|e] eqn:En; [|discriminate].
    intros [= <- <- <-].
    destruct (prerelease_shape S m Ep) as (HS & Hv & Hst & Hd). eauto 10.
Qed.

(** X2.  Which well-formed tags are accepted.  For non-empty runs of
    digits [d1], [d2], [d3], of any length, the tag [v d1.d2.d3] parses
    as the stable tag of that version.  Followed by [-stage.d], for one
    of the three stage names and a non-empty run of digits [d], it
    parses as that pre-release with the decimal value of [d] as its
    number when [d] has at most 4300 digits, and is refused with the
    [ValueError] of [int] when [d] is longer. *)
Theorem parse_tag_accepts (d1 d2 d3 : string) :
  lang digits d1 -> lang digits d2 -> lang digits d3 ->
  let version := d1 +:+ "." +:+ d2 +:+ "." +:+ d3 in
  parse_tag ("v" +:+ version) = Ret (version, "stable", None)
  /\ forall stage d,
       stage ∈ ["alpha"; "beta"; "rc"] -> lang digits d ->
       parse_tag ("v" +:+ version +:+ "-" +:+ stage +:+ "." +:+ d)
       = if decide (String.length d <= 4300)%nat
         then Ret (version, stage, Some (PyStr.int_from 0 d))
         else Raise (ValueError
                       (PyStr.int_limit_message (N.of_nat (String.length d)))).
Proof.
  intros H1 H2 H3 version. split.
  - unfold parse_tag. subst version. rewrite (fullmatch_stable d1 d2 d3 H1 H2 H3).
    now rewrite group_insert.
  - intros stage d Hst Hd. subst version.
    rewrite (parse_tag_prerelease d1 d2 d3 stage d H1 H2 H3 Hst Hd).
    assert (N.of_nat 4300 = PyStr.int_max_str_digits) as E by (vm_compute; reflexivity).
    destruct (decide (String.length d <= 4300)%nat) as [Hl|Hl].
    + assert (PyStr.int d = Ret (PyStr.int_from 0 d)) as ->; [|reflexivity].
      apply int_ret. split; [|reflexivity]. rewrite <- E. lia.
    + assert (PyStr.int d
              = Raise (ValueError (PyStr.int_limit_message (N.of_nat (String.length d)))))
        as ->; [|reflexivity].
      apply int_raise. split; [|reflexivity]. rewrite <- E. lia.
Qed.

(** X3.  The stage number survives printing and parsing as far as [int]
    reads it: a pre-release tag whose number is the decimal numeral of
    [n] parses with stage number [n] for every [n] below [10 ^ 4300],
    and is refused with the [ValueError] of [int] for every other [n]. *)
Theorem stage_number_round_trip (d1 d2 d3 stage : string) (n : N) :
  lang digits d1 -> lang digits d2 -> lang digits d3 ->
  stage ∈ ["alpha"; "beta"; "rc"] ->
  parse_tag ("v" +:+ (d1 +:+ "." +:+ d2 +:+ "." +:+ d3)
             +:+ "-" +:+ stage +:+ "." +:+ pretty n)
  = if decide (n < 10 ^ PyStr.int_max_str_digits)%N
    then Ret (d1 +:+ "." +:+ d2 +:+ "." +:+ d3, stage, Some n)
    else Raise (ValueError
                  (PyStr.int_limit_message (N.of_nat (String.length (pretty n))))).
Proof.
  intros H1 H2 H3 Hst. destruct (pretty_N_digits n) as [Hd Hn].
  rewrite (parse_tag_prerelease d1 d2 d3 stage (pretty n) H1 H2 H3 Hst Hd).
  assert (N.of_nat 4300 = PyStr.int_max_str_digits) as E by (vm_compute; reflexivity).
  pose proof (pretty_N_length n 4300 ltac:(lia)) as Hlen. rewrite E in Hlen.
  destruct (decide (n < 10 ^ PyStr.int_max_str_digits)%N) as [Hlt|Hge].
  - assert (PyStr.int (pretty n) = Ret n) as ->; [|reflexivity].
    apply int_ret. split; [|now rewrite Hn].
    apply Hlen in Hlt. rewrite <- E. lia.
  - assert (PyStr.int (pretty n)
            = Raise (ValueError
                       (PyStr.int_limit_message (N.of_nat (String.length (pretty n))))))
      as ->; [|reflexivity].
    apply int_raise. split; [|reflexivity].
    rewrite <- E. rewrite <- Hlen in Hge. lia.
Qed.

(** ** The pure properties on concrete inputs *)

Ltac digits_literal :=
  split;
  [ discriminate
  | let c := fresh "c" in
    let Hc := fresh "Hc" in
    intros c Hc; simpl in Hc;
    repeat (destruct Hc as [<-|Hc]; [reflexivity|]); destruct Hc ].

Lemma parse_tag_shape_witness :
  parse_tag "v1.2.3-rc.4" = Ret ("1.2.3", "rc", Some 4%N)
  /\ lang version_re "1.2.3"
  /\ "rc" ∈ ["alpha"; "beta"; "rc"]
  /\ exists d, lang digits d /\ PyStr.int d = Ret 4%N
               /\ "v1.2.3-rc.4" = "v" +:+ "1.2.3" +:+ "-" +:+ "rc" +:+ "." +:+ d.
Proof.
  split; [vm_compute; reflexivity|].
  apply (parse_tag_shape "v1.2.3-rc.4" "1.2.3" "rc" (Some 4%N)).
  vm_compute; reflexivity.
Defined.

Lemma parse_tag_accepts_witness :
  lang digits "10" /\ lang digits "20" /\ lang digits "30"
  /\ parse_tag "v10.20.30" = Ret ("10.20.30", "stable", None)
  /\ forall stage d,
       stage ∈ ["alpha"; "beta"; "rc"] -> lang digits d ->
       parse_tag ("v" +:+ "10.20.30" +:+ "-" +:+ stage +:+ "." +:+ d)
       = if decide (String.length d <= 4300)%nat
         then Ret ("10.20.30", stage, Some (PyStr.int_from 0 d))
         else Raise (ValueError
                       (PyStr.int_limit_message (N.of_nat (String.length d)))).
Proof.
  split; [digits_literal|]. split; [digits_literal|]. split; [digits_literal|].
  apply (parse_tag_accepts "10" "20" "30"); digits_literal.
Defined.

Lemma stage_number_round_trip_witness :
  lang digits "0" /\ lang digits "2" /\ lang digits "0"
  /\ "rc" ∈ ["alpha"; "beta"; "rc"]
  /\ pretty 12%N = "12"
  /\ parse_tag "v0.2.0-rc.12" = Ret ("0.2.0", "rc", Some 12%N)
  /\ parse_tag ("v" +:+ ("0" +:+ "." +:+ "2" +:+ "." +:+ "0")
                +:+ "-" +:+ "rc" +:+ "." +:+ pretty 12%N)
     = if decide (12 < 10 ^ PyStr.int_max_str_digits)%N
       then Ret ("0" +:+ "." +:+ "2" +:+ "." +:+ "0", "rc", Some 12%N)
       else Raise (ValueError
                     (PyStr.int_limit_message
                        (N.of_nat (String.length (pretty 12%N))))).
Proof.
  assert ("rc" ∈ ["alpha"; "beta"; "rc"]) as Hrc
    by (do 2 (apply elem_of_cons; right); apply elem_of_cons; left; reflexivity).
  split; [digits_literal|]. split; [digits_literal|]. split; [digits_literal|].
  split; [exact Hrc|]. split; [vm_compute; reflexivity|].
  split; [vm_compute; reflexivity|].
  apply (stage_number_round_trip "0" "2" "0" "rc" 12%N); [digits_literal..|exact Hrc].
Defined.

Lemma scan_cargo_version_first_line_witness :
  PyStr.strip ("  version = " +:+ Examples.quoted "1.2.3" +:+ " # release")
  = "version = " +:+ Examples.quoted "1.2.3" +:+ " # release"
  /\ scan_cargo_version
       (["[package]"; "name = zeroclaw"]
        ++ ("  version = " +:+ Examples.quoted "1.2.3" +:+ " # release")
           :: ["version = " +:+ Examples.quoted "9.9.9"])
     = Ret "1.2.3".
Proof.
  split; [vm_compute; reflexivity|].
  apply (proj1 (scan_cargo_version_first_line
                  ["[package]"; "name = zeroclaw"]
                  ["version = " +:+ Examples.quoted "9.9.9"]
                  ("  version = " +:+ Examples.quoted "1.2.3" +:+ " # release")
                  (Examples.quoted "1.2.3" +:+ " # release")
                  ltac:(intros y Hy;
                        repeat (apply elem_of_cons in Hy as [->|Hy]; [reflexivity|]);
                        by apply elem_of_nil in Hy)
                  ltac:(vm_compute; reflexivity))
               "1.2.3" " # release").
  - reflexivity.
  - simpl. intuition discriminate.
Defined.

(** ** Runs of [main] *)

#[local] Arguments PyStr.strip : simpl never.
#[local] Arguments PyStr.splitlines : simpl never.
#[local] Arguments sibling_tags_of : simpl never.
#[local] Arguments sibling_stages_of : simpl never.
#[local] Arguments check_prerequisite : simpl never.
#[local] Arguments check_regression : simpl never.
#[local] Arguments check_manifest : simpl never.
#[local] Arguments scan_cargo_version : simpl never.
#[local] Arguments msg_git_failed : simpl never.

Section Runs.
Context {World : Type} (subprocess : list string -> World -> CompletedProcess * World).

Lemma print_items_run (items : list string) :
  forall σ : System World,
    print_items items σ =
    (Ret tt, {| world := world σ; calls := calls σ;
                printed := printed σ ++ (String.append "- " <$> items);
                written := written σ |}).
Proof.
  induction items as [|item rest IH]; intros σ.
  - simpl. rewrite app_nil_r. now destruct σ.
  - cbn [print_items]. unfold print_stderr at 1. unfold mbind, M_bind at 1.
    rewrite IH. cbn. now rewrite <- app_assoc.
Qed.

Lemma main_run (args : Args) (policy : Policy) (σ σ' : System World)
    (r : result Z) (version stage : string) (num : option N) :
  parse_tag (tag args) = Ret (version, stage, num) ->
  main subprocess args policy σ = (r, σ') ->
  exists (fetched resolved listed : CompletedProcess)
         (ancestry shown : option CompletedProcess),
    let warnings :=
      if bool_decide (returncode fetched <> 0%Z)
      then [msg_refresh (msg_git_failed ["fetch"; "--quiet"; "origin"; "main"; "--tags"] fetched)]
      else [] in
    let tag_sha :=
      if bool_decide (returncode resolved <> 0%Z) then ""
      else PyStr.strip (stdout resolved) in
    let v0 :=
      if bool_decide (returncode resolved <> 0%Z)
      then [msg_unresolved (tag args)
              (msg_git_failed ["rev-parse"; tag args +:+ "^{commit}"] resolved)]
      else [] in
    let v1 :=
      match ancestry with
      | Some proc =>
          if bool_decide (returncode proc <> 0%Z)
          then v0 ++ [msg_not_reachable (tag args) tag_sha] else v0
      | None => v0
      end in
    let sibling_tags := sibling_tags_of (PyStr.strip (stdout listed)) (tag args) in
    let sibling_stages := sibling_stages_of sibling_tags in
    let v3 :=
      check_regression version stage sibling_stages
        (check_prerequisite (required_previous_stage policy) (tag args)
           version stage sibling_stages v1) in
    let finished (cargo_version : string) (v4 : list string) : Prop :=
      let violations := check_manifest (tag args) version cargo_version v4 in
      written σ' = Some {|
        report_policy_schema_version := schema_version policy;
        report_tag := tag args;
        report_tag_sha := if bool_decide (tag_sha <> "") then Some tag_sha else None;
        report_version := version;
        report_stage := stage;
        report_stage_number := num;
        report_mode := mode args;
        ready_to_publish := is_publish (mode args) && bool_decide (violations = []);
        report_required_checks := default [] (required_checks policy !! stage);
        report_sibling_tags := sibling_tags;
        report_warnings := warnings;
        report_violations := violations |}
      /\ r = Ret (if fail_on_violation args && bool_decide (violations <> [])
                  then 3%Z else 0%Z) in
    calls σ' =
      calls σ
      ++ [(["git"; "fetch"; "--quiet"; "origin"; "main"; "--tags"], fetched);
          (["git"; "rev-parse"; tag args +:+ "^{commit}"], resolved)]
      ++ entries ["git"; "merge-base"; "--is-ancestor"; tag_sha; "origin/main"] ancestry
      ++ [(["git"; "tag"; "--list"; "v" +:+ version +:+ "*"], listed)]
      ++ entries ["git"; "show"; tag args +:+ ":Cargo.toml"] shown
    /\ (is_Some ancestry <-> tag_sha <> "")
    /\ if bool_decide (returncode listed <> 0%Z) then
         r = Raise (RuntimeError
                      (msg_git_failed ["tag"; "--list"; "v" +:+ version +:+ "*"] listed))
         /\ written σ' = written σ /\ shown = None
       else
         (is_Some shown <-> tag_sha <> "")
         /\ match shown with
            | None => finished "" v3
            | Some proc =>
                if bool_decide (returncode proc <> 0%Z) then
                  finished ""
                    (v3 ++ [msg_inspect (tag args)
                              (msg_git_failed ["show"; tag args +:+ ":Cargo.toml"] proc)])
                else
                  match scan_cargo_version (PyStr.splitlines (PyStr.strip (stdout proc))) with
                  | Ret cargo_version => finished cargo_version v3
                  | Raise e => r = Raise e /\ written σ' = written σ
                  end
            end.
Proof.
  intros Hp H. unfold main in H. rewrite Hp in H.
  unfold run_git, try_except, subprocess_run, write_report, print_stderr, raise in H.
  unfold mbind, M_bind, mret, M_ret in H.
  repeat
    match type of H with
    | context [print_items ?l ?s] => rewrite (print_items_run l s) in H
    | context [subprocess ?a ?w] =>
        destruct (subprocess a w) as [? ?] eqn:?; cbn beta iota zeta delta [world calls printed written] in H
    | context [bool_decide (returncode ?p <> 0%Z)] =>
        destruct (bool_decide (returncode p <> 0%Z)) eqn:?; cbn beta iota zeta delta [world calls printed written] in H
    | context [bool_decide (?s <> "")] =>
        lazymatch s with
        | context [check_manifest] => fail
        | _ => destruct (bool_decide (s <> "")) eqn:?; cbn beta iota zeta delta [world calls printed written] in H
        end
    | context [scan_cargo_version ?l] =>
        let E := fresh "Hscan" in
        destruct (scan_cargo_version l) eqn:E;
        [|pose proof (scan_cargo_version_raise _ _ E); subst];
        cbn beta iota zeta delta [world calls printed written] in H
    | context [andb (fail_on_violation ?a) ?b] =>
        destruct (andb (fail_on_violation a) b) eqn:?; cbn beta iota zeta delta [world calls printed written] in H
    end.
  all: try match goal with
           | E : bool_decide ("" <> "") = true |- _ =>
               apply bool_decide_eq_true in E; congruence
           end.
  all: injection H as <- <-.
  all: match goal with
       | Hf : subprocess ("git" :: "fetch" :: _) _ = (?f, _),
         Hr : subprocess ("git" :: "rev-parse" :: _) _ = (?rv, _),
         Hl : subprocess ("git" :: "tag" :: _) _ = (?l, _) |- _ =>
           exists f, rv, l
       end.
  all: first
    [ match goal with
      | Ha : subprocess ("git" :: "merge-base" :: _) _ = (?a, _) |- _ => exists (Some a)
      end
    | exists None ].
  all: first
    [ match goal with
      | Hs : subprocess ("git" :: "show" :: _) _ = (?a, _) |- _ => exists (Some a)
      end
    | exists None ].
  all: cbn zeta.
  all: repeat match goal with
       | E : bool_decide _ = _ |- _ => rewrite E
       end.
  all: cbn [app entries calls written] in *.
  all: repeat match goal with
       | E : _ && _ = _ |- _ => rewrite E; clear E
       | E : scan_cargo_version _ = _ |- _ => rewrite E; clear E
       end.
  all: repeat match goal with
       | E : bool_decide (_ <> _) = true |- _ => apply bool_decide_eq_true in E
       | E : bool_decide (_ <> _) = false |- _ => apply bool_decide_eq_false in E
       end.
  all: rewrite <- ?app_assoc; cbn [app].
  all: split_and?; try done.
Qed.

Lemma main_malformed (args : Args) (policy : Policy) (σ : System World) (e : exn) :
  parse_tag (tag args) = Raise e ->
  exists msg,
    e = ValueError msg
    /\ main subprocess args policy σ =
       (Ret 2%Z, {| world := world σ; calls := calls σ;
                    printed := printed σ ++ [msg];
                    written := written σ |}).
Proof.
  intros H. destruct (parse_tag_raise_value _ _ H) as [msg ->].
  exists msg. split; [reflexivity|]. unfold main. rewrite H. reflexivity.
Qed.

Lemma in_run_log (argv a1 a2 a3 a4 a5 : list string)
    (p p1 p2 p4 : CompletedProcess) (o3 o5 : option CompletedProcess) :
  (argv, p) ∈ [(a1, p1); (a2, p2)] ++ entries a3 o3 ++ [(a4, p4)] ++ entries a5 o5 ->
  (argv = a1 /\ p = p1) \/ (argv = a2 /\ p = p2) \/ (argv = a3 /\ o3 = Some p)
  \/ (argv = a4 /\ p = p4) \/ (argv = a5 /\ o5 = Some p).
Proof.
  rewrite !elem_of_app, !elem_of_cons.
  destruct o3, o5; cbn [entries];
    rewrite ?elem_of_cons, ?elem_of_nil; intros H;
    repeat match goal with
           | H : _ \/ _ |- _ => destruct H as [H|H]
           | H : False |- _ => destruct H
           | H : (_, _) = (_, _) |- _ => injection H as -> ->
           end; auto 10.
Qed.

(** A completed run on a well-formed tag, step by step. *)
Lemma main_done (args : Args) (policy : Policy) (σ σ' : System World)
    (code : Z) (version stage : string) (num : option N) :
  parse_tag (tag args) = Ret (version, stage, num) ->
  main subprocess args policy σ = (Ret code, σ') ->
  exists (fetched resolved listed : CompletedProcess)
         (ancestry shown : option CompletedProcess)
         (cargo_version : string) (v4 : list string),
    let warnings :=
      if bool_decide (returncode fetched <> 0%Z)
      then [msg_refresh (msg_git_failed ["fetch"; "--quiet"; "origin"; "main"; "--tags"] fetched)]
      else [] in
    let tag_sha :=
      if bool_decide (returncode resolved <> 0%Z) then ""
      else PyStr.strip (stdout resolved) in
    let v0 :=
      if bool_decide (returncode resolved <> 0%Z)
      then [msg_unresolved (tag args)
              (msg_git_failed ["rev-parse"; tag args +:+ "^{commit}"] resolved)]
      else [] in
    let v1 :=
      match ancestry with
      | Some proc =>
          if bool_decide (returncode proc <> 0%Z)
          then v0 ++ [msg_not_reachable (tag args) tag_sha] else v0
      | None => v0
      end in
    let sibling_tags := sibling_tags_of (PyStr.strip (stdout listed)) (tag args) in
    let sibling_stages := sibling_stages_of sibling_tags in
    let v3 :=
      check_regression version stage sibling_stages
        (check_prerequisite (required_previous_stage policy) (tag args)
           version stage sibling_stages v1) in
    let violations := check_manifest (tag args) version cargo_version v4 in
    calls σ' =
      calls σ
      ++ [(["git"; "fetch"; "--quiet"; "origin"; "main"; "--tags"], fetched);
          (["git"; "rev-parse"; tag args +:+ "^{commit}"], resolved)]
      ++ entries ["git"; "merge-base"; "--is-ancestor"; tag_sha; "origin/main"] ancestry
      ++ [(["git"; "tag"; "--list"; "v" +:+ version +:+ "*"], listed)]
      ++ entries ["git"; "show"; tag args +:+ ":Cargo.toml"] shown
    /\ (is_Some ancestry <-> tag_sha <> "")
    /\ (is_Some shown <-> tag_sha <> "")
    /\ returncode listed = 0%Z
    /\ match shown with
       | None => cargo_version = "" /\ v4 = v3
       | Some proc =>
           if bool_decide (returncode proc <> 0%Z) then
             cargo_version = ""
             /\ v4 = v3 ++ [msg_inspect (tag args)
                              (msg_git_failed ["show"; tag args +:+ ":Cargo.toml"] proc)]
           else
             scan_cargo_version (PyStr.splitlines (PyStr.strip (stdout proc)))
             = Ret cargo_version
             /\ v4 = v3
       end
    /\ written σ' = Some {|
         report_policy_schema_version := schema_version policy;
         report_tag := tag args;
         report_tag_sha := if bool_decide (tag_sha <> "") then Some tag_sha else None;
         report_version := version;
         report_stage := stage;
         report_stage_number := num;
         report_mode := mode args;
         ready_to_publish := is_publish (mode args) && bool_decide (violations = []);
         report_required_checks := default [] (required_checks policy !! stage);
         report_sibling_tags := sibling_tags;
         report_warnings := warnings;
         report_violations := violations |}
    /\ code = (if fail_on_violation args && bool_decide (violations <> [])
               then 3%Z else 0%Z).
Proof.
  intros Hp H.
  destruct (main_run _ _ _ _ _ _ _ _ Hp H)
    as (fetched & resolved & listed & ancestry & shown & Hcalls & Hanc & Hrun).
  exists fetched, resolved, listed, ancestry, shown.
  destruct (bool_decide (returncode listed <> 0%Z)) eqn:El; [by destruct Hrun|].
  apply bool_decide_eq_false in El. apply dec_stable in El.
  destruct Hrun as [Hshown Hrun].
  destruct shown as [proc|].
  - destruct (bool_decide (returncode proc <> 0%Z)).
    + destruct Hrun as [Hw [= ->]]. eexists _, _. cbv zeta. split_and!; eauto.
    + destruct (scan_cargo_version _) as [cv|]; [|by destruct Hrun].
      destruct Hrun as [Hw [= ->]]. exists cv. eexists. cbv zeta. split_and!; eauto.
  - destruct Hrun as [Hw [= ->]]. eexists _, _. cbv zeta. split_and!; eauto.
Qed.

(** C8.  Every report that [main] writes has
    [ready_to_publish = (mode == publish) and (violations is empty)];
    in particular a dry run is never ready, whatever the violations. *)
Theorem ready_to_publish_formula (args : Args) (policy : Policy)
    (σ σ' : System World) (code : Z) (version stage : string) (num : option N) :
  parse_tag (tag args) = Ret (version, stage, num) ->
  main subprocess args policy σ = (Ret code, σ') ->
  exists report,
    written σ' = Some report
    /\ report_mode report = mode args
    /\ ready_to_publish report
       = is_publish (report_mode report) && bool_decide (report_violations report = [])
    /\ (mode args = DryRun -> ready_to_publish report = false).
Proof.
  intros Hp H.
  destruct (main_done _ _ _ _ _ _ _ _ Hp H)
    as (? & ? & ? & ? & ? & cv & v4 & Hd).
  cbv zeta in Hd. destruct Hd as (_ & _ & _ & _ & _ & Hw & _).
  eexists. split; [exact Hw|]. cbn. split_and!; auto.
  intros ->. reflexivity.
Qed.

(** C5 (as the script has it).  The exit status is 2 when the tag does
    not parse, and then nothing is written.  When the tag is evaluated
    and [main] returns, the status is 3 if [--fail-on-violation] was
    given and the report has violations, and 0 in every other case; it
    is never the parse-error status 2. *)
Theorem exit_status_convention (args : Args) (policy : Policy)
    (σ σ' : System World) (r : result Z) :
  main subprocess args policy σ = (r, σ') ->
  ((exists e, parse_tag (tag args) = Raise e) ->
     r = Ret 2%Z /\ written σ' = written σ)
  /\ (forall v code, parse_tag (tag args) = Ret v -> r = Ret code ->
        exists report,
          written σ' = Some report
          /\ code = (if fail_on_violation args
                        && bool_decide (report_violations report <> [])
                     then 3%Z else 0%Z)
          /\ code <> 2%Z).
Proof.
  intros H. split.
  - intros [e He]. destruct (main_malformed _ policy σ _ He) as (? & _ & Hmal); rewrite Hmal in H.
    now injection H as <- <-.
  - intros [[version stage] num] code Hp ->.
    destruct (main_done _ _ _ _ _ _ _ _ Hp H)
      as (? & ? & ? & ? & ? & cv & v4 & Hd).
    cbv zeta in Hd. destruct Hd as (_ & _ & _ & _ & _ & Hw & ->).
    eexists. split; [exact Hw|]. cbn. split; [reflexivity|].
    now destruct (_ && _).
Qed.

(** C9.  A candidate that matches neither grammar makes [main] return
    2 at once: the message goes to standard error, no command has been
    run (the log and the world are untouched) and no report is written. *)
Theorem malformed_tag_fails_fast (args : Args) (policy : Policy) (σ : System World) :
  fullmatch STABLE_TAG_RE (tag args) = None ->
  fullmatch PRERELEASE_TAG_RE (tag args) = None ->
  main subprocess args policy σ =
  (Ret 2%Z, {| world := world σ; calls := calls σ;
               printed := printed σ ++ [malformed_tag_message (tag args)];
               written := written σ |}).
Proof.
  intros H1 H2. unfold main, parse_tag. rewrite H1, H2. reflexivity.
Qed.


(** C1 (as the script has it).  The ancestry command decides by its
    exit status alone: any non-zero status, whether a negative answer
    or a command that could not be carried out, records the
    not-reachable violation and the report is not ready to publish; a
    zero status records no such violation.  The only warnings of a
    report are those of the refresh step. *)
Theorem ancestry_exit_status_decides (args : Args) (policy : Policy)
    (σ σ' : System World) (code : Z) (sha : string) (p : CompletedProcess) :
  calls σ = [] ->
  main subprocess args policy σ = (Ret code, σ') ->
  (["git"; "merge-base"; "--is-ancestor"; sha; "origin/main"], p) ∈ calls σ' ->
  exists report,
    written σ' = Some report
    /\ report_tag_sha report = Some sha
    /\ (returncode p <> 0%Z ->
          msg_not_reachable (tag args) sha ∈ report_violations report
          /\ ready_to_publish report = false)
    /\ (returncode p = 0%Z ->
          msg_not_reachable (tag args) sha ∉ report_violations report)
    /\ (forall w, w ∈ report_warnings report -> exists exc, w = msg_refresh exc).
Proof.
  intros Hc H Hin.
  destruct (parse_tag (tag args)) as [[[version stage] num]|e] eqn:Hp.
  2:{ destruct (main_malformed _ policy σ _ Hp) as (? & _ & Hmal); rewrite Hmal in H.
      injection H as _ <-. cbn in Hin. rewrite Hc in Hin.
      by apply elem_of_nil in Hin. }
  destruct (main_done _ _ _ _ _ _ _ _ Hp H)
    as (fetched & resolved & listed & ancestry & shown & cv & v4 & Hd).
  cbv zeta in Hd. destruct Hd as (Hcalls & Hanc & _ & _ & Hm & Hw & _).
  rewrite Hc in Hcalls. cbn [app] in Hcalls. rewrite Hcalls in Hin.
  apply in_run_log in Hin
    as [[[=] _]|[[[=] _]|[[[= ->] ->]|[[[=] _]|[[=] _]]]]].
  assert (bool_decide (returncode resolved <> 0%Z) = false) as Hres.
  { destruct (bool_decide (returncode resolved <> 0%Z)); [|reflexivity].
    exfalso. apply Hanc; eauto. }
  rewrite Hres in *.
  assert (PyStr.strip (stdout resolved) <> "") as Hsha by (apply Hanc; eauto).
  eexists. split; [exact Hw|]. cbn.
  rewrite (bool_decide_eq_true_2 _ Hsha). split; [reflexivity|].
  split_and!.
  - intros Hrc. rewrite (bool_decide_eq_true_2 _ Hrc) in Hm. cbn [app] in Hm.
    assert (msg_not_reachable (tag args) (PyStr.strip (stdout resolved))
              ∈ check_manifest (tag args) version cv v4) as Hv.
    { apply check_manifest_incl.
      destruct shown as [proc|]; [destruct (bool_decide _)|]; destruct Hm as [_ ->];
        rewrite ?elem_of_app; [left| |];
        apply check_regression_incl, check_prerequisite_incl,
              list_elem_of_singleton; reflexivity. }
    split; [exact Hv|].
    rewrite (bool_decide_eq_false_2 _ (elem_nonempty _ _ Hv)). apply andb_false_r.
  - intros Hrc Hv.
    rewrite (bool_decide_eq_false_2 (returncode p <> 0%Z)) in Hm by tauto.
    apply check_manifest_inv in Hv as [Hv|[Hv _]];
      [|exact (not_reachable_not_mismatch _ _ _ _ Hv)].
    assert (msg_not_reachable (tag args) (PyStr.strip (stdout resolved))
              ∈ check_regression version stage
                  (sibling_stages_of
                     (sibling_tags_of (PyStr.strip (stdout listed)) (tag args)))
                  (check_prerequisite (required_previous_stage policy) (tag args)
                     version stage
                     (sibling_stages_of
                        (sibling_tags_of (PyStr.strip (stdout listed)) (tag args)))
                     [])
            \/ exists exc, msg_not_reachable (tag args) (PyStr.strip (stdout resolved))
                           = msg_inspect (tag args) exc) as [Hv3|[exc Hx]].
    { destruct shown as [proc|]; [destruct (bool_decide _)|]; destruct Hm as [_ ->];
        auto.
      apply elem_of_app in Hv as [Hv|Hv]; [auto|].
      apply list_elem_of_singleton in Hv. eauto. }
    + apply check_regression_inv in Hv3 as [Hv3|Hx]; [|discriminate Hx].
      apply check_prerequisite_inv in Hv3 as [Hv3|[? Hx]]; [|discriminate Hx].
      by apply elem_of_nil in Hv3.
    + discriminate Hx.
  - intros w Hwin. destruct (bool_decide (returncode fetched <> 0%Z)).
    + apply list_elem_of_singleton in Hwin. eauto.
    + by apply elem_of_nil in Hwin.
Qed.

(** Before the manifest is looked at, no manifest violation is recorded. *)
Lemma run_prefix_not_manifest (rp : gmap string string)
    (tag version stage sha exc m : string) (ss : list string)
    (resolved : CompletedProcess) (ancestry : option CompletedProcess) :
  m ∈ check_regression version stage ss
        (check_prerequisite rp tag version stage ss
           match ancestry with
           | Some proc =>
               if bool_decide (returncode proc <> 0%Z)
               then (if bool_decide (returncode resolved <> 0%Z)
                     then [msg_unresolved tag exc] else [])
                    ++ [msg_not_reachable tag sha]
               else if bool_decide (returncode resolved <> 0%Z)
                    then [msg_unresolved tag exc] else []
           | None => if bool_decide (returncode resolved <> 0%Z)
                     then [msg_unresolved tag exc] else []
           end) ->
  ~ is_manifest_violation tag version m.
Proof.
  apply before_manifest_not_manifest. intros m' Hm'.
  apply (resolved_violations_not_manifest tag version sha exc m'
           (bool_decide (returncode resolved <> 0%Z))
           ((fun proc => bool_decide (returncode proc <> 0%Z)) <$> ancestry)).
  destruct ancestry as [proc|]; cbn; [destruct (bool_decide (returncode proc <> 0%Z))|];
    exact Hm'.
Qed.

(** C4 (as the script has it).  (a) When [git show] of the manifest
    exits non-zero, which is how an absent manifest shows, the
    inspection-failure violation is recorded and the report is not
    ready.  (b) When the commit did not resolve the manifest is not
    read and no manifest violation is recorded.  (c) When the manifest
    is read, a non-empty declared version that differs from the tag's
    version records the mismatch violation, and that is the only
    manifest violation that can be recorded.
    (d) The manifest step never records a warning.
    (e) The report is free of manifest violations in exactly two cases:
    the commit did not resolve, or the manifest was read and the
    version it declares is empty (none declared) or the tag's own. *)
Theorem manifest_read_outcomes (args : Args) (policy : Policy)
    (σ σ' : System World) (code : Z) (version stage : string) (num : option N) :
  calls σ = [] ->
  parse_tag (tag args) = Ret (version, stage, num) ->
  main subprocess args policy σ = (Ret code, σ') ->
  exists report,
    written σ' = Some report
    /\ (forall p,
          (["git"; "show"; tag args +:+ ":Cargo.toml"], p) ∈ calls σ' ->
          returncode p <> 0%Z ->
          msg_inspect (tag args)
            (msg_git_failed ["show"; tag args +:+ ":Cargo.toml"] p)
            ∈ report_violations report
          /\ ready_to_publish report = false)
    /\ (report_tag_sha report = None ->
          (forall p, (["git"; "show"; tag args +:+ ":Cargo.toml"], p) ∉ calls σ')
          /\ forall m, m ∈ report_violations report ->
                       ~ is_manifest_violation (tag args) version m)
    /\ (forall p,
          (["git"; "show"; tag args +:+ ":Cargo.toml"], p) ∈ calls σ' ->
          returncode p = 0%Z ->
          exists cargo_version,
            scan_cargo_version (PyStr.splitlines (PyStr.strip (stdout p)))
            = Ret cargo_version
            /\ (cargo_version <> "" -> cargo_version <> version ->
                  msg_mismatch (tag args) version cargo_version
                  ∈ report_violations report)
            /\ forall m, m ∈ report_violations report ->
                         is_manifest_violation (tag args) version m ->
                         m = msg_mismatch (tag args) version cargo_version
                         /\ cargo_version <> "" /\ cargo_version <> version)
    /\ (forall w, w ∈ report_warnings report -> exists exc, w = msg_refresh exc)
    /\ ((forall m, m ∈ report_violations report ->
                   ~ is_manifest_violation (tag args) version m)
        <-> report_tag_sha report = None
            \/ exists p cargo_version,
                 (["git"; "show"; tag args +:+ ":Cargo.toml"], p) ∈ calls σ'
                 /\ returncode p = 0%Z
                 /\ scan_cargo_version (PyStr.splitlines (PyStr.strip (stdout p)))
                    = Ret cargo_version
                 /\ (cargo_version = "" \/ cargo_version = version)).
Proof.
  intros Hc Hp H.
  destruct (main_done _ _ _ _ _ _ _ _ Hp H)
    as (fetched & resolved & listed & ancestry & shown & cv & v4 & Hd).
  cbv zeta in Hd. destruct Hd as (Hcalls & Hanc & Hshown & _ & Hm & Hw & _).
  rewrite Hc in Hcalls. cbn [app] in Hcalls. rewrite Hcalls.
  eexists. split; [exact Hw|]. cbn. split_and!; [| | | |split].
  - intros p Hin Hrc.
    apply in_run_log in Hin
      as [[[=] _]|[[[=] _]|[[[=] _]|[[[=] _]|[_ ->]]]]].
    rewrite (bool_decide_eq_true_2 _ Hrc) in Hm. destruct Hm as [-> ->].
    match goal with |- ?m ∈ ?l /\ _ => assert (m ∈ l) as Hv end.
    { apply check_manifest_incl, elem_of_app. right.
      apply list_elem_of_singleton. reflexivity. }
    split; [exact Hv|].
    rewrite (bool_decide_eq_false_2 _ (elem_nonempty _ _ Hv)). apply andb_false_r.
  - intros Hnone.
    assert (shown = None) as ->.
    { destruct shown as [proc|]; [|reflexivity]. exfalso.
      assert (is_Some (Some proc)) as Hs%Hshown by eauto.
      rewrite (bool_decide_eq_true_2 _ Hs) in Hnone. discriminate. }
    destruct Hm as [-> ->]. split.
    + intros p Hin.
      apply in_run_log in Hin
        as [[[=] _]|[[[=] _]|[[[=] _]|[[[=] _]|[_ [=]]]]]].
    + intros m [Hv|(_ & Hne & _)]%check_manifest_inv; [|congruence].
      exact (run_prefix_not_manifest _ _ _ _ _ _ _ _ _ _ Hv).
  - intros p Hin Hrc.
    apply in_run_log in Hin
      as [[[=] _]|[[[=] _]|[[[=] _]|[[[=] _]|[_ ->]]]]].
    rewrite (bool_decide_eq_false_2 (returncode p <> 0%Z)) in Hm by tauto.
    destruct Hm as [Hscan ->]. exists cv. split; [exact Hscan|].
    split; [apply check_manifest_mismatch|].
    intros m [Hv|Hv]%check_manifest_inv Hman; [|exact Hv].
    destruct (run_prefix_not_manifest _ _ _ _ _ _ _ _ _ _ Hv Hman).
  - intros w Hwin. destruct (bool_decide (returncode fetched <> 0%Z)).
    + apply list_elem_of_singleton in Hwin. eauto.
    + by apply elem_of_nil in Hwin.
  - intros Hno. destruct shown as [q|].
    2:{ left. rewrite bool_decide_eq_false_2; [reflexivity|].
        intros Hs. apply Hshown in Hs as [? [=]]. }
    right. destruct (bool_decide (returncode q <> 0%Z)) eqn:E.
    + destruct Hm as [-> ->]. exfalso.
      apply (Hno (msg_inspect (tag args)
                    (msg_git_failed ["show"; tag args +:+ ":Cargo.toml"] q))).
      * apply check_manifest_incl, elem_of_app. right.
        apply list_elem_of_singleton. reflexivity.
      * left. eauto.
    + apply bool_decide_eq_false, dec_stable in E. destruct Hm as [Hscan ->].
      exists q, cv. split.
      { do 2 (apply elem_of_cons; right). apply elem_of_app. right.
        apply elem_of_cons. right. apply elem_of_cons. left. reflexivity. }
      split; [exact E|]. split; [exact Hscan|].
      destruct (decide (cv = "")) as [|Hne]; [auto|].
      destruct (decide (cv = version)) as [|Hne2]; [auto|].
      exfalso. apply (Hno (msg_mismatch (tag args) version cv)).
      * apply check_manifest_mismatch; assumption.
      * right. eauto.
  - intros [Hnone|(p & cv' & Hin & Hrc & Hscan & Hcv)].
    + assert (shown = None) as ->.
      { destruct shown as [proc|]; [|reflexivity]. exfalso.
        assert (is_Some (Some proc)) as Hs%Hshown by eauto.
        rewrite (bool_decide_eq_true_2 _ Hs) in Hnone. discriminate. }
      destruct Hm as [-> ->].
      intros m [Hv|(_ & Hne & _)]%check_manifest_inv; [|congruence].
      exact (run_prefix_not_manifest _ _ _ _ _ _ _ _ _ _ Hv).
    + apply in_run_log in Hin
        as [[[=] _]|[[[=] _]|[[[=] _]|[[[=] _]|[_ ->]]]]].
      rewrite (bool_decide_eq_false_2 (returncode p <> 0%Z)) in Hm by tauto.
      destruct Hm as [Hscan' ->]. rewrite Hscan in Hscan'. injection Hscan' as <-.
      intros m [Hv|(_ & Hne & Hne2)]%check_manifest_inv; [|destruct Hcv; congruence].
      exact (run_prefix_not_manifest _ _ _ _ _ _ _ _ _ _ Hv).
Qed.

(** C10.  When the manifest is read at the resolved ref and has no
    line starting with [version = ] (or the text taken from that line
    is empty), [main] returns and its report has no manifest violation
    and no warning other than that of the refresh step. *)
Theorem manifest_without_version_skipped (args : Args) (policy : Policy)
    (σ σ' : System World) (r : result Z) (p : CompletedProcess) :
  calls σ = [] ->
  main subprocess args policy σ = (r, σ') ->
  (["git"; "show"; tag args +:+ ":Cargo.toml"], p) ∈ calls σ' ->
  returncode p = 0%Z ->
  (forall line, line ∈ PyStr.splitlines (PyStr.strip (stdout p)) ->
     PyStr.startswith (PyStr.strip line) "version = " = false)
  \/ scan_cargo_version (PyStr.splitlines (PyStr.strip (stdout p))) = Ret "" ->
  exists code report version stage num,
    parse_tag (tag args) = Ret (version, stage, num)
    /\ r = Ret code
    /\ written σ' = Some report
    /\ (forall m, m ∈ report_violations report ->
                  ~ is_manifest_violation (tag args) version m)
    /\ (forall w, w ∈ report_warnings report -> exists exc, w = msg_refresh exc).
Proof.
  intros Hc H Hin Hrc Hnov.
  assert (scan_cargo_version (PyStr.splitlines (PyStr.strip (stdout p))) = Ret "")
    as Hscan by (destruct Hnov; auto using scan_no_version_line).
  destruct (parse_tag (tag args)) as [[[version stage] num]|e] eqn:Hp.
  2:{ destruct (main_malformed _ policy σ _ Hp) as (? & _ & Hmal); rewrite Hmal in H.
      injection H as _ <-. cbn in Hin. rewrite Hc in Hin.
      by apply elem_of_nil in Hin. }
  destruct (main_run _ _ _ _ _ _ _ _ Hp H)
    as (fetched & resolved & listed & ancestry & shown & Hcalls & Hanc & Hrun).
  rewrite Hc in Hcalls. cbn [app] in Hcalls. rewrite Hcalls in Hin.
  apply in_run_log in Hin
    as [[[=] _]|[[[=] _]|[[[=] _]|[[[=] _]|[_ ->]]]]].
  destruct (bool_decide (returncode listed <> 0%Z)); [by destruct Hrun as (_ & _ & [=])|].
  destruct Hrun as [_ Hrun].
  rewrite (bool_decide_eq_false_2 (returncode p <> 0%Z)) in Hrun by tauto.
  rewrite Hscan in Hrun. destruct Hrun as [Hw ->].
  eexists _, _, version, stage, num.
  split; [reflexivity|]. split; [reflexivity|]. split; [exact Hw|]. cbn. split.
  - intros m [Hv|(_ & Hne & _)]%check_manifest_inv; [|congruence].
    exact (run_prefix_not_manifest _ _ _ _ _ _ _ _ _ _ Hv).
  - intros w Hwin. destruct (bool_decide (returncode fetched <> 0%Z)).
    + apply list_elem_of_singleton in Hwin. eauto.
    + by apply elem_of_nil in Hwin.
Qed.

End Runs.

(** ** The tag grammar *)

(** C6.  No string matches both grammars, so [parse_tag] classifies a
    string at most once and the order in which the two patterns are
    tried does not matter.  A result without a number is the stable
    classification: it comes from a string that matches the stable
    pattern and not the pre-release one.  A result with a number is a
    pre-release classification, with stage [alpha], [beta] or [rc]: it
    comes from a string that matches the pre-release pattern and not the
    stable one.  A string that matches the pre-release pattern is never
    classified as stable: it is classified from that match, unless
    [int] refuses its number.  [v1.2.3] is the stable tag of 1.2.3,
    [v1.2.3-rc.4] the pre-release [rc] number 4 of 1.2.3, and
    [v1.2.3-rc] and [1.2.3] are rejected. *)
Theorem tag_grammars_exclusive :
  (forall S : string,
     fullmatch STABLE_TAG_RE S = None \/ fullmatch PRERELEASE_TAG_RE S = None)
  /\ (forall (S version stage : string) (number : option N),
        parse_tag S = Ret (version, stage, number) ->
        match number with
        | None =>
            stage = "stable"
            /\ is_Some (fullmatch STABLE_TAG_RE S)
            /\ fullmatch PRERELEASE_TAG_RE S = None
        | Some _ =>
            stage ∈ ["alpha"; "beta"; "rc"]
            /\ fullmatch STABLE_TAG_RE S = None
            /\ is_Some (fullmatch PRERELEASE_TAG_RE S)
        end)
  /\ (forall S : string,
        match fullmatch PRERELEASE_TAG_RE S with
        | Some pre_match =>
            parse_tag S
            = match PyStr.int (group pre_match "number") with
              | Ret number =>
                  Ret (group pre_match "version", group pre_match "stage",
                       Some number)
              | Raise e => Raise e
              end
        | None => True
        end)
  /\ parse_tag "v1.2.3" = Ret ("1.2.3", "stable", None)
  /\ parse_tag "v1.2.3-rc.4" = Ret ("1.2.3", "rc", Some 4%N)
  /\ parse_tag "v1.2.3-rc" = Raise (ValueError (malformed_tag_message "v1.2.3-rc"))
  /\ parse_tag "1.2.3" = Raise (ValueError (malformed_tag_message "1.2.3")).
Proof.
  assert (forall S : string,
            fullmatch STABLE_TAG_RE S = None \/ fullmatch PRERELEASE_TAG_RE S = None)
    as Hex.
  { intros S. pose proof (grammars_exclusive S) as H.
    destruct (fullmatch STABLE_TAG_RE S); [|auto].
    destruct (fullmatch PRERELEASE_TAG_RE S); [|auto].
    destruct H. split; eauto. }
  split; [exact Hex|]. split; [|split].
  - intros S version stage number. unfold parse_tag.
    destruct (fullmatch STABLE_TAG_RE S) as [m|] eqn:Es.
    + intros [= <- <- <-]. destruct (Hex S) as [Hs|Hp]; [congruence|]. eauto.
    + destruct (fullmatch PRERELEASE_TAG_RE S) as [m|] eqn:Ep; [|discriminate].
      destruct (PyStr.int (group m "number")); [|discriminate].
      intros [= <- <- <-].
      destruct (prerelease_shape S m Ep) as (_ & _ & Hst & _). eauto.
  - intros S. destruct (fullmatch PRERELEASE_TAG_RE S) as [g|] eqn:E; [|exact I].
    unfold parse_tag. destruct (Hex S) as [-> | H]; [|congruence].
    now rewrite E.
  - repeat split; vm_compute; reflexivity.
Qed.

(** ** The claims on concrete repositories *)

Import Examples.

Lemma ready_to_publish_formula_witness :
  parse_tag "v1.0.0-alpha.1" = Ret ("1.0.0", "alpha", Some 1%N)
  /\ run_alpha_after_rc DryRun false = (Ret 0%Z, (run_alpha_after_rc DryRun false).2)
  /\ exists report,
       written (run_alpha_after_rc DryRun false).2 = Some report
       /\ report_mode report = DryRun
       /\ ready_to_publish report
          = is_publish (report_mode report) && bool_decide (report_violations report = [])
       /\ (DryRun = DryRun -> ready_to_publish report = false).
Proof.
  split; [vm_compute; reflexivity|]. split; [vm_compute; reflexivity|].
  apply (ready_to_publish_formula FakeGit.subprocess
           (guard "v1.0.0-alpha.1" DryRun false) FakeGit.no_policy
           (FakeGit.start repo_rc_exists) _ 0%Z "1.0.0" "alpha" (Some 1%N));
    vm_compute; reflexivity.
Defined.

(** C5, refuted as stated: without [--fail-on-violation] the run of
    [v1.0.0-alpha.1] after [v1.0.0-rc.1] exits with status 0 although its
    report has a violation. *)
Lemma exit_status_counterexample :
  exit_status (run_alpha_after_rc Publish false).1 = 0%Z
  /\ report_violations <$> written (run_alpha_after_rc Publish false).2
     = Some [msg_regression "1.0.0" "alpha"].
Proof. split; vm_compute; reflexivity. Qed.

Lemma exit_status_convention_witness :
  run_alpha_after_rc Publish true
  = ((run_alpha_after_rc Publish true).1, (run_alpha_after_rc Publish true).2)
  /\ (run_alpha_after_rc Publish true).1 = Ret 3%Z
  /\ exists report,
       written (run_alpha_after_rc Publish true).2 = Some report
       /\ 3%Z = (if true && bool_decide (report_violations report <> [])
                 then 3%Z else 0%Z)
       /\ 3%Z <> 2%Z.
Proof.
  split; [vm_compute; reflexivity|]. split; [vm_compute; reflexivity|].
  refine (proj2 (exit_status_convention FakeGit.subprocess
                   (guard "v1.0.0-alpha.1" Publish true) FakeGit.no_policy
                   (FakeGit.start repo_rc_exists) _ _ _)
                ("1.0.0", "alpha", Some 1%N) 3%Z _ _);
    vm_compute; reflexivity.
Defined.

Lemma malformed_tag_fails_fast_witness :
  fullmatch STABLE_TAG_RE "1.2.3" = None
  /\ fullmatch PRERELEASE_TAG_RE "1.2.3" = None
  /\ run_malformed
     = (Ret 2%Z,
        {| world := repo_rc_exists; calls := [];
           printed := [malformed_tag_message "1.2.3"]; written := None |}).
Proof.
  split; [vm_compute; reflexivity|]. split; [vm_compute; reflexivity|].
  apply (malformed_tag_fails_fast FakeGit.subprocess
           (guard "1.2.3" Publish true) FakeGit.no_policy
           (FakeGit.start repo_rc_exists));
    vm_compute; reflexivity.
Defined.


(** C1, refuted as stated: the remote cannot be fetched and [origin/main]
    is unknown, so the ancestry command cannot be carried out (status
    128).  Nothing else is wrong with the tag and the mode is [publish],
    yet the run records the not-reachable violation, its only warning is
    that of the refresh step, and the report is not ready to publish. *)
Lemma ancestry_unavailable_counterexample :
  calls run_without_trunk.2 !! 2%nat
  = Some (["git"; "merge-base"; "--is-ancestor"; "a1"; "origin/main"],
          FakeGit.failed 128 "fatal: Not a valid object name origin/main")
  /\ report_mode <$> written run_without_trunk.2 = Some Publish
  /\ report_violations <$> written run_without_trunk.2
     = Some [msg_not_reachable "v1.0.0-alpha.1" "a1"]
  /\ report_warnings <$> written run_without_trunk.2
     = Some [msg_refresh
               "git fetch --quiet origin main --tags failed (128): fatal: unable to access origin"]
  /\ ready_to_publish <$> written run_without_trunk.2 = Some false.
Proof. repeat split; vm_compute; reflexivity. Qed.

Lemma ancestry_exit_status_decides_witness :
  calls (FakeGit.start repo_without_trunk) = []
  /\ (["git"; "merge-base"; "--is-ancestor"; "a1"; "origin/main"],
      FakeGit.failed 128 "fatal: Not a valid object name origin/main")
     ∈ calls run_without_trunk.2
  /\ exists report,
       written run_without_trunk.2 = Some report
       /\ report_tag_sha report = Some "a1"
       /\ msg_not_reachable "v1.0.0-alpha.1" "a1" ∈ report_violations report
       /\ ready_to_publish report = false.
Proof.
  assert ((["git"; "merge-base"; "--is-ancestor"; "a1"; "origin/main"],
           FakeGit.failed 128 "fatal: Not a valid object name origin/main")
          ∈ calls run_without_trunk.2) as Hin.
  { apply (list_elem_of_lookup_2 _ 2%nat). vm_compute. reflexivity. }
  split; [reflexivity|]. split; [exact Hin|].
  destruct (ancestry_exit_status_decides FakeGit.subprocess
              (guard "v1.0.0-alpha.1" Publish false) FakeGit.no_policy
              (FakeGit.start repo_without_trunk) run_without_trunk.2 0%Z "a1"
              (FakeGit.failed 128 "fatal: Not a valid object name origin/main"))
    as (report & Hw & Hsha & Hbad & _ & _).
  - reflexivity.
  - vm_compute; reflexivity.
  - exact Hin.
  - exists report. split; [exact Hw|]. split; [exact Hsha|].
    apply Hbad. discriminate.
Defined.

(** C4, refuted as stated: the tag resolves to a commit of the trunk
    that has no [Cargo.toml]; the run records a violation for it. *)
Lemma absent_manifest_counterexample :
  calls run_without_manifest.2 !! 4%nat
  = Some (["git"; "show"; "v1.0.0-alpha.1:Cargo.toml"],
          FakeGit.failed 128 "fatal: path 'Cargo.toml' does not exist")
  /\ report_violations <$> written run_without_manifest.2
     = Some [msg_inspect "v1.0.0-alpha.1"
               "git show v1.0.0-alpha.1:Cargo.toml failed (128): fatal: path 'Cargo.toml' does not exist"]
  /\ ready_to_publish <$> written run_without_manifest.2 = Some false.
Proof. repeat split; vm_compute; reflexivity. Qed.

Lemma manifest_read_outcomes_witness :
  calls (FakeGit.start repo_without_manifest) = []
  /\ parse_tag "v1.0.0-alpha.1" = Ret ("1.0.0", "alpha", Some 1%N)
  /\ exists report,
       written run_without_manifest.2 = Some report
       /\ msg_inspect "v1.0.0-alpha.1"
            (msg_git_failed ["show"; "v1.0.0-alpha.1:Cargo.toml"]
               (FakeGit.failed 128 "fatal: path 'Cargo.toml' does not exist"))
          ∈ report_violations report
       /\ ready_to_publish report = false
       /\ (forall w, w ∈ report_warnings report -> exists exc, w = msg_refresh exc).
Proof.
  split; [reflexivity|]. split; [vm_compute; reflexivity|].
  destruct (manifest_read_outcomes FakeGit.subprocess
              (guard "v1.0.0-alpha.1" Publish false) FakeGit.no_policy
              (FakeGit.start repo_without_manifest) run_without_manifest.2 0%Z
              "1.0.0" "alpha" (Some 1%N))
    as (report & Hw & Hfail & _ & _ & Hwarn & _).
  - reflexivity.
  - vm_compute; reflexivity.
  - vm_compute; reflexivity.
  - exists report. split; [exact Hw|].
    destruct (Hfail (FakeGit.failed 128 "fatal: path 'Cargo.toml' does not exist"))
      as [Hv Hr].
    + apply (list_elem_of_lookup_2 _ 4%nat). vm_compute. reflexivity.
    + discriminate.
    + auto.
Defined.

Lemma manifest_without_version_skipped_witness :
  calls (FakeGit.start repo_workspace_manifest) = []
  /\ (["git"; "show"; "v1.0.0-alpha.1:Cargo.toml"], FakeGit.ok workspace_manifest)
     ∈ calls run_workspace_manifest.2
  /\ scan_cargo_version
       (PyStr.splitlines (PyStr.strip (stdout (FakeGit.ok workspace_manifest))))
     = Ret ""
  /\ exists code report version stage num,
       parse_tag "v1.0.0-alpha.1" = Ret (version, stage, num)
       /\ run_workspace_manifest.1 = Ret code
       /\ written run_workspace_manifest.2 = Some report
       /\ (forall m, m ∈ report_violations report ->
                     ~ is_manifest_violation "v1.0.0-alpha.1" version m)
       /\ (forall w, w ∈ report_warnings report -> exists exc, w = msg_refresh exc).
Proof.
  assert ((["git"; "show"; "v1.0.0-alpha.1:Cargo.toml"], FakeGit.ok workspace_manifest)
          ∈ calls run_workspace_manifest.2) as Hin.
  { apply (list_elem_of_lookup_2 _ 4%nat). vm_compute. reflexivity. }
  split; [reflexivity|]. split; [exact Hin|]. split; [vm_compute; reflexivity|].
  apply (manifest_without_version_skipped FakeGit.subprocess
           (guard "v1.0.0-alpha.1" Publish false) FakeGit.no_policy
           (FakeGit.start repo_workspace_manifest) run_workspace_manifest.2
           run_workspace_manifest.1 (FakeGit.ok workspace_manifest)).
  - reflexivity.
  - vm_compute; reflexivity.
  - exact Hin.
  - reflexivity.
  - right. vm_compute; reflexivity.
Defined.

(** C3: the sibling list is taken by the pattern [v1.2.3*], which also
    matches the tags of version 1.2.30.  (a) The released [v1.2.30] is
    listed as a sibling of [v1.2.3-alpha.1] and its stage makes the run
    refuse the alpha of 1.2.3 as a stage regression.  (b) The beta of
    1.2.30 is listed as a sibling of [v1.2.3-rc.1] and satisfies the
    prerequisite [rc] needs [beta], so the release candidate of 1.2.3 is
    ready to publish although version 1.2.3 has no beta. *)
Theorem sibling_prefix_takes_other_versions :
  parse_tag "v1.2.30" = Ret ("1.2.30", "stable", None)
  /\ written run_longer_patch.2
     = Some {| report_policy_schema_version := schema_version FakeGit.no_policy;
               report_tag := "v1.2.3-alpha.1";
               report_tag_sha := Some "a1";
               report_version := "1.2.3";
               report_stage := "alpha";
               report_stage_number := Some 1%N;
               report_mode := Publish;
               ready_to_publish := false;
               report_required_checks := [];
               report_sibling_tags := ["v1.2.30"];
               report_warnings := [];
               report_violations := [msg_regression "1.2.3" "alpha"] |}
  /\ parse_tag "v1.2.30-beta.1" = Ret ("1.2.30", "beta", Some 1%N)
  /\ required_previous_stage FakeGit.staged_policy !! "rc" = Some "beta"
  /\ written run_foreign_beta.2
     = Some {| report_policy_schema_version := schema_version FakeGit.staged_policy;
               report_tag := "v1.2.3-rc.1";
               report_tag_sha := Some "r1";
               report_version := "1.2.3";
               report_stage := "rc";
               report_stage_number := Some 1%N;
               report_mode := Publish;
               ready_to_publish := true;
               report_required_checks := [];
               report_sibling_tags := ["v1.2.30-beta.1"];
               report_warnings := [];
               report_violations := [] |}.
Proof. repeat split; vm_compute; reflexivity. Qed.

(** C2: where every [git] command fails (the directory is not a
    repository) the refresh and resolve steps record their failures, but
    the failure of [git tag --list] is not caught: [main] ends in the
    [RuntimeError] and writes no report. *)
Theorem tag_listing_failure_aborts :
  parse_tag "v1.0.0" = Ret ("1.0.0", "stable", None)
  /\ run_not_a_work_tree.1
     = Raise (RuntimeError
                "git tag --list v1.0.0* failed (128): fatal: not a git repository (or any of the parent directories): .git")
  /\ fst <$> calls run_not_a_work_tree.2
     = [["git"; "fetch"; "--quiet"; "origin"; "main"; "--tags"];
        ["git"; "rev-parse"; "v1.0.0^{commit}"];
        ["git"; "tag"; "--list"; "v1.0.0*"]]
  /\ written run_not_a_work_tree.2 = None
  /\ exit_status run_not_a_work_tree.1 = 1%Z.
Proof. repeat split; vm_compute; reflexivity. Qed.

(** ** More runs of [main] *)

Section MoreRuns.
Context {World : Type} (subprocess : list string -> World -> CompletedProcess * World).

(** The violations of a report, check by check. *)
Lemma main_report (args : Args) (policy : Policy) (σ σ' : System World)
    (code : Z) (version stage : string) (num : option N) :
  parse_tag (tag args) = Ret (version, stage, num) ->
  main subprocess args policy σ = (Ret code, σ') ->
  exists (report : Report) (v1 v4 : list string) (cargo_version : string),
    let ss := sibling_stages_of (report_sibling_tags report) in
    let v3 :=
      check_regression version stage ss
        (check_prerequisite (required_previous_stage policy) (tag args)
           version stage ss v1) in
    written σ' = Some report
    /\ report_violations report = check_manifest (tag args) version cargo_version v4
    /\ (v4 = v3 \/ exists exc, v4 = v3 ++ [msg_inspect (tag args) exc])
    /\ (forall m, m ∈ v1 ->
          (exists exc, m = msg_unresolved (tag args) exc)
          \/ (exists sha, m = msg_not_reachable (tag args) sha))
    /\ ready_to_publish report
       = is_publish (mode args) && bool_decide (report_violations report = []).
Proof.
  intros Hp H.
  destruct (main_done subprocess _ _ _ _ _ _ _ _ Hp H)
    as (fetched & resolved & listed & ancestry & shown & cv & v4 & Hd).
  cbv zeta in Hd. destruct Hd as (_ & _ & _ & _ & Hm & Hw & _).
  eexists _, _, v4, cv. cbv zeta. split; [exact Hw|]. cbn.
  split; [reflexivity|]. split; [|split; [|reflexivity]].
  - destruct shown as [proc|]; [destruct (bool_decide _)|]; destruct Hm as [_ ->]; eauto.
  - intros m Hm1.
    destruct (resolve_violation_kinds (tag args)
                (if bool_decide (returncode resolved <> 0%Z) then ""
                 else PyStr.strip (stdout resolved))
                (msg_git_failed ["rev-parse"; tag args +:+ "^{commit}"] resolved) m
                (bool_decide (returncode resolved <> 0%Z))
                ((fun proc => bool_decide (returncode proc <> 0%Z)) <$> ancestry));
      [|eauto..].
    destruct ancestry as [proc|]; cbn;
      [destruct (bool_decide (returncode proc <> 0%Z))|]; exact Hm1.
Qed.

(** X7.  In a completed run the missing-prerequisite violation is
    recorded exactly when the policy names a non-empty previous stage
    for the candidate's stage and no listed sibling tag parses with that
    stage. *)
Theorem prerequisite_violation_iff (args : Args) (policy : Policy)
    (σ σ' : System World) (code : Z) (version stage : string) (num : option N) :
  parse_tag (tag args) = Ret (version, stage, num) ->
  main subprocess args policy σ = (Ret code, σ') ->
  exists report,
    written σ' = Some report
    /\ forall p,
         msg_prerequisite stage p version (tag args) ∈ report_violations report
         <-> required_previous_stage policy !! stage = Some p
             /\ p <> ""
             /\ forall t v n, t ∈ report_sibling_tags report ->
                              parse_tag t <> Ret (v, p, n).
Proof.
  intros Hp H.
  destruct (main_report _ _ _ _ _ _ _ _ Hp H) as (report & v1 & v4 & cv & Hr).
  cbv zeta in Hr. destruct Hr as (Hw & Hviol & Hv4 & Hv1 & _).
  exists report. split; [exact Hw|]. intros p. rewrite Hviol.
  rewrite frame_manifest by discriminate.
  rewrite (frame_inspect (tag args) (msg_prerequisite stage p version (tag args))
             _ _ ltac:(discriminate) Hv4).
  rewrite frame_regression by discriminate.
  rewrite check_prerequisite_iff.
  assert (p ∉ sibling_stages_of (report_sibling_tags report)
          <-> forall t v n, t ∈ report_sibling_tags report ->
                            parse_tag t <> Ret (v, p, n)) as <-.
  { split.
    - intros Hn t v n Ht Hpt. apply Hn. exact (sibling_stages_of_elem _ _ _ _ _ Ht Hpt).
    - intros Hn (t & v & n & Ht & Hpt)%sibling_stages_of_inv. exact (Hn _ _ _ Ht Hpt). }
  split; [|auto]. intros [Hin|Hc]; [|exact Hc].
  destruct (Hv1 _ Hin) as [[? Hx]|[? Hx]]; discriminate Hx.
Qed.

(** X8.  In a completed run the stage-regression violation is recorded
    exactly when some listed sibling tag parses with a stage of strictly
    higher rank than the candidate's; a stable candidate never gets it. *)
Theorem regression_violation_iff (args : Args) (policy : Policy)
    (σ σ' : System World) (code : Z) (version stage : string) (num : option N) :
  parse_tag (tag args) = Ret (version, stage, num) ->
  main subprocess args policy σ = (Ret code, σ') ->
  exists report,
    written σ' = Some report
    /\ (msg_regression version stage ∈ report_violations report
        <-> exists t v st n,
              t ∈ report_sibling_tags report
              /\ parse_tag t = Ret (v, st, n)
              /\ (stage_rank st > stage_rank stage)%Z)
    /\ (stage = "stable" ->
        msg_regression version stage ∉ report_violations report).
Proof.
  intros Hp H.
  destruct (main_report _ _ _ _ _ _ _ _ Hp H) as (report & v1 & v4 & cv & Hr).
  cbv zeta in Hr. destruct Hr as (Hw & Hviol & Hv4 & Hv1 & _).
  exists report. split; [exact Hw|]. rewrite Hviol.
  assert (msg_regression version stage
            ∈ check_manifest (tag args) version cv v4
          <-> exists st, st ∈ sibling_stages_of (report_sibling_tags report)
                         /\ (stage_rank st > stage_rank stage)%Z) as Hiff.
  { rewrite frame_manifest by discriminate.
    rewrite (frame_inspect (tag args) (msg_regression version stage)
               _ _ ltac:(discriminate) Hv4).
    rewrite check_regression_iff.
    rewrite frame_prerequisite by discriminate.
    split; [|auto]. intros [Hin|Hc]; [|exact Hc].
    destruct (Hv1 _ Hin) as [[? Hx]|[? Hx]]; discriminate Hx. }
  split.
  - rewrite Hiff. split.
    + intros (st & (t & v & n & Ht & Hpt)%sibling_stages_of_inv & Hr). eauto 10.
    + intros (t & v & st & n & Ht & Hpt & Hr).
      exists st. split; [exact (sibling_stages_of_elem _ _ _ _ _ Ht Hpt)|exact Hr].
  - intros -> (st & _ & Hr)%Hiff. pose proof (stage_rank_le_stable st). lia.
Qed.

(** The command lines of a run, in the order they were run. *)
Lemma main_commands (args : Args) (policy : Policy) (σ σ' : System World)
    (r : result Z) (version stage : string) (num : option N) :
  calls σ = [] ->
  parse_tag (tag args) = Ret (version, stage, num) ->
  main subprocess args policy σ = (r, σ') ->
  exists (sha : string) (ancestry shown : bool),
    fst <$> calls σ'
    = [["git"; "fetch"; "--quiet"; "origin"; "main"; "--tags"];
       ["git"; "rev-parse"; tag args +:+ "^{commit}"]]
      ++ (if ancestry
          then [["git"; "merge-base"; "--is-ancestor"; sha; "origin/main"]]
          else [])
      ++ [["git"; "tag"; "--list"; "v" +:+ version +:+ "*"]]
      ++ (if shown then [["git"; "show"; tag args +:+ ":Cargo.toml"]] else [])
    /\ (shown = true -> ancestry = true).
Proof.
  intros Hc Hp H.
  destruct (main_run _ _ _ _ _ _ _ _ _ Hp H)
    as (fetched & resolved & listed & ancestry & shown & Hcalls & Hanc & Hrun).
  rewrite Hc in Hcalls. cbn [app] in Hcalls. rewrite Hcalls.
  eexists _, (bool_decide (is_Some ancestry)), (bool_decide (is_Some shown)).
  split.
  - destruct ancestry, shown; reflexivity.
  - intros Hs%bool_decide_eq_true. apply bool_decide_eq_true, Hanc.
    destruct (bool_decide (returncode listed <> 0%Z)).
    + destruct Hrun as (_ & _ & ->). by destruct Hs.
    + by apply Hrun.
Qed.

(** X9.  Whatever the outcome, a run issues only these git commands, in
    this order and each at most once: fetch, rev-parse of the tag,
    merge-base of the resolved commit, tag --list and show of the
    manifest. *)
Theorem only_five_git_commands (args : Args) (policy : Policy)
    (σ σ' : System World) (r : result Z) :
  calls σ = [] ->
  main subprocess args policy σ = (r, σ') ->
  exists version sha,
    fst <$> calls σ'
    `sublist_of`
      [["git"; "fetch"; "--quiet"; "origin"; "main"; "--tags"];
       ["git"; "rev-parse"; tag args +:+ "^{commit}"];
       ["git"; "merge-base"; "--is-ancestor"; sha; "origin/main"];
       ["git"; "tag"; "--list"; "v" +:+ version +:+ "*"];
       ["git"; "show"; tag args +:+ ":Cargo.toml"]].
Proof.
  intros Hc H.
  destruct (parse_tag (tag args)) as [[[version stage] num]|e] eqn:Hp.
  - destruct (main_commands _ _ _ _ _ _ _ _ Hc Hp H) as (sha & a & s & -> & _).
    exists version, sha.
    destruct a, s; cbn [app]; repeat first [apply sublist_skip | apply sublist_cons | apply sublist_nil].
  - destruct (main_malformed subprocess _ policy σ _ Hp) as (? & _ & Hmal); rewrite Hmal in H. injection H as _ <-.
    cbn. rewrite Hc. exists "", "". apply sublist_nil_l.
Qed.

(** X10.  A report that says ready to publish was produced in publish
    mode with exit code 0, after rev-parse succeeded; if it records a
    commit, the ancestry command and the manifest read both exited with
    0 and the manifest declares no version or the tag's version; no
    sibling outranks the candidate, and a required previous stage is
    present among the siblings. *)
Theorem ready_report_is_checked (args : Args) (policy : Policy)
    (σ σ' : System World) (code : Z) (version stage : string) (num : option N) :
  calls σ = [] ->
  parse_tag (tag args) = Ret (version, stage, num) ->
  main subprocess args policy σ = (Ret code, σ') ->
  exists report,
    written σ' = Some report
    /\ (ready_to_publish report = true ->
        mode args = Publish
        /\ code = 0%Z
        /\ (exists p, (["git"; "rev-parse"; tag args +:+ "^{commit}"], p) ∈ calls σ'
                      /\ returncode p = 0%Z)
        /\ (forall sha, report_tag_sha report = Some sha ->
              (exists q, (["git"; "merge-base"; "--is-ancestor"; sha; "origin/main"], q)
                           ∈ calls σ'
                         /\ returncode q = 0%Z)
              /\ (exists q cargo_version,
                    (["git"; "show"; tag args +:+ ":Cargo.toml"], q) ∈ calls σ'
                    /\ returncode q = 0%Z
                    /\ scan_cargo_version (PyStr.splitlines (PyStr.strip (stdout q)))
                       = Ret cargo_version
                    /\ (cargo_version = "" \/ cargo_version = version)))
        /\ (forall t v st n, t ∈ report_sibling_tags report ->
                             parse_tag t = Ret (v, st, n) ->
                             (stage_rank st <= stage_rank stage)%Z)
        /\ (forall p, required_previous_stage policy !! stage = Some p -> p <> "" ->
                      exists t v n, t ∈ report_sibling_tags report
                                    /\ parse_tag t = Ret (v, p, n))).
Proof.
  intros Hc Hp H.
  destruct (main_done _ _ _ _ _ _ _ _ _ Hp H)
    as (fetched & resolved & listed & ancestry & shown & cv & v4 & Hd).
  cbv zeta in Hd. destruct Hd as (Hcalls & Hanc & Hshown & _ & Hm & Hw & Hcode).
  rewrite Hc in Hcalls. cbn [app] in Hcalls. rewrite Hcalls.
  eexists. split; [exact Hw|]. cbn.
  intros [Hmode Hnil%bool_decide_eq_true]%andb_true_iff.
  rewrite Hnil in Hcode. rewrite andb_false_r in Hcode.
  apply check_manifest_nil in Hnil as [-> Hcv].
  assert (check_regression version stage
            (sibling_stages_of (sibling_tags_of (PyStr.strip (stdout listed)) (tag args)))
            (check_prerequisite (required_previous_stage policy) (tag args) version stage
               (sibling_stages_of (sibling_tags_of (PyStr.strip (stdout listed)) (tag args)))
               match ancestry with
               | Some proc =>
                   if bool_decide (returncode proc <> 0%Z)
                   then (if bool_decide (returncode resolved <> 0%Z)
                         then [msg_unresolved (tag args)
                                 (msg_git_failed ["rev-parse"; tag args +:+ "^{commit}"] resolved)]
                         else [])
                        ++ [msg_not_reachable (tag args)
                              (if bool_decide (returncode resolved <> 0%Z) then ""
                               else PyStr.strip (stdout resolved))]
                   else if bool_decide (returncode resolved <> 0%Z)
                        then [msg_unresolved (tag args)
                                (msg_git_failed ["rev-parse"; tag args +:+ "^{commit}"] resolved)]
                        else []
               | None => if bool_decide (returncode resolved <> 0%Z)
                         then [msg_unresolved (tag args)
                                 (msg_git_failed ["rev-parse"; tag args +:+ "^{commit}"] resolved)]
                         else []
               end) = []
          /\ match shown with
             | Some proc =>
                 returncode proc = 0%Z
                 /\ scan_cargo_version (PyStr.splitlines (PyStr.strip (stdout proc))) = Ret cv
             | None => True
             end) as [Hv3 Hshow].
  { destruct shown as [proc|].
    - destruct (bool_decide (returncode proc <> 0%Z)) eqn:E.
      + destruct Hm as [_ Hx]. symmetry in Hx. by apply app_nil in Hx as [_ [=]].
      + apply bool_decide_eq_false, dec_stable in E. destruct Hm as [Hs Hx]. auto.
    - destruct Hm as [_ Hx]. auto. }
  apply check_regression_nil in Hv3 as [Hv2 Hrank].
  apply check_prerequisite_nil in Hv2 as [Hv1 Hpre].
  assert (bool_decide (returncode resolved <> 0%Z) = false) as Hres.
  { destruct (bool_decide (returncode resolved <> 0%Z)); [|reflexivity].
    destruct ancestry as [proc|]; [destruct (bool_decide (returncode proc <> 0%Z))|];
      discriminate Hv1. }
  rewrite Hres in *.
  split; [by destruct (mode args)|]. split; [exact Hcode|]. split.
  { exists resolved. split; [|by apply bool_decide_eq_false, dec_stable in Hres].
    apply elem_of_cons. right. apply elem_of_cons. auto. }
  split; [|split].
  - intros sha Hsha.
    destruct (bool_decide (PyStr.strip (stdout resolved) <> "")) eqn:Et; [|discriminate].
    injection Hsha as <-. apply bool_decide_eq_true in Et.
    destruct ancestry as [proc|]; [|by apply Hanc in Et as [? [=]]].
    destruct shown as [q|]; [|by apply Hshown in Et as [? [=]]].
    destruct Hshow as [Hq Hscan]. split.
    + exists proc. split.
      * do 2 (apply elem_of_cons; right). apply elem_of_cons. auto.
      * destruct (bool_decide (returncode proc <> 0%Z)) eqn:E; [discriminate Hv1|].
        by apply bool_decide_eq_false, dec_stable in E.
    + exists q, cv. split; [|auto].
      do 4 (apply elem_of_cons; right). apply elem_of_cons. auto.
  - intros t v st n Ht Hpt. apply Hrank. exact (sibling_stages_of_elem _ _ _ _ _ Ht Hpt).
  - intros p Hrp Hne. apply sibling_stages_of_inv. auto.
Qed.

(** X11.  When rev-parse fails, the report records no commit, holds the
    unable-to-resolve violation and is not ready.  A report without a
    commit comes from a run that issued neither the ancestry command nor
    the manifest read (three commands in all); a report with a commit
    comes from a run that issued all five. *)
Theorem unresolved_commit_skips_provenance (args : Args) (policy : Policy)
    (σ σ' : System World) (code : Z) (version stage : string) (num : option N) :
  calls σ = [] ->
  parse_tag (tag args) = Ret (version, stage, num) ->
  main subprocess args policy σ = (Ret code, σ') ->
  exists report,
    written σ' = Some report
    /\ (forall p,
          (["git"; "rev-parse"; tag args +:+ "^{commit}"], p) ∈ calls σ' ->
          returncode p <> 0%Z ->
          report_tag_sha report = None
          /\ msg_unresolved (tag args)
               (msg_git_failed ["rev-parse"; tag args +:+ "^{commit}"] p)
             ∈ report_violations report
          /\ ready_to_publish report = false)
    /\ (report_tag_sha report = None ->
        fst <$> calls σ'
        = [["git"; "fetch"; "--quiet"; "origin"; "main"; "--tags"];
           ["git"; "rev-parse"; tag args +:+ "^{commit}"];
           ["git"; "tag"; "--list"; "v" +:+ version +:+ "*"]])
    /\ (forall sha, report_tag_sha report = Some sha ->
        fst <$> calls σ'
        = [["git"; "fetch"; "--quiet"; "origin"; "main"; "--tags"];
           ["git"; "rev-parse"; tag args +:+ "^{commit}"];
           ["git"; "merge-base"; "--is-ancestor"; sha; "origin/main"];
           ["git"; "tag"; "--list"; "v" +:+ version +:+ "*"];
           ["git"; "show"; tag args +:+ ":Cargo.toml"]]).
Proof.
  intros Hc Hp H.
  destruct (main_done _ _ _ _ _ _ _ _ _ Hp H)
    as (fetched & resolved & listed & ancestry & shown & cv & v4 & Hd).
  cbv zeta in Hd. destruct Hd as (Hcalls & Hanc & Hshown & _ & Hm & Hw & _).
  rewrite Hc in Hcalls. cbn [app] in Hcalls. rewrite Hcalls.
  eexists. split; [exact Hw|]. cbn. split_and!.
  - intros p Hin Hrc.
    apply in_run_log in Hin
      as [[[=] _]|[[_ ->]|[[[=] _]|[[[=] _]|[[=] _]]]]].
    rewrite (bool_decide_eq_true_2 _ Hrc) in *.
    rewrite (bool_decide_eq_false_2 ("" <> "")) by congruence.
    split; [reflexivity|].
    match goal with |- ?m ∈ ?l /\ _ => assert (m ∈ l) as Hv end.
    { apply check_manifest_incl.
      assert (ancestry = None) as ->
        by (destruct ancestry; [|reflexivity]; exfalso; apply Hanc; eauto).
      destruct shown as [proc|]; [destruct (bool_decide _)|]; destruct Hm as [_ ->];
        rewrite ?elem_of_app; [left| |];
        apply check_regression_incl, check_prerequisite_incl,
              list_elem_of_singleton; reflexivity. }
    split; [exact Hv|].
    rewrite (bool_decide_eq_false_2 _ (elem_nonempty _ _ Hv)). apply andb_false_r.
  - intros Hnone.
    assert (~ (if bool_decide (returncode resolved <> 0%Z) then ""
               else PyStr.strip (stdout resolved)) <> "") as Hsha.
    { intros Hs. rewrite (bool_decide_eq_true_2 _ Hs) in Hnone. discriminate. }
    assert (ancestry = None) as ->
      by (destruct ancestry; [|reflexivity]; exfalso; apply Hsha, Hanc; eauto).
    assert (shown = None) as ->
      by (destruct shown; [|reflexivity]; exfalso; apply Hsha, Hshown; eauto).
    reflexivity.
  - intros sha Hsome.
    destruct (bool_decide (_ <> "")) eqn:Et; [|discriminate].
    injection Hsome as <-. apply bool_decide_eq_true in Et.
    destruct ancestry as [proc|]; [|by apply Hanc in Et as [? [=]]].
    destruct shown as [q|]; [|by apply Hshown in Et as [? [=]]].
    reflexivity.
Qed.

(** X12.  The fetch is the first command of a run; its failure is
    recorded as the one warning of the report, its success leaves the
    warnings empty, and in neither case does a refresh message appear
    among the violations. *)
Theorem refresh_failure_only_warns (args : Args) (policy : Policy)
    (σ σ' : System World) (code : Z) (version stage : string) (num : option N) :
  calls σ = [] ->
  parse_tag (tag args) = Ret (version, stage, num) ->
  main subprocess args policy σ = (Ret code, σ') ->
  exists report p rest,
    written σ' = Some report
    /\ calls σ' = (["git"; "fetch"; "--quiet"; "origin"; "main"; "--tags"], p) :: rest
    /\ report_warnings report
       = (if bool_decide (returncode p <> 0%Z)
          then [msg_refresh
                  (msg_git_failed ["fetch"; "--quiet"; "origin"; "main"; "--tags"] p)]
          else [])
    /\ forall exc, msg_refresh exc ∉ report_violations report.
Proof.
  intros Hc Hp H.
  destruct (main_report _ _ _ _ _ _ _ _ Hp H) as (report & v1 & v4 & cv & Hr).
  cbv zeta in Hr. destruct Hr as (Hw & Hviol & Hv4 & Hv1 & _).
  destruct (main_done _ _ _ _ _ _ _ _ _ Hp H)
    as (fetched & resolved & listed & ancestry & shown & cv' & v4' & Hd).
  cbv zeta in Hd. destruct Hd as (Hcalls & _ & _ & _ & _ & Hw' & _).
  rewrite Hc in Hcalls. cbn [app] in Hcalls.
  exists report, fetched. eexists. split; [exact Hw|]. split; [exact Hcalls|].
  split.
  - rewrite Hw in Hw'. injection Hw' as ->. reflexivity.
  - intros exc. rewrite Hviol.
    rewrite frame_manifest by discriminate.
    rewrite (frame_inspect (tag args) (msg_refresh exc) _ _ ltac:(discriminate) Hv4).
    rewrite frame_regression by discriminate.
    rewrite frame_prerequisite by discriminate.
    intros Hin. destruct (Hv1 _ Hin) as [[? Hx]|[? Hx]]; discriminate Hx.
Qed.

(** X13.  If the manifest is read and its first [version = ] line has no
    second field after splitting at double quotes, the run ends with an
    uncaught [IndexError]: no report is written and the process exits
    with status 1. *)
Theorem unquoted_version_line_aborts (args : Args) (policy : Policy)
    (σ σ' : System World) (r : result Z) (p : CompletedProcess) (e : exn) :
  calls σ = [] ->
  main subprocess args policy σ = (r, σ') ->
  (["git"; "show"; tag args +:+ ":Cargo.toml"], p) ∈ calls σ' ->
  returncode p = 0%Z ->
  scan_cargo_version (PyStr.splitlines (PyStr.strip (stdout p))) = Raise e ->
  r = Raise (IndexError "list index out of range")
  /\ written σ' = written σ
  /\ exit_status r = 1%Z.
Proof.
  intros Hc H Hin Hrc Hscan.
  destruct (parse_tag (tag args)) as [[[version stage] num]|e'] eqn:Hp.
  2:{ destruct (main_malformed subprocess _ policy σ _ Hp) as (? & _ & Hmal); rewrite Hmal in H.
      injection H as _ <-. cbn in Hin. rewrite Hc in Hin.
      by apply elem_of_nil in Hin. }
  destruct (main_run _ _ _ _ _ _ _ _ _ Hp H)
    as (fetched & resolved & listed & ancestry & shown & Hcalls & Hanc & Hrun).
  rewrite Hc in Hcalls. cbn [app] in Hcalls. rewrite Hcalls in Hin.
  apply in_run_log in Hin
    as [[[=] _]|[[[=] _]|[[[=] _]|[[[=] _]|[_ ->]]]]].
  destruct (bool_decide (returncode listed <> 0%Z)); [by destruct Hrun as (_ & _ & [=])|].
  destruct Hrun as [_ Hrun].
  rewrite (bool_decide_eq_false_2 (returncode p <> 0%Z)) in Hrun by tauto.
  rewrite Hscan in Hrun. destruct Hrun as [-> Hw].
  apply scan_cargo_version_raise in Hscan as ->. auto.
Qed.

(** X14.  Standard error of a run that evaluates the tag: with
    [--fail-on-violation] and at least one violation, the header line
    followed by one bullet per violation, in the order of the report;
    otherwise nothing.  A run that raises prints nothing either. *)
Theorem stderr_lists_violations (args : Args) (policy : Policy)
    (σ σ' : System World) (r : result Z) (version stage : string) (num : option N) :
  parse_tag (tag args) = Ret (version, stage, num) ->
  main subprocess args policy σ = (r, σ') ->
  match r with
  | Ret code =>
      exists report,
        written σ' = Some report
        /\ printed σ'
           = printed σ
             ++ (if fail_on_violation args
                    && bool_decide (report_violations report <> [])
                 then "prerelease guard violations found:"
                      :: (String.append "- " <$> report_violations report)
                 else [])
  | Raise _ => printed σ' = printed σ
  end.
Proof.
  intros Hp H. unfold main in H. rewrite Hp in H.
  unfold run_git, try_except, subprocess_run, write_report, print_stderr, raise in H.
  unfold mbind, M_bind, mret, M_ret in H.
  repeat
    match type of H with
    | context [print_items ?l ?s] => rewrite (print_items_run l s) in H
    | context [subprocess ?a ?w] =>
        destruct (subprocess a w) as [? ?] eqn:?;
        cbn beta iota zeta delta [world calls printed written] in H
    | context [bool_decide (returncode ?p <> 0%Z)] =>
        destruct (bool_decide (returncode p <> 0%Z)) eqn:?;
        cbn beta iota zeta delta [world calls printed written] in H
    | context [bool_decide (?s <> "")] =>
        lazymatch s with
        | context [check_manifest] => fail
        | _ => destruct (bool_decide (s <> "")) eqn:?;
               cbn beta iota zeta delta [world calls printed written] in H
        end
    | context [scan_cargo_version ?l] =>
        let E := fresh "Hscan" in
        destruct (scan_cargo_version l) eqn:E;
        [|pose proof (scan_cargo_version_raise _ _ E); subst];
        cbn beta iota zeta delta [world calls printed written] in H
    | context [andb (fail_on_violation ?a) ?b] =>
        destruct (andb (fail_on_violation a) b) eqn:?;
        cbn beta iota zeta delta [world calls printed written] in H
    end.
  all: injection H as <- <-.
  all: cbn [printed written].
  all: try reflexivity.
  all: eexists; split; [reflexivity|]; cbn [report_violations].
  all: cbn [app] in *.
  all: repeat match goal with
       | E : _ && _ = _ |- _ => rewrite E; clear E
       end.
  all: rewrite <- ?app_assoc, ?app_nil_r; cbn [app]; reflexivity.
Qed.
(** X15.  The sibling tags of a report are exactly the stripped lines of
    what [git tag --list] printed that are neither empty nor the
    candidate itself; each is free of surrounding white space.  So the
    candidate never counts as its own sibling. *)
Theorem sibling_tags_from_listing (args : Args) (policy : Policy)
    (σ σ' : System World) (code : Z) (version stage : string) (num : option N) :
  calls σ = [] ->
  parse_tag (tag args) = Ret (version, stage, num) ->
  main subprocess args policy σ = (Ret code, σ') ->
  exists report p,
    written σ' = Some report
    /\ (["git"; "tag"; "--list"; "v" +:+ version +:+ "*"], p) ∈ calls σ'
    /\ returncode p = 0%Z
    /\ forall t,
         (t ∈ report_sibling_tags report
          <-> (exists line, line ∈ PyStr.splitlines (PyStr.strip (stdout p))
                            /\ PyStr.strip line = t)
              /\ t <> "" /\ t <> tag args)
         /\ (t ∈ report_sibling_tags report -> PyStr.strip t = t).
Proof.
  intros Hc Hp H.
  destruct (main_done _ _ _ _ _ _ _ _ _ Hp H)
    as (fetched & resolved & listed & ancestry & shown & cv & v4 & Hd).
  cbv zeta in Hd. destruct Hd as (Hcalls & _ & _ & Hl & _ & Hw & _).
  rewrite Hc in Hcalls. cbn [app] in Hcalls.
  eexists _, listed. split; [exact Hw|]. cbn. split; [|split; [exact Hl|]].
  - rewrite Hcalls. do 2 (apply elem_of_cons; right).
    apply elem_of_app. right. apply elem_of_cons. auto.
  - intros t. split; [apply sibling_tags_of_spec|].
    intros ((line & _ & <-) & _)%sibling_tags_of_spec. apply strip_idem.
Qed.

(** X16.  A tag of the pre-release form whose number has more than
    4300 digits is refused like a malformed one, before any command is
    run: [main] returns 2, writes no report and leaves the log and the
    world untouched.  What it prints is the message of [int], not the
    grammar message. *)
Theorem overlong_number_fails_fast (args : Args) (policy : Policy)
    (σ : System World) (d1 d2 d3 stage d : string) :
  lang digits d1 -> lang digits d2 -> lang digits d3 ->
  stage ∈ ["alpha"; "beta"; "rc"] -> lang digits d ->
  tag args
  = "v" +:+ (d1 +:+ "." +:+ d2 +:+ "." +:+ d3) +:+ "-" +:+ stage +:+ "." +:+ d ->
  (4300 < String.length d)%nat ->
  main subprocess args policy σ =
  (Ret 2%Z, {| world := world σ; calls := calls σ;
               printed := printed σ
                          ++ [PyStr.int_limit_message (N.of_nat (String.length d))];
               written := written σ |}).
Proof.
  intros H1 H2 H3 Hst Hd Htag Hlen.
  assert (parse_tag (tag args)
          = Raise (ValueError (PyStr.int_limit_message (N.of_nat (String.length d)))))
    as Hp.
  { rewrite Htag, (parse_tag_prerelease d1 d2 d3 stage d H1 H2 H3 Hst Hd).
    assert (PyStr.int d
            = Raise (ValueError (PyStr.int_limit_message (N.of_nat (String.length d)))))
      as ->; [|reflexivity].
    apply int_raise. split; [|reflexivity].
    assert (N.of_nat 4300 = PyStr.int_max_str_digits) as <- by (vm_compute; reflexivity).
    lia. }
  unfold main. rewrite Hp. reflexivity.
Qed.

End MoreRuns.

(** ** The further properties on concrete repositories *)

Import MoreExamples.

Ltac in_log n := apply (list_elem_of_lookup_2 _ n); vm_compute; reflexivity.

Lemma sibling_tags_from_listing_witness :
  calls (FakeGit.start repo_rc_exists) = []
  /\ parse_tag "v1.0.0-alpha.1" = Ret ("1.0.0", "alpha", Some 1%N)
  /\ exists report p,
       written (run_alpha_after_rc Publish false).2 = Some report
       /\ (["git"; "tag"; "--list"; "v" +:+ "1.0.0" +:+ "*"], p)
          ∈ calls (run_alpha_after_rc Publish false).2
       /\ returncode p = 0%Z
       /\ forall t,
            (t ∈ report_sibling_tags report
             <-> (exists line, line ∈ PyStr.splitlines (PyStr.strip (stdout p))
                               /\ PyStr.strip line = t)
                 /\ t <> "" /\ t <> "v1.0.0-alpha.1")
            /\ (t ∈ report_sibling_tags report -> PyStr.strip t = t).
Proof.
  split; [reflexivity|]. split; [vm_compute; reflexivity|].
  apply (sibling_tags_from_listing FakeGit.subprocess
           (guard "v1.0.0-alpha.1" Publish false) FakeGit.no_policy
           (FakeGit.start repo_rc_exists) _ 0%Z "1.0.0" "alpha" (Some 1%N));
    vm_compute; reflexivity.
Defined.

Lemma prerequisite_violation_iff_witness :
  parse_tag "v1.0.0-rc.1" = Ret ("1.0.0", "rc", Some 1%N)
  /\ exists report,
       written run_rc_without_beta.2 = Some report
       /\ report_sibling_tags report = ["v1.0.0-alpha.1"]
       /\ msg_prerequisite "rc" "beta" "1.0.0" "v1.0.0-rc.1"
          ∈ report_violations report.
Proof.
  split; [vm_compute; reflexivity|].
  destruct (prerequisite_violation_iff FakeGit.subprocess
              (guard "v1.0.0-rc.1" Publish true) FakeGit.staged_policy
              (FakeGit.start repo_alpha_only) run_rc_without_beta.2 3%Z
              "1.0.0" "rc" (Some 1%N))
    as (report & Hw & Hiff).
  - vm_compute; reflexivity.
  - vm_compute; reflexivity.
  - exists report. split; [exact Hw|].
    assert (report_sibling_tags report = ["v1.0.0-alpha.1"]) as Hs
      by (vm_compute in Hw; injection Hw as <-; reflexivity).
    split; [exact Hs|]. apply Hiff. split; [vm_compute; reflexivity|].
    split; [discriminate|]. intros t v n Ht. rewrite Hs in Ht.
    apply list_elem_of_singleton in Ht. subst t. vm_compute. discriminate.
Defined.

Lemma regression_violation_iff_witness :
  parse_tag "v1.0.0-alpha.1" = Ret ("1.0.0", "alpha", Some 1%N)
  /\ exists report,
       written run_workspace_manifest.2 = Some report
       /\ report_sibling_tags report = []
       /\ msg_regression "1.0.0" "alpha" ∉ report_violations report.
Proof.
  split; [vm_compute; reflexivity|].
  destruct (regression_violation_iff FakeGit.subprocess
              (guard "v1.0.0-alpha.1" Publish false) FakeGit.no_policy
              (FakeGit.start repo_workspace_manifest) run_workspace_manifest.2 0%Z
              "1.0.0" "alpha" (Some 1%N))
    as (report & Hw & Hiff & _).
  - vm_compute; reflexivity.
  - vm_compute; reflexivity.
  - exists report. split; [exact Hw|].
    assert (report_sibling_tags report = []) as Hs
      by (vm_compute in Hw; injection Hw as <-; reflexivity).
    split; [exact Hs|]. intros (t & v & st & n & Ht & _)%Hiff.
    rewrite Hs in Ht. by apply elem_of_nil in Ht.
Defined.

Lemma only_five_git_commands_witness :
  calls (FakeGit.start not_a_work_tree) = []
  /\ exists version sha,
       fst <$> calls run_not_a_work_tree.2
       `sublist_of`
         [["git"; "fetch"; "--quiet"; "origin"; "main"; "--tags"];
          ["git"; "rev-parse"; "v1.0.0" +:+ "^{commit}"];
          ["git"; "merge-base"; "--is-ancestor"; sha; "origin/main"];
          ["git"; "tag"; "--list"; "v" +:+ version +:+ "*"];
          ["git"; "show"; "v1.0.0" +:+ ":Cargo.toml"]].
Proof.
  split; [reflexivity|].
  apply (only_five_git_commands FakeGit.subprocess
           (guard "v1.0.0" Publish true) FakeGit.no_policy
           (FakeGit.start not_a_work_tree) run_not_a_work_tree.2
           run_not_a_work_tree.1); vm_compute; reflexivity.
Defined.

Lemma ready_report_is_checked_witness :
  calls (FakeGit.start repo_offline) = []
  /\ parse_tag "v1.0.0-alpha.1" = Ret ("1.0.0", "alpha", Some 1%N)
  /\ exists report,
       written run_offline.2 = Some report
       /\ ready_to_publish report = true
       /\ (exists q, (["git"; "merge-base"; "--is-ancestor"; "a1"; "origin/main"], q)
                       ∈ calls run_offline.2
                     /\ returncode q = 0%Z)
       /\ (exists q cargo_version,
             (["git"; "show"; "v1.0.0-alpha.1" +:+ ":Cargo.toml"], q) ∈ calls run_offline.2
             /\ returncode q = 0%Z
             /\ scan_cargo_version (PyStr.splitlines (PyStr.strip (stdout q)))
                = Ret cargo_version
             /\ (cargo_version = "" \/ cargo_version = "1.0.0")).
Proof.
  split; [reflexivity|]. split; [vm_compute; reflexivity|].
  destruct (ready_report_is_checked FakeGit.subprocess
              (guard "v1.0.0-alpha.1" Publish true) FakeGit.no_policy
              (FakeGit.start repo_offline) run_offline.2 0%Z
              "1.0.0" "alpha" (Some 1%N))
    as (report & Hw & Hready).
  - reflexivity.
  - vm_compute; reflexivity.
  - vm_compute; reflexivity.
  - exists report. split; [exact Hw|].
    assert (ready_to_publish report = true) as Hr
      by (vm_compute in Hw; injection Hw as <-; reflexivity).
    split; [exact Hr|].
    destruct (Hready Hr) as (_ & _ & _ & Hsha & _).
    apply (Hsha "a1"). vm_compute in Hw. injection Hw as <-. reflexivity.
Defined.

Lemma unresolved_commit_skips_provenance_witness :
  calls (FakeGit.start repo_rc_exists) = []
  /\ parse_tag "v1.0.0-beta.1" = Ret ("1.0.0", "beta", Some 1%N)
  /\ exists report,
       written run_unknown_tag.2 = Some report
       /\ report_tag_sha report = None
       /\ ready_to_publish report = false
       /\ fst <$> calls run_unknown_tag.2
          = [["git"; "fetch"; "--quiet"; "origin"; "main"; "--tags"];
             ["git"; "rev-parse"; "v1.0.0-beta.1" +:+ "^{commit}"];
             ["git"; "tag"; "--list"; "v" +:+ "1.0.0" +:+ "*"]].
Proof.
  split; [reflexivity|]. split; [vm_compute; reflexivity|].
  destruct (unresolved_commit_skips_provenance FakeGit.subprocess
              (guard "v1.0.0-beta.1" Publish false) FakeGit.no_policy
              (FakeGit.start repo_rc_exists) run_unknown_tag.2 0%Z
              "1.0.0" "beta" (Some 1%N))
    as (report & Hw & Hfail & Hnone & _).
  - reflexivity.
  - vm_compute; reflexivity.
  - vm_compute; reflexivity.
  - exists report. split; [exact Hw|].
    destruct (Hfail (FakeGit.failed 128
                "fatal: ambiguous argument: unknown revision or path not in the working tree."))
      as (Hsha & _ & Hr).
    + in_log 1%nat.
    + discriminate.
    + split; [exact Hsha|]. split; [exact Hr|]. exact (Hnone Hsha).
Defined.

Lemma refresh_failure_only_warns_witness :
  calls (FakeGit.start repo_offline) = []
  /\ parse_tag "v1.0.0-alpha.1" = Ret ("1.0.0", "alpha", Some 1%N)
  /\ ready_to_publish <$> written run_offline.2 = Some true
  /\ exists report p rest,
       written run_offline.2 = Some report
       /\ calls run_offline.2
          = (["git"; "fetch"; "--quiet"; "origin"; "main"; "--tags"], p) :: rest
       /\ report_warnings report
          = (if bool_decide (returncode p <> 0%Z)
             then [msg_refresh
                     (msg_git_failed ["fetch"; "--quiet"; "origin"; "main"; "--tags"] p)]
             else [])
       /\ forall exc, msg_refresh exc ∉ report_violations report.
Proof.
  split; [reflexivity|]. split; [vm_compute; reflexivity|].
  split; [vm_compute; reflexivity|].
  apply (refresh_failure_only_warns FakeGit.subprocess
           (guard "v1.0.0-alpha.1" Publish true) FakeGit.no_policy
           (FakeGit.start repo_offline) run_offline.2 0%Z
           "1.0.0" "alpha" (Some 1%N)); vm_compute; reflexivity.
Defined.

Lemma unquoted_version_line_aborts_witness :
  calls (FakeGit.start repo_inherited_version) = []
  /\ (["git"; "show"; "v1.0.0-alpha.1" +:+ ":Cargo.toml"], FakeGit.ok inherited_manifest)
     ∈ calls run_inherited_version.2
  /\ scan_cargo_version
       (PyStr.splitlines (PyStr.strip (stdout (FakeGit.ok inherited_manifest))))
     = Raise (IndexError "list index out of range")
  /\ run_inherited_version.1 = Raise (IndexError "list index out of range")
  /\ written run_inherited_version.2 = written (FakeGit.start repo_inherited_version)
  /\ exit_status run_inherited_version.1 = 1%Z.
Proof.
  assert ((["git"; "show"; "v1.0.0-alpha.1" +:+ ":Cargo.toml"],
           FakeGit.ok inherited_manifest) ∈ calls run_inherited_version.2) as Hin
    by in_log 4%nat.
  split; [reflexivity|]. split; [exact Hin|]. split; [vm_compute; reflexivity|].
  apply (unquoted_version_line_aborts FakeGit.subprocess
           (guard "v1.0.0-alpha.1" Publish false) FakeGit.no_policy
           (FakeGit.start repo_inherited_version) run_inherited_version.2
           run_inherited_version.1 (FakeGit.ok inherited_manifest)
           (IndexError "list index out of range")).
  - reflexivity.
  - vm_compute; reflexivity.
  - exact Hin.
  - reflexivity.
  - vm_compute; reflexivity.
Defined.

Lemma stderr_lists_violations_witness :
  parse_tag "v1.0.0-rc.1" = Ret ("1.0.0", "rc", Some 1%N)
  /\ run_rc_without_beta.1 = Ret 3%Z
  /\ exists report,
       written run_rc_without_beta.2 = Some report
       /\ printed run_rc_without_beta.2
          = printed (FakeGit.start repo_alpha_only)
            ++ (if true && bool_decide (report_violations report <> [])
                then "prerelease guard violations found:"
                     :: (String.append "- " <$> report_violations report)
                else []).
Proof.
  split; [vm_compute; reflexivity|]. split; [vm_compute; reflexivity|].
  apply (stderr_lists_violations FakeGit.subprocess
           (guard "v1.0.0-rc.1" Publish true) FakeGit.staged_policy
           (FakeGit.start repo_alpha_only) run_rc_without_beta.2 (Ret 3%Z)
           "1.0.0" "rc" (Some 1%N)); vm_compute; reflexivity.
Defined.

Lemma long_number_digits : lang digits long_number.
Proof.
  split.
  - intros E. apply (f_equal String.length) in E. vm_compute in E. discriminate E.
  - intros c Hc. unfold long_number in Hc.
    rewrite list_ascii_of_string_of_list_ascii in Hc.
    apply list_elem_of_In, elem_of_replicate in Hc as [-> _]. reflexivity.
Qed.

Lemma overlong_number_fails_fast_witness :
  lang digits "1" /\ lang digits "0" /\ lang digits long_number
  /\ String.length long_number = 4301%nat
  /\ PyStr.int_limit_message 4301
     = "Exceeds the limit (4300 digits) for integer string conversion: value has 4301 digits; use sys.set_int_max_str_digits() to increase the limit"
  /\ run_long_number
     = (Ret 2%Z,
        {| world := repo_rc_exists; calls := [];
           printed := [] ++ [PyStr.int_limit_message
                               (N.of_nat (String.length long_number))];
           written := None |}).
Proof.
  assert (String.length long_number = 4301%nat) as Hlen by (vm_compute; reflexivity).
  split; [digits_literal|]. split; [digits_literal|].
  split; [exact long_number_digits|]. split; [exact Hlen|].
  split; [vm_compute; reflexivity|].
  apply (overlong_number_fails_fast FakeGit.subprocess
           (guard ("v1.0.0-rc." +:+ long_number) Publish true) FakeGit.no_policy
           (FakeGit.start repo_rc_exists) "1" "0" "0" "rc" long_number).
  - digits_literal.
  - digits_literal.
  - digits_literal.
  - do 2 (apply elem_of_cons; right). apply elem_of_cons. left. reflexivity.
  - exact long_number_digits.
  - reflexivity.
  - rewrite Hlen. lia.
Defined.
